(** * many-answers: the multi-provider orchestration layer

    A shallow embedding of [src/providers.js] (the timeout wrapper, the
    three provider adapters, the usage log and the image call),
    [src/config.js], [src/prompts.js], [src/server.js] (the retry helper,
    the history resolver, attachment inlining, the routes and the
    start-up) and [src/index.js] (the command line), followed by the
    properties the specification states about them and by further
    properties read off the code.

    Conventions.
    - A JavaScript string is a [string]; [String.length] and [substring]
      stand for [.length] and [.slice] on code units.
    - Everything that comes out of a request body or a configuration file
      is a [json] value, and the payloads handed to the vendor SDKs are
      [json] objects as well; a missing field reads as [JUndefined].
    - A promise returned by a vendor SDK is described by how it behaves
      against the timer it is raced with ([behaviour]).
    - The usage log is modelled on its own ([UsageLog]); the calls of
      [recordUsage] made by the handlers and what [console.log] prints
      are left out of the handlers: they do not feed back into any value
      the handlers compute. (A [console.log] whose formatting can throw
      is kept as the condition on which it throws.)
    - A conversion of a body value to a string or a number throws a
      [TypeError] on the values [unprintable] describes. The conversion
      functions ([to_string], [Number], [test]) give the result for the
      other values, and the code that applies them to a value of the
      request says where it throws instead: [logging_throws],
      [buildPromptWithAttachments], [timer_throws] and [ask] for
      [/api/ask], [stream] for [/api/stream], [call_adapter] and
      [decoding_error] for the chat-completion adapter. *)

From stdpp Require Import gmap strings list fin_maps pretty sorting.
From Equations Require Import Equations.
From Stdlib Require Import Ascii String ZArith.
Open Scope Z_scope.
Open Scope string_scope.
Open Scope list_scope.

(* ===================================================================== *)
(** * Part I: the program                                                 *)
(* ===================================================================== *)

(** ** JavaScript values *)

Module Js.

(** An [Error] object; [String(e)] is [name] when [message] is empty. *)
Record exn := Exn { name : string; message : string }.

(** [new Error(msg)] *)
Definition new_Error (msg : string) : exn :=
  {| name := "Error"; message := msg |}.

(** A number. Integers are printed in decimal (true of doubles that are
    integers below 1e21 in magnitude); any other finite double is carried
    by its printed form, since the code copies and prints numbers but
    never computes with them. *)
Inductive number : Type :=
| Int (z : Z)
| Frac (text : string)
| Inf (negative : bool)
| NaN.

(** The printed form of a number, as in a template literal. *)
Definition show_number (n : number) : string :=
  match n with
  | Int z => pretty z
  | Frac text => text
  | Inf false => "Infinity"
  | Inf true => "-Infinity"
  | NaN => "NaN"
  end.

(** A value found in a parsed JSON body or built by the code.
    [JUndefined] is what reading a missing field gives. Objects keep
    their fields in insertion order, one entry per key. *)
#[warnings="-register-all"]
Inductive json : Type :=
| JUndefined
| JNull
| JBool (b : bool)
| JNumber (n : number)
| JString (s : string)
| JArray (items : list json)
| JObject (fields : list (string * json)).

(** Truthiness of a string: it is not empty. *)
Definition nonempty (s : string) : bool :=
  match s with EmptyString => false | String _ _ => true end.

(** Truthiness: [if (v)], [!v], [v || d]. *)
Definition truthy (v : json) : bool :=
  match v with
  | JUndefined | JNull => false
  | JBool b => b
  | JNumber (Int z) => negb (z =? 0)%Z
  | JNumber NaN => false
  | JNumber _ => true
  | JString s => nonempty s
  | JArray _ | JObject _ => true
  end.

(** [v || d] *)
Definition or_else (v d : json) : json := if truthy v then v else d.

(** [v ?? d] *)
Definition nullish (v d : json) : json :=
  match v with JUndefined | JNull => d | _ => v end.

(** [v !== undefined ? v : d] *)
Definition if_defined (v d : json) : json :=
  match v with JUndefined => d | _ => v end.

(** [Array.isArray(v)] *)
Definition isArray (v : json) : bool :=
  match v with JArray _ => true | _ => false end.

(** [typeof v === 'string'] *)
Definition isString (v : json) : bool :=
  match v with JString _ => true | _ => false end.

(** [typeof v === 'number'] *)
Definition isNumber (v : json) : bool :=
  match v with JNumber _ => true | _ => false end.

(** [Number.isFinite(v)] *)
Definition isFinite (v : json) : bool :=
  match v with JNumber (Int _) | JNumber (Frac _) => true | _ => false end.

(** [v === s] for a string literal [s]. *)
Definition equals (v : json) (s : string) : bool :=
  match v with JString s' => String.eqb s' s | _ => false end.

(** The elements of an array (nothing for any other value). *)
Definition elements (v : json) : list json :=
  match v with JArray items => items | _ => [] end.

(** [String(v)], which is also what a template literal and a regular
    expression test apply to [v], for a value on which the conversion
    returns; [unprintable] below says when it throws instead. *)
Fixpoint to_string (v : json) : string :=
  match v with
  | JUndefined => "undefined"
  | JNull => "null"
  | JBool true => "true"
  | JBool false => "false"
  | JNumber n => show_number n
  | JString s => s
  | JArray items =>
      String.concat ","
        (map (fun x => match x with
                       | JUndefined | JNull => ""
                       | _ => to_string x
                       end) items)
  | JObject _ => "[object Object]"
  end.

(** [items.join(sep)] *)
Definition join (sep : string) (items : list json) : string :=
  String.concat sep
    (map (fun x => match x with
                   | JUndefined | JNull => ""
                   | _ => to_string x
                   end) items).

Fixpoint lookup_field (k : string) (fields : list (string * json)) : json :=
  match fields with
  | [] => JUndefined
  | (k', v) :: rest => if String.eqb k k' then v else lookup_field k rest
  end.

(** Value of a string of decimal digits. *)
Fixpoint digits (s : string) (acc : nat) : option nat :=
  match s with
  | EmptyString => Some acc
  | String c s' =>
      match Ascii.is_nat c with
      | Some d => digits s' (10 * acc + d)%nat
      | None => None
      end
  end.

(** A property key that is a canonical array index. *)
Definition array_index (k : string) : option nat :=
  match k with
  | EmptyString => None
  | _ => match digits k 0%nat with
         | Some n => if String.eqb (pretty n) k then Some n else None
         | None => None
         end
  end.

(** [v?.[k]]: optional chaining, then property lookup. Own properties
    are exact. Of the inherited ones only [__proto__] of an array is an
    array itself ([Array.prototype], which is empty); every other
    inherited member is a function or a plain prototype object, which
    the code below cannot tell from [undefined] (it applies
    [Array.isArray], [typeof], [===] with a string and truthiness
    defaults to what it reads under the keys it uses), so those read as
    [JUndefined]. *)
Definition get (v : json) (k : string) : json :=
  match v with
  | JObject fields => lookup_field k fields
  | JArray items =>
      match array_index k with
      | Some i => nth i items JUndefined
      | None =>
          if String.eqb k "length" then
            JNumber (Int (Z.of_nat (List.length items)))
          else if String.eqb k "__proto__" then JArray []
          else JUndefined
      end
  | JString s =>
      match array_index k with
      | Some i =>
          match String.get i s with
          | Some c => JString (String c EmptyString)
          | None => JUndefined
          end
      | None =>
          if String.eqb k "length" then
            JNumber (Int (Z.of_nat (String.length s)))
          else JUndefined
      end
  | _ => JUndefined
  end.

(** [v?.[k]] for a key [k] taken from the body; the code reads it only
    after [typeof k === 'string']. *)
Definition get_at (v k : json) : json :=
  match k with JString m => get v m | _ => JUndefined end.

(** [obj[k] = v] on an object: replaces the field, or appends it. *)
Fixpoint set_field (k : string) (v : json) (fields : list (string * json))
  : list (string * json) :=
  match fields with
  | [] => [(k, v)]
  | (k', v') :: rest =>
      if String.eqb k k' then (k, v) :: rest
      else (k', v') :: set_field k v rest
  end.

Definition set (obj : json) (k : string) (v : json) : json :=
  match obj with
  | JObject fields => JObject (set_field k v fields)
  | _ => obj
  end.

(** The own enumerable properties that [{...v}] copies. *)
Definition own_entries (v : json) : list (string * json) :=
  match v with
  | JObject fields => fields
  | JArray items => imap (fun i x => (pretty i, x)) items
  | JString s =>
      imap (fun i c => (pretty i, JString (String c EmptyString)))
           (list_ascii_of_string s)
  | _ => []
  end.

(** [{...base, ...v}] *)
Definition spread (base v : json) : json :=
  foldl (fun o kv => set o (fst kv) (snd kv)) base (own_entries v).

(** Whether an object has the field at all. *)
Definition has_field (v : json) (k : string) : bool :=
  match v with
  | JObject fields => existsb (fun kv => String.eqb (fst kv) k) fields
  | _ => false
  end.

(** ASCII lower case, for [/.../i]. *)
Definition lower (c : ascii) : ascii :=
  let n := nat_of_ascii c in
  if (65 <=? n)%nat && (n <=? 90)%nat then ascii_of_nat (n + 32) else c.

Fixpoint lowercase (s : string) : string :=
  match s with
  | EmptyString => EmptyString
  | String c s' => String (lower c) (lowercase s')
  end.

(** [hay.includes(needle)] *)
Fixpoint includes (needle hay : string) : bool :=
  String.prefix needle hay ||
  match hay with
  | EmptyString => false
  | String _ rest => includes needle rest
  end.

(** [/needle/i.test(v)] for a pattern of literal characters, given in
    lower case. *)
Definition test_i (needle : string) (v : json) : bool :=
  includes needle (lowercase (to_string v)).

(** [/needle/.test(v)] for a pattern of literal characters. *)
Definition test (needle : string) (v : json) : bool :=
  includes needle (to_string v).

(** White space removed by [trim] (code units below 256). *)
Definition is_space (c : ascii) : bool :=
  let n := nat_of_ascii c in
  ((9 <=? n)%nat && (n <=? 13)%nat) || (n =? 32)%nat || (n =? 160)%nat.

Fixpoint trim_start (s : string) : string :=
  match s with
  | EmptyString => EmptyString
  | String c s' => if is_space c then trim_start s' else s
  end.

(** [s.trim()] *)
Definition trim (s : string) : string :=
  String.rev (trim_start (String.rev (trim_start s))).

Section ToNumber.
(** The numeric value of a string (the StringNumericLiteral grammar of
    the language), which no property below depends on. *)
Variable StringToNumber : string -> number.

(** [Number(v)], for a value on which the conversion returns (see
    [unprintable]). *)
Definition Number (v : json) : number :=
  match v with
  | JUndefined => NaN
  | JNull => Int 0
  | JBool true => Int 1
  | JBool false => Int 0
  | JNumber n => n
  | JString s => StringToNumber s
  | JArray _ => StringToNumber (to_string v)
  | JObject _ => NaN
  end.

End ToNumber.

(** A stand-in for the numeric value of a string: decimal digits only. *)
Definition digits_only (s : string) : number :=
  match s with
  | EmptyString => Int 0
  | _ => match digits s 0%nat with
         | Some n => Int (Z.of_nat n)
         | None => NaN
         end
  end.

(** Specification: [s] without its first [n] characters, and whether
    [pat] occurs in [text] (tried at every position where it fits). *)
Fixpoint skip (n : nat) (s : string) : string :=
  match n, s with
  | O, _ => s
  | S n, String _ s' => skip n s'
  | S _, EmptyString => EmptyString
  end.

Definition occurs (pat text : string) : bool :=
  existsb (fun n => String.prefix pat (skip n text))
          (seq 0 (S (String.length text - String.length pat))).

(** The conversions [String(v)], a template literal, [RegExp.test(v)]
    and [Number(v)] throw a [TypeError] for an object that has a field
    [toString] (in a parsed body a field is never a function, so the
    object cannot be converted to a primitive), and for an array that
    holds such an object, since an array is converted by joining the
    strings of its elements. Every other value is converted. *)
Fixpoint unprintable (v : json) : bool :=
  match v with
  | JObject fields => existsb (fun kv => String.eqb (fst kv) "toString") fields
  | JArray items => existsb unprintable items
  | _ => false
  end.

(** The error such a conversion throws, with the message V8 gives it. *)
Definition type_error : exn :=
  {| name := "TypeError";
     message := "Cannot convert object to primitive value" |}.

(** [console.log(format, value)] formats through [util.format]: the
    first of the specifiers [%s %j %d %O %o %i %f %c] in [format] takes
    [value] ([%%], and [%] before any other character, are skipped
    together with the character that follows). *)
Fixpoint specifier (format : string) : option ascii :=
  match format with
  | String "%" (String c rest) =>
      if existsb (Ascii.eqb c)
           ["s"; "j"; "d"; "O"; "o"; "i"; "f"; "c"]%char
      then Some c
      else specifier rest
  | String _ rest => specifier rest
  | EmptyString => None
  end.

(** The specifiers [%d], [%i] and [%f] convert the value with [Number],
    [parseInt] and [parseFloat]; the others print it without converting
    it. *)
Definition converts (format : string) : bool :=
  match specifier format with
  | Some c => existsb (Ascii.eqb c) ["d"; "i"; "f"]%char
  | None => false
  end.

(** [String(e?.message || e)] for an [Error] object [e]. *)
Definition error_text (e : exn) : string :=
  if nonempty (message e) then message e else name e.

End Js.

(** ** providers.js: defaults and the timeout wrapper *)

Module Providers.
Import Js.

Record defaults := Defaults {
  openaiModel : json;
  claudeModel : json;
  geminiModel : json;
  temperature : json;
  maxTokens : json;
  timeoutMs : json;
}.

Definition DEFAULTS : defaults := {|
  openaiModel := JString "gpt-5-mini-2025-08-07";
  claudeModel := JString "claude-3-5-sonnet-latest";
  geminiModel := JString "gemini-1.5-flash";
  temperature := JNumber (Frac "0.2");
  maxTokens := JNumber (Int 1024);
  timeoutMs := JNumber (Int 30000);
|}.

(** Meta-instructions for the deep-research models (Responses API). *)
Definition DEEP_RESEARCH_PLANNER_INSTRUCTIONS : string :=
"
You will be given a research task by a user. Your job is to produce a set of
instructions for a researcher that will complete the task. Do NOT complete the
task yourself, just provide instructions on how to complete it.

GUIDELINES:
1. **Maximize Specificity and Detail**
- Include all known user preferences and explicitly list key attributes or
  dimensions to consider.
- It is of utmost importance that all details from the user are included in
  the instructions.

2. **Fill in Unstated But Necessary Dimensions as Open-Ended**
- If certain attributes are essential for a meaningful output but the user
  has not provided them, explicitly state that they are open-ended or default
  to no specific constraint.

3. **Avoid Unwarranted Assumptions**
- If the user has not provided a particular detail, do not invent one.
- Instead, state the lack of specification and guide the researcher to treat
  it as flexible or accept all possible options.

4. **Use the First Person**
- Phrase the request from the perspective of the user.

5. **Tables**
- If you determine that including a table will help illustrate, organize, or
  enhance the information in the research output, you must explicitly request
  that the researcher provide them (examples: product comparison, project
  tracking, budget planning, competitor analysis).

6. **Headers and Formatting**
- Include the expected output format in the prompt.
- If the user is asking for content that would be best returned in a
  structured format (e.g. a report, plan, etc.), ask the researcher to format
  as a report with the appropriate headers and formatting that ensures clarity
  and structure.

7. **Language**
- If the user input is in a language other than English, tell the researcher
  to respond in this language, unless the user query explicitly asks for the
  response in a different language.

8. **Sources**
- If specific sources should be prioritized, specify them in the prompt.
- For product and travel research, prefer linking directly to official or
  primary websites.
- For academic or scientific queries, prefer linking directly to the original
  paper or journal publication.
- If the query is in a specific language, prioritize sources published in that
  language.".

(** How a promise settles. *)
Inductive settlement (V : Type) : Type :=
| Fulfils (v : V)
| Rejects (e : exn).
Arguments Fulfils {V} v.
Arguments Rejects {V} e.

(** The behaviour of an in-flight operation relative to the timer it is
    raced against: it settles before the timer is due, or the timer is
    due first and the operation settles later or never. *)
Inductive behaviour (V : Type) : Type :=
| SettlesFirst (s : settlement V)
| TimerFirst (late : option (settlement V)).
Arguments SettlesFirst {V} s.
Arguments TimerFirst {V} late.

(** The object the wrapper resolves with: [{ok: true, value}] or
    [{ok: false, error}]. *)
Record result (V : Type) : Type := Result {
  ok : bool;
  value : option V;
  error : option exn;
}.
Arguments Result {V} ok value error.
Arguments ok {V} r.
Arguments value {V} r.
Arguments error {V} r.

(** State of the promise created by [new Promise((resolve) => ...)]. *)
Inductive promise_state (V : Type) : Type :=
| Pending
| Resolved (r : result V)
| RejectedWith (e : exn).
Arguments Pending {V}.
Arguments Resolved {V} r.
Arguments RejectedWith {V} e.

(** What the event loop delivers to the wrapper. *)
Inductive event (V : Type) : Type :=
| TimerDue                  (* the [setTimeout] delay has elapsed *)
| OnThen (v : V)            (* the operation fulfilled: [.then] callback *)
| OnCatch (e : exn).        (* the operation rejected: [.catch] callback *)
Arguments TimerDue {V}.
Arguments OnThen {V} v.
Arguments OnCatch {V} e.

(** The wrapper while it runs: its promise, whether [timer] is still
    scheduled, and every settlement delivered to whoever awaits the
    promise (a promise notifies its reactions when it leaves [Pending],
    and only then). *)
Record wrapper (V : Type) : Type := Wrapper {
  promise : promise_state V;
  timer : bool;
  delivered : list (result V);
}.
Arguments Wrapper {V} promise timer delivered.
Arguments promise {V} w.
Arguments timer {V} w.
Arguments delivered {V} w.

Section WithTimeout.
Context {V : Type}.
Variable timeoutMs : json.
Variable label : string.

(** The [resolve] function of a promise: the first call settles it,
    later calls are ignored. *)
Definition resolve (r : result V) (w : wrapper V) : wrapper V :=
  match promise w with
  | Pending =>
      {| promise := Resolved r; timer := timer w;
         delivered := delivered w ++ [r] |}
  | _ => w
  end.

Definition clearTimeout (w : wrapper V) : wrapper V :=
  {| promise := promise w; timer := false; delivered := delivered w |}.

(** [new Error(`${label} timed out after ${timeoutMs}ms`)] *)
Definition timeout_error : exn :=
  new_Error (label +:+ " timed out after " +:+ to_string timeoutMs +:+ "ms").

(** The three callbacks of [withTimeout]. *)
Definition step (w : wrapper V) (ev : event V) : wrapper V :=
  match ev with
  | TimerDue =>
      if timer w then
        resolve {| ok := false; value := None; error := Some timeout_error |}
                {| promise := promise w; timer := false;
                   delivered := delivered w |}
      else w
  | OnThen v =>
      resolve {| ok := true; value := Some v; error := None |}
              (clearTimeout w)
  | OnCatch e =>
      resolve {| ok := false; value := None; error := Some e |}
              (clearTimeout w)
  end.

(** The executor has run: timer scheduled, callbacks attached. *)
Definition started : wrapper V :=
  {| promise := Pending; timer := true; delivered := [] |}.

Definition run (evs : list (event V)) (w : wrapper V) : wrapper V :=
  foldl step w evs.

Definition settle_event (s : settlement V) : event V :=
  match s with
  | Fulfils v => OnThen v
  | Rejects e => OnCatch e
  end.

(** Order in which the event loop reaches the callbacks. *)
Definition schedule (b : behaviour V) : list (event V) :=
  match b with
  | SettlesFirst s => [settle_event s; TimerDue]
  | TimerFirst None => [TimerDue]
  | TimerFirst (Some s) => [TimerDue; settle_event s]
  end.

(** [withTimeout(promise, timeoutMs, label)], run to quiescence. *)
Definition withTimeout (b : behaviour V) : wrapper V :=
  run (schedule b) started.

(** [await p]: the value the promise resolved with; [None] stands for
    a promise that stays pending or rejects (the awaiting function
    then never gets a result). *)
Definition await (w : wrapper V) : option (result V) :=
  match promise w with
  | Resolved r => Some r
  | _ => None
  end.

(** Specification: what the callback behind an event resolves the
    promise with. *)
Definition resolution (ev : event V) : result V :=
  match ev with
  | TimerDue =>
      {| ok := false; value := None; error := Some timeout_error |}
  | OnThen v => {| ok := true; value := Some v; error := None |}
  | OnCatch e => {| ok := false; value := None; error := Some e |}
  end.

(** Specification: the result by cases on the behaviour. *)
Definition outcome (b : behaviour V) : result V :=
  match b with
  | SettlesFirst (Fulfils v) =>
      {| ok := true; value := Some v; error := None |}
  | SettlesFirst (Rejects e) =>
      {| ok := false; value := None; error := Some e |}
  | TimerFirst _ =>
      {| ok := false; value := None; error := Some timeout_error |}
  end.

End WithTimeout.

End Providers.

(** ** config.js *)

Module Config.
Import Js Providers.

Definition defaultSystem : string :=
  "You are a helpful assistant. Be concise and direct.".

Definition base : json :=
  JObject [("system", JString defaultSystem);
           ("temperature", temperature DEFAULTS);
           ("maxTokens", maxTokens DEFAULTS);
           ("timeoutMs", timeoutMs DEFAULTS)].

Section Files.
(** [readJsonSafe(fileName)]: the parsed content of a file of the
    configuration directory, [JNull] when it is missing or unreadable. *)
Variable readJsonSafe : string -> json.

(** [loadProviderConfig()] *)
Definition loadProviderConfig : json :=
  JObject
    [("openai", spread base (or_else (readJsonSafe "openai.json") (JObject [])));
     ("claude", spread base (or_else (readJsonSafe "claude.json") (JObject [])));
     ("gemini", spread base (or_else (readJsonSafe "gemini.json") (JObject [])))].

(** [loadModelSpecificConfig(model)] *)
Definition loadModelSpecificConfig (model : json) : json :=
  let fallback := spread base (readJsonSafe "openai.json") in
  if equals model "gpt-5-mini" || equals model "gpt-5-mini-2025-08-07" then
    let gpt5MiniConfig := readJsonSafe "gpt5-mini.json" in
    if truthy gpt5MiniConfig then spread base gpt5MiniConfig
    else fallback
  else fallback.

End Files.

(** A configuration directory without files. *)
Definition no_files (fileName : string) : json := JNull.

End Config.

(** ** providers.js: the three adapters *)

Module Adapters.
Import Js Providers Config.

(** [process.env]: a variable is a string or is not set. *)
Record environment := Environment {
  OPENAI_API_KEY : option string;
  ANTHROPIC_API_KEY : option string;
  GEMINI_API_KEY : option string;
  GOOGLE_API_KEY : option string;
}.

(** Truthiness of an environment variable. *)
Definition configured (v : option string) : bool :=
  match v with Some s => nonempty s | None => false end.

(** The argument object of an adapter. *)
Record ask_args := AskArgs {
  prompt : json;
  system : json;
  model : json;
  temperature : json;
  maxTokens : json;
  maxCompletionTokens : json;
  history : json;
  useModelConfig : bool;
}.

(** One call of a vendor SDK method. *)
Record vendor_call := VendorCall {
  endpoint : string;
  payload : json;
}.

(** What running an adapter amounts to: it throws before any network
    call, or it makes one SDK call and decodes the response. (For the
    message-style and the generative-content-style adapter the decoding
    of the response is left to the SDK promise: its value stands for the
    text the adapter returns.) *)
Inductive adapter_run : Type :=
| Throws (e : exn)
| Calls (c : vendor_call) (decode : json -> json).

(** [if (Array.isArray(history)) for (const m of history) body(m)],
    where [body] says what the iteration pushes. *)
Definition for_of {A : Type} (history : json) (body : json -> list A) : list A :=
  if isArray history then flat_map body (elements history) else [].

(** [typeof m?.content === 'string' ? m.content : ''] *)
Definition content_of (m : json) : string :=
  match get m "content" with JString s => s | _ => "" end.

(** [{ role, content }] *)
Definition message (role : string) (content : json) : json :=
  JObject [("role", JString role); ("content", content)].

Definition nl : string := String (ascii_of_nat 10) EmptyString.

(** Decoding of a Responses API response whose fragments can be joined
    (see [decode_responses_throws]). *)
Definition decode_responses (response : json) : json :=
  let output_text := get response "output_text" in
  if isString output_text && nonempty (to_string output_text) then
    output_text
  else
    let out := get response "output" in
    let combined :=
      String.concat ""
        (for_of out (fun item =>
           if isString (get item "text") then [to_string (get item "text")]
           else if isArray (get item "content") then
             [join "" (map (fun c => or_else (get c "text") (JString ""))
                           (elements (get item "content")))]
           else [])) in
    JString combined.

(** Whether the decoding of a response throws: without a non-empty
    [output_text], the texts of the content of each item without a
    string [text] are joined, which converts them to strings. *)
Definition decode_responses_throws (response : json) : bool :=
  let output_text := get response "output_text" in
  if isString output_text && nonempty (to_string output_text) then false
  else
    existsb (fun item =>
               negb (isString (get item "text"))
               && isArray (get item "content")
               && existsb (fun c => unprintable (or_else (get c "text")
                                                         (JString "")))
                          (elements (get item "content")))
            (if isArray (get response "output")
             then elements (get response "output") else []).

(** Decoding of a chat completion that is not [null] or [undefined] and
    whose content can be joined (see [decode_chat_throws] for the
    completions on which the adapter throws instead). *)
Definition decode_chat (completion : json) : json :=
  let choice := get (get (get completion "choices") "0") "message" in
  if isArray (get choice "content") then
    JString (join ""
      (map (fun c => if isString c then c
                     else or_else (get c "text") (JString ""))
           (elements (get choice "content"))))
  else nullish (get choice "content") (JString "").

(** The error the decoding of a chat completion throws, if any:
    [completion.choices] throws for [null] and [undefined], and joining
    a content array converts the [text] of its items that are not
    strings. (The messages are those V8 gives.) *)
Definition decode_chat_throws (completion : json) : option exn :=
  match completion with
  | JNull =>
      Some (Exn "TypeError"
                "Cannot read properties of null (reading 'choices')")
  | JUndefined =>
      Some (Exn "TypeError"
                "Cannot read properties of undefined (reading 'choices')")
  | _ =>
      let choice := get (get (get completion "choices") "0") "message" in
      if isArray (get choice "content")
         && existsb (fun c => negb (isString c)
                              && unprintable (or_else (get c "text")
                                                      (JString "")))
                    (elements (get choice "content"))
      then Some type_error
      else None
  end.

(** No decoding: the SDK promise already stands for the text. *)
Definition sdk_text (text : json) : json := text.

(** The role given to a history turn: by the chat-completion adapter
    (and the streaming handler), by the same adapter in its Responses API
    input, by the message adapter and by the generative-content adapter. *)
Definition chat_role (m : json) : string :=
  if equals (get m "role") "assistant" then "assistant"
  else if equals (get m "role") "system" then "system"
  else "user".

Definition research_role (m : json) : string :=
  if equals (get m "role") "assistant" then "Assistant"
  else if equals (get m "role") "system" then "System"
  else "User".

Definition claude_role (m : json) : string :=
  if equals (get m "role") "assistant" then "assistant" else "user".

Definition gemini_role (m : json) : string :=
  if equals (get m "role") "assistant" then "model" else "user".

(** [{ role, parts: [{ text }] }] *)
Definition content_entry (role : string) (text : json) : json :=
  JObject [("role", JString role); ("parts", JArray [JObject [("text", text)]])].

(** [/deep-research/i.test(model || '')], when the test returns (it
    converts the model to a string; see [askOpenAI_throws]). *)
Definition usesResponsesApi (model : json) : bool :=
  test_i "deep-research" (or_else model (JString "")).

(** [/gpt-5/i.test(model) || /-2025-/.test(model)], when the tests
    return. *)
Definition isGpt5 (model : json) : bool :=
  test_i "gpt-5" model || test "-2025-" model.

(** The sampling parameters put on a chat payload. *)
Definition with_sampling (isGpt5 : bool)
    (temperature maxTokens maxCompletionTokens : json) (payload : json) : json :=
  let payload :=
    if negb isGpt5 && isNumber temperature then
      set payload "temperature" temperature
    else payload in
  if isGpt5 then
    if isNumber (nullish maxCompletionTokens maxTokens) then
      set payload "max_completion_tokens" (nullish maxCompletionTokens maxTokens)
    else payload
  else
    if isNumber (nullish maxTokens maxCompletionTokens) then
      set payload "max_tokens" (nullish maxTokens maxCompletionTokens)
    else payload.

(** The tools declared to a deep-research model. *)
Definition research_tools : json :=
  JArray
    [JObject [("type", JString "web_search_preview")];
     JObject [("type", JString "code_interpreter");
              ("container", JObject [("type", JString "auto")])]].

Section WithFiles.
Variable env : environment.
Variable readJsonSafe : string -> json.

(** The block [if (useModelConfig) { ... }] of [askOpenAI]: the argument
    object after the defaults of the model-specific file are filled in. *)
Definition with_model_config (a : ask_args) : ask_args :=
  if useModelConfig a then
    let modelConfig := loadModelSpecificConfig readJsonSafe (model a) in
    {| prompt := prompt a;
       system := or_else (system a) (get modelConfig "system");
       model := model a;
       temperature := if_defined (temperature a) (get modelConfig "temperature");
       maxTokens := if_defined (maxTokens a) (get modelConfig "maxTokens");
       maxCompletionTokens :=
         if_defined (maxCompletionTokens a) (get modelConfig "maxTokens");
       history := history a;
       useModelConfig := useModelConfig a |}
  else a.

(** [messages] of [askOpenAI] *)
Definition chat_messages (a : ask_args) : list json :=
  (if truthy (system a) then [message "system" (system a)] else [])
  ++ for_of (history a) (fun m =>
       let role := chat_role m in
       let content := content_of m in
       if nonempty content then [message role (JString content)] else [])
  ++ [message "user" (prompt a)].

(** [parts] of [askOpenAI] *)
Definition research_parts (a : ask_args) : list string :=
  ["System: " +:+ DEEP_RESEARCH_PLANNER_INSTRUCTIONS]
  ++ (if truthy (system a) then ["System: " +:+ to_string (system a)] else [])
  ++ for_of (history a) (fun m =>
       let role := research_role m in
       let content := content_of m in
       if nonempty content then [role +:+ ": " +:+ content] else [])
  ++ ["User: " +:+ to_string (prompt a)].

(** [askOpenAI({ prompt, system, model, temperature, maxTokens,
    maxCompletionTokens, history, useModelConfig = false })], for
    arguments on which its conversions to a string return;
    [askOpenAI_throws] below says when one of them throws, and
    [Server.call_adapter] is the call with that case. *)
Definition askOpenAI (a : ask_args) : adapter_run :=
  if negb (configured (OPENAI_API_KEY env)) then
    Throws (new_Error "Missing OPENAI_API_KEY")
  else
    let a := with_model_config a in
    let messages := chat_messages a in
    if usesResponsesApi (model a) then
      let parts := research_parts a in
      let input := String.concat (nl +:+ nl) parts in
      let payload :=
        JObject [("model", model a);
                 ("input", JString input);
                 ("tools", research_tools)] in
      Calls {| endpoint := "responses.create"; payload := payload |}
            decode_responses
    else
      let payload := JObject [("model", model a); ("messages", JArray messages)] in
      let payload :=
        with_sampling (isGpt5 (model a)) (temperature a) (maxTokens a)
                      (maxCompletionTokens a) payload in
      Calls {| endpoint := "chat.completions.create"; payload := payload |}
            decode_chat.

(** Specification: whether [askOpenAI], with its key set, throws a
    [TypeError] before its SDK call. The tests on [model] convert it to
    a string, and so do, in deep-research mode, the template literals
    around [system] and [prompt]. ([askOpenAI] above describes the call
    for arguments on which these conversions return.) *)
Definition askOpenAI_throws (a : ask_args) : bool :=
  let a := with_model_config a in
  unprintable (or_else (model a) (JString ""))
  || (usesResponsesApi (model a)
      && ((truthy (system a) && unprintable (system a))
          || unprintable (prompt a))).

(** [messages] of [askClaude] *)
Definition claude_messages (a : ask_args) : list json :=
  for_of (history a) (fun m =>
    let role := claude_role m in
    let content := content_of m in
    if nonempty content then [message role (JString content)] else [])
  ++ [message "user" (prompt a)].

(** [askClaude({ prompt, system, model, temperature, maxTokens, history })] *)
Definition askClaude (a : ask_args) : adapter_run :=
  if negb (configured (ANTHROPIC_API_KEY env)) then
    Throws (new_Error "Missing ANTHROPIC_API_KEY")
  else
    let messages := claude_messages a in
    Calls
      {| endpoint := "messages.create";
         payload :=
           JObject [("model", model a);
                    ("system", or_else (system a) JUndefined);
                    ("max_tokens", maxTokens a);
                    ("temperature", temperature a);
                    ("messages", JArray messages)] |}
      sdk_text.

(** [contents] of [askGemini] *)
Definition gemini_contents (a : ask_args) : list json :=
  for_of (history a) (fun m =>
    let role := gemini_role m in
    let text := content_of m in
    if nonempty text then [content_entry role (JString text)] else [])
  ++ [content_entry "user" (prompt a)].

(** [askGemini({ prompt, system, model, temperature, maxTokens, history })].
    The payload holds the argument of [getGenerativeModel] next to the
    two fields of the argument of [generateContent]. *)
Definition askGemini (a : ask_args) : adapter_run :=
  let apiKey :=
    if configured (GEMINI_API_KEY env) then GEMINI_API_KEY env
    else GOOGLE_API_KEY env in
  if negb (configured apiKey) then
    Throws (new_Error "Missing GEMINI_API_KEY or GOOGLE_API_KEY")
  else
    let geminiModel :=
      JObject ([("model", model a)]
               ++ own_entries (if truthy (system a)
                               then JObject [("systemInstruction", system a)]
                               else JObject [])) in
    let generationConfig :=
      JObject [("temperature", temperature a);
               ("maxOutputTokens", maxTokens a)] in
    let contents := gemini_contents a in
    Calls
      {| endpoint := "generateContent";
         payload :=
           JObject [("getGenerativeModel", geminiModel);
                    ("contents", JArray contents);
                    ("generationConfig", generationConfig)] |}
      sdk_text.

End WithFiles.

(** The message list an adapter hands to its vendor. *)
Definition sent_messages (r : adapter_run) : list json :=
  match r with
  | Throws _ => []
  | Calls c _ =>
      if String.eqb (endpoint c) "generateContent"
      then elements (get (payload c) "contents")
      else elements (get (payload c) "messages")
  end.

(** The text of a message: [content], or [parts[0].text] in the
    generative-content shape. *)
Definition message_text (m : json) : json :=
  if has_field m "parts" then get (get (get m "parts") "0") "text"
  else get m "content".

(** Specification: the turns of a transcript that survive the filter
    [if (content)], with the text each one carries. *)
Definition kept_turns (history : json) : list json :=
  filter (fun m => nonempty (content_of m) = true)
         (if isArray history then elements history else []).

(** Specification: the parameter switch between the two model families,
    read off a payload. [temperature], [maxTokens] and
    [maxCompletionTokens] are the values the adapter works with. *)
Definition switched (model temperature maxTokens maxCompletionTokens : json)
    (payload : json) : bool :=
  if isGpt5 model then
    negb (has_field payload "temperature")
    && negb (has_field payload "max_tokens")
    && (if isNumber (nullish maxCompletionTokens maxTokens)
        then has_field payload "max_completion_tokens"
        else negb (has_field payload "max_completion_tokens"))
  else
    (if isNumber temperature
     then has_field payload "temperature"
     else negb (has_field payload "temperature"))
    && negb (has_field payload "max_completion_tokens")
    && (if isNumber (nullish maxTokens maxCompletionTokens)
        then has_field payload "max_tokens"
        else negb (has_field payload "max_tokens")).

(** Specification: no message of a list has an empty text, and the list
    ends with the user's prompt. *)
Definition no_empty_message (msgs : list json) : Prop :=
  Forall (fun m => truthy (message_text m) = true) msgs.

Definition ends_with_prompt (prompt : json) (msgs : list json) : Prop :=
  exists m, last msgs = Some m
            /\ get m "role" = JString "user" /\ message_text m = prompt.

(** Specification: the text fragments of one item of [response.output]. *)
Definition fragments (item : json) : list string :=
  if isString (get item "text") then [to_string (get item "text")]
  else if isArray (get item "content") then
    [join "" (map (fun c => or_else (get c "text") (JString ""))
                  (elements (get item "content")))]
  else [].

(** The argument object with other sampling parameters. *)
Definition with_limits (a : ask_args) (t mt mct : json) : ask_args :=
  {| prompt := prompt a; system := system a; model := model a;
     temperature := t; maxTokens := mt; maxCompletionTokens := mct;
     history := history a; useModelConfig := useModelConfig a |}.

(** The payload of the SDK call an adapter makes. *)
Definition sent_payload (r : adapter_run) : json :=
  match r with
  | Throws _ => JUndefined
  | Calls c _ => payload c
  end.

End Adapters.

(** ** server.js: retries, histories, attachments *)

Module Server.
Import Js Providers Config Adapters.

Section RunWithRetries.
Context {V W : Type}.
Variable label : string.
(** [taskFactory()] starts a fresh operation; [W] is whatever state the
    closure reads and writes. *)
Variable taskFactory : W -> behaviour V * W.
Variable attempts : Z.
Variable perAttemptTimeoutMs : json.

(** [attempt(n)]. The last component counts the calls of [taskFactory]
    made so far. *)
Equations? attempt (n : Z) (w : W) (made : nat)
  : option (result V * W * nat)
  by wf (Z.to_nat (attempts - n)) lt :=
  attempt n w made with taskFactory w => {
    | (task, w') with await (withTimeout perAttemptTimeoutMs label task) => {
      | None := None
      | Some r with ok r => {
        | true := Some (r, w', S made)
        | false with Z_ge_dec (n + 1) attempts => {
          | left _ := Some (r, w', S made)
          | right _ := attempt (n + 1) w' (S made) } } } }.
Proof. lia. Qed.

(** Specification: the closure state before the [i]-th call of
    [taskFactory] (counting from 0), the operation that call starts, and
    what one wrapped attempt on it resolves with. *)
Fixpoint world_before (i : nat) (w : W) : W :=
  match i with
  | O => w
  | S i => world_before i (snd (taskFactory w))
  end.

Definition nth_task (i : nat) (w : W) : behaviour V :=
  fst (taskFactory (world_before i w)).

Definition nth_result (i : nat) (w : W) : option (result V) :=
  await (withTimeout perAttemptTimeoutMs label (nth_task i w)).

End RunWithRetries.

(** [runWithRetries(label, taskFactory, attempts = 3,
    perAttemptTimeoutMs = 5000)]; [None] and [JUndefined] are omitted
    arguments. *)
Definition runWithRetries {V W : Type} (label : string)
    (taskFactory : W -> behaviour V * W)
    (attempts : option Z) (perAttemptTimeoutMs : json) (w : W)
  : option (result V * W * nat) :=
  attempt label taskFactory (default 3 attempts)
          (if_defined perAttemptTimeoutMs (JNumber (Int 5000))) 0 w 0%nat.

(** A sample factory whose [i]-th call (from 0) succeeds iff [i >= 2],
    and one that never succeeds. *)
Definition flaky (w : nat) : behaviour string * nat :=
  (if (w <? 2)%nat then SettlesFirst (Rejects (new_Error "boom"))
   else SettlesFirst (Fulfils "hello"), S w).

Definition hopeless (w : nat) : behaviour string * nat :=
  (if (w <? 1)%nat then SettlesFirst (Rejects (new_Error "boom"))
   else TimerFirst None, S w).

Section PickHist.
(** The fields [histories], [modelId] and [history] of the request body,
    which [pickHist] closes over. *)
Variables histories modelId history : json.

(** [pickHist(providerKey)] *)
Definition pickHist (providerKey : string) : json :=
  if isArray (get histories providerKey) then
    get histories providerKey
  else if isString modelId && isArray (get_at histories modelId) then
    get_at histories modelId
  else if isArray (get histories "model1") || isArray (get histories "model2")
          || isArray (get histories "model3") then
    let combined :=
      flat_map (fun k => if isArray (get histories k)
                         then elements (get histories k) else [])
               ["model1"; "model2"; "model3"] in
    JArray combined
  else nullish history (JArray []).

End PickHist.

(** Sample turns. *)
Definition turnA : json :=
  JObject [("role", JString "user"); ("content", JString "A")].
Definition turnB : json :=
  JObject [("role", JString "assistant"); ("content", JString "B")].
Definition turnC : json :=
  JObject [("role", JString "system"); ("content", JString "C")].

Definition MAX_PER : nat := Z.to_nat 100000.

Section Attachments.
Variable StringToNumber : string -> number.

(** The three values of attachment [a] at index [i] that the loop
    converts: [a?.name || `file_${i+1}`], [a?.type || 'text/plain'] and
    [a?.size || 0]. *)
Definition attachment_name (i : nat) (a : json) : json :=
  or_else (get a "name") (JString ("file_" +:+ pretty (i + 1)%nat)).

Definition attachment_type (a : json) : json :=
  or_else (get a "type") (JString "text/plain").

Definition attachment_size (a : json) : json :=
  or_else (get a "size") (JNumber (Int 0)).

(** Whether [String(...)], [String(...)] or [Number(...)] throws on
    them. *)
Definition header_throws (i : nat) (a : json) : bool :=
  unprintable (attachment_name i a) || unprintable (attachment_type a)
  || unprintable (attachment_size a).

(** The head of the line of attachment [a] at index [i]:
    [`\n[${i+1}] ${name} (${type}, ${size} bytes)`], when the three
    conversions return. *)
Definition header_text (i : nat) (a : json) : string :=
  let name := to_string (attachment_name i a) in
  let type := to_string (attachment_type a) in
  let size := Number StringToNumber (attachment_size a) in
  nl +:+ "[" +:+ pretty (i + 1)%nat +:+ "] " +:+ name +:+ " ("
     +:+ type +:+ ", " +:+ show_number size +:+ " bytes)".

(** The same, with [None] when one of the conversions throws. *)
Definition attachment_header (i : nat) (a : json) : option string :=
  if header_throws i a then None else Some (header_text i a).

(** The line [forEach] pushes for attachment [a] at index [i]:
    [`\n[${i+1}] ${name} (${type}, ${size} bytes)${note}:\n${content}`]. *)
Definition attachment_line (i : nat) (a : json) : option string :=
  let content := match get a "content" with JString s => s | _ => "" end in
  let truncated := (MAX_PER <? String.length content)%nat in
  let note := if truncated then " [truncated]" else "" in
  let content := if truncated then substring 0 MAX_PER content else content in
  match attachment_header i a with
  | None => None
  | Some header => Some (header +:+ note +:+ ":" +:+ nl +:+ content)
  end.

(** [buildPromptWithAttachments(p, atts)]; [None] when it throws: in
    the loop, at the first attachment whose line cannot be built, or in
    the final [join], which converts [p]. *)
Definition buildPromptWithAttachments (p atts : json) : option json :=
  if negb (isArray atts) || (List.length (elements atts) =? 0)%nat then Some p
  else
    match mapM id (imap attachment_line (elements atts)) with
    | None => None
    | Some pushed =>
        if unprintable p then None
        else
          let lines :=
            [JString "Attachments:"]
            ++ map JString pushed
            ++ [JString (nl +:+ "---" +:+ nl)]
            ++ [p] in
          Some (JString (join nl lines))
    end.

(** Specification: the line of an attachment whose header can be
    built. *)
Definition line_text (i : nat) (a : json) : string :=
  let content := match get a "content" with JString s => s | _ => "" end in
  if (MAX_PER <? String.length content)%nat
  then header_text i a +:+ " [truncated]:" +:+ nl +:+ substring 0 MAX_PER content
  else header_text i a +:+ ":" +:+ nl +:+ content.

(** Specification: whether [buildPromptWithAttachments(p, atts)]
    throws. *)
Definition attachments_throw (p atts : json) : bool :=
  isArray atts
  && (existsb id (imap header_throws (elements atts))
      || (negb (List.length (elements atts) =? 0)%nat && unprintable p)).

End Attachments.

(** ** server.js: the [/api/ask] and [/api/stream] handlers *)

(** What a handler sends back. *)
Inductive response : Type :=
| BadRequest (body : json)                  (* [res.status(400).json(body)] *)
| Aggregate (results : gmap string json).   (* [res.json(results)] *)

(** A job pushed on [jobs]: the provider it is for, the argument object
    its factory passes to the adapter on every attempt, and what
    [runWithRetries] comes to (result, SDK calls made, attempts made);
    [None] is a job that never settles. *)
Record job := Job {
  key : string;
  args : ask_args;
  settled : option (result json * list vendor_call * nat);
}.

(** One request as seen from outside: the reply and the jobs it ran. *)
Record exchange := Exchange {
  reply : response;
  submitted : list job;
}.

(** [v === true] *)
Definition is_true (v : json) : bool :=
  match v with JBool true => true | _ => false end.

(** The error with which an adapter rejects when the decoding of the
    value its SDK call is fulfilled with throws. (The message-style and
    the generative-content-style call stand for the returned text.) *)
Definition decoding_error (c : vendor_call) (v : json) : option exn :=
  if String.eqb (endpoint c) "chat.completions.create" then
    decode_chat_throws v
  else if String.eqb (endpoint c) "responses.create" then
    if decode_responses_throws v then Some type_error else None
  else None.

(** The adapter's promise, given the SDK promise behind it. *)
Definition decoded (throws : json -> option exn) (decode : json -> json)
    (b : behaviour json) : behaviour json :=
  let settle v :=
    match throws v with
    | Some e => Rejects e
    | None => Fulfils (decode v)
    end in
  match b with
  | SettlesFirst (Fulfils v) => SettlesFirst (settle v)
  | SettlesFirst (Rejects e) => SettlesFirst (Rejects e)
  | TimerFirst (Some (Fulfils v)) => TimerFirst (Some (settle v))
  | TimerFirst late => TimerFirst late
  end.

(** The entry written for a provider that was requested without a key. *)
Definition missing_entry (provider : string) (model : json) (msg : string)
  : json :=
  JObject [("provider", JString provider);
           ("model", model);
           ("ok", JBool false);
           ("error", JString msg);
           ("latencyMs", JNumber (Int 0))].

(** The entry the [.then] callback of a job writes. *)
Definition outcome_entry (provider : string) (model : json)
    (r : result json) (latencyMs : Z) : json :=
  JObject [("provider", JString provider);
           ("model", model);
           ("ok", JBool (ok r));
           ("text", if ok r then default JUndefined (value r) else JUndefined);
           ("error",
            if ok r then JUndefined
            else JString (match error r with
                          | Some e => error_text e
                          | None => "undefined"
                          end));
           ("latencyMs", JNumber (Int latencyMs))].

Section Handlers.
Variable env : environment.
Variable readJsonSafe : string -> json.
Variable StringToNumber : string -> number.
(** The SDK promise for the [i]-th call (from 0) a job makes. *)
Variable vendor : vendor_call -> nat -> behaviour json.
(** Readings of [nowMs()] when the job of a provider is submitted and
    when its [.then] callback runs. *)
Variables startedAt settledAt : string -> Z.

(** The factory [() => askX({...})] of a job; its state is the list of
    SDK calls made so far. *)
Definition factory (adapter : ask_args -> adapter_run) (a : ask_args)
    (w : list vendor_call) : behaviour json * list vendor_call :=
  match adapter a with
  | Throws e => (SettlesFirst (Rejects e), w)
  | Calls c decode =>
      (decoded (decoding_error c) decode (vendor c (List.length w)), w ++ [c])
  end.

(** The three providers; the handler has one block for each, and the
    blocks differ in names only (and in [useModelConfig], which is passed
    to [askOpenAI] alone). *)
Inductive provider : Type := OpenAI | Claude | Gemini.

(** The key of a provider in [providers], [models] and [results]. *)
Definition provider_key (p : provider) : string :=
  match p with
  | OpenAI => "openai"
  | Claude => "claude"
  | Gemini => "gemini"
  end.

(** The label handed to [runWithRetries]. *)
Definition provider_label (p : provider) : string :=
  match p with
  | OpenAI => "OpenAI"
  | Claude => "Claude"
  | Gemini => "Gemini"
  end.

(** The [error] of the entry recorded when the key is missing. *)
Definition missing_message (p : provider) : string :=
  match p with
  | OpenAI => "Missing OPENAI_API_KEY"
  | Claude => "Missing ANTHROPIC_API_KEY"
  | Gemini => "Missing GEMINI_API_KEY or GOOGLE_API_KEY"
  end.

Definition default_model (p : provider) : json :=
  match p with
  | OpenAI => openaiModel DEFAULTS
  | Claude => claudeModel DEFAULTS
  | Gemini => geminiModel DEFAULTS
  end.

Definition adapter (p : provider) : ask_args -> adapter_run :=
  match p with
  | OpenAI => askOpenAI env readJsonSafe
  | Claude => askClaude env
  | Gemini => askGemini env
  end.

(** The call [askX({...})] of a job as it runs: the adapter, except that
    [askOpenAI] throws when one of its conversions does (after the check
    of the key, before any SDK call). *)
Definition call_adapter (p : provider) (a : ask_args) : adapter_run :=
  match p with
  | OpenAI =>
      if configured (OPENAI_API_KEY env) && askOpenAI_throws readJsonSafe a
      then Throws type_error
      else adapter p a
  | _ => adapter p a
  end.

(** [hasKey] *)
Definition hasKey (p : provider) : bool :=
  match p with
  | OpenAI => configured (OPENAI_API_KEY env)
  | Claude => configured (ANTHROPIC_API_KEY env)
  | Gemini => configured (GEMINI_API_KEY env) || configured (GOOGLE_API_KEY env)
  end.

(** The callback of [j1] runs no later than that of [j2]. *)
Definition earlier (j1 j2 : job * (result json * list vendor_call * nat))
  : Prop :=
  settledAt (key (fst j1)) <= settledAt (key (fst j2)).

#[local] Instance earlier_dec j1 j2 : Decision (earlier j1 j2).
Proof. unfold earlier. apply _. Defined.

(** Jobs in the order their [.then] callbacks run. *)
Definition completion_order
    (done : list (job * (result json * list vendor_call * nat)))
  : list (job * (result json * list vendor_call * nat)) :=
  merge_sort earlier done.

(** The [.then] callback of a job. *)
Definition on_settled (results : gmap string json)
    (j : job * (result json * list vendor_call * nat)) : gmap string json :=
  <[key (fst j) :=
      outcome_entry (key (fst j)) (model (args (fst j))) (fst (fst (snd j)))
        (settledAt (key (fst j)) - startedAt (key (fst j)))]> results.

(** [await Promise.all(jobs); res.json(results)]: the reply is sent once
    every job has settled and its callback has run. *)
Definition respond (st : list job * gmap string json) : option exchange :=
  match mapM (fun j => pair j <$> settled j) (fst st) with
  | None => None
  | Some done =>
      Some {| reply := Aggregate (foldl on_settled (snd st) (completion_order done));
              submitted := fst st |}
  end.

Section Request.
Variable reqBody : json.

Definition body : json := or_else reqBody (JObject []).
Definition req_prompt : json := get body "prompt".
Definition req_system : json := get body "system".
Definition req_providers : json := get body "providers".
Definition req_models : json := get body "models".
Definition req_temperature : json := get body "temperature".
Definition req_maxTokens : json := get body "maxTokens".
Definition req_timeoutMs : json := get body "timeoutMs".
Definition req_history : json := get body "history".
Definition req_histories : json := get body "histories".
Definition req_useModelConfig : json := get body "useModelConfig".
Definition req_modelId : json := get body "modelId".
Definition req_attachments : json := get body "attachments".

(** [!prompt || typeof prompt !== 'string' || !prompt.trim()] *)
Definition missing_prompt : bool :=
  negb (truthy req_prompt) || negb (isString req_prompt)
  || negb (nonempty (trim (to_string req_prompt))).

(** The debug block at the head of the handler: under
    [if (histories && modelId)] the two template literals convert
    [modelId] to a string, and the second [console.log] hands
    [histories[modelId]] to its format. *)
Definition logging_throws : bool :=
  truthy req_histories && truthy req_modelId
  && (unprintable req_modelId
      || (converts ("histories[" +:+ to_string req_modelId +:+ "] content:")
          && unprintable (get req_histories (to_string req_modelId)))).

(** [const effectivePrompt = buildPromptWithAttachments(prompt,
    attachments)]; [None] when the call throws. *)
Definition effectivePrompt : option json :=
  buildPromptWithAttachments StringToNumber req_prompt req_attachments.

(** [requested] *)
Definition requested (p : provider) : bool :=
  is_true (get req_providers (provider_key p)).

(** [enabled] *)
Definition enabled (p : provider) : bool := requested p && hasKey p.

(** [!hasKey.x && requested.x] *)
Definition unkeyed (p : provider) : bool := negb (hasKey p) && requested p.

(** [config] *)
Definition config_system : json :=
  if isString req_system
     && (0 <? String.length (trim (to_string req_system)))%nat
  then req_system else JUndefined.

Definition config_temperature : json :=
  if isNumber req_temperature then req_temperature
  else Providers.temperature DEFAULTS.

Definition config_maxTokens : json :=
  if isNumber req_maxTokens then req_maxTokens else Providers.maxTokens DEFAULTS.

Definition config_timeoutMs : json :=
  if isNumber req_timeoutMs then req_timeoutMs else Providers.timeoutMs DEFAULTS.

Definition config_models (p : provider) : json :=
  or_else (get req_models (provider_key p)) (default_model p).

(** [eff], after the optional merge of the per-provider files. *)
Definition CFG : json := loadProviderConfig readJsonSafe.

Definition eff_sys (p : provider) : json :=
  if is_true req_useModelConfig then
    if_defined config_system (get (get CFG (provider_key p)) "system")
  else config_system.

Definition eff_temp (p : provider) : json :=
  if is_true req_useModelConfig then
    if isFinite req_temperature then config_temperature
    else get (get CFG (provider_key p)) "temperature"
  else config_temperature.

Definition eff_maxT (p : provider) : json :=
  if is_true req_useModelConfig then
    if isFinite req_maxTokens then config_maxTokens
    else get (get CFG (provider_key p)) "maxTokens"
  else config_maxTokens.

Definition eff_tmo (p : provider) : json :=
  if is_true req_useModelConfig then
    if isFinite req_timeoutMs then config_timeoutMs
    else get (get CFG (provider_key p)) "timeoutMs"
  else config_timeoutMs.

(** The argument object the factory of a provider passes to its adapter
    (built after [effectivePrompt], so only when that is there). *)
Definition adapter_args (p : provider) : ask_args :=
  {| Adapters.prompt := default JUndefined effectivePrompt;
     Adapters.system := eff_sys p;
     Adapters.model := config_models p;
     Adapters.temperature := eff_temp p;
     Adapters.maxTokens := eff_maxT p;
     Adapters.maxCompletionTokens := JUndefined;
     Adapters.history :=
       pickHist req_histories req_modelId req_history (provider_key p);
     Adapters.useModelConfig :=
       match p with OpenAI => is_true req_useModelConfig | _ => false end |}.

(** [runWithRetries(label, () => askX({...}), 3, eff.tmo.x).then(...)] *)
Definition submit (p : provider) : job :=
  {| key := provider_key p;
     args := adapter_args p;
     settled :=
       runWithRetries (provider_label p)
                      (factory (call_adapter p) (adapter_args p))
                      (Some 3) (eff_tmo p) [] |}.

(** The block of one provider: record the missing key, or push a job,
    or do nothing. *)
Definition block (st : list job * gmap string json) (p : provider)
  : list job * gmap string json :=
  if unkeyed p then
    (fst st,
     <[provider_key p :=
         missing_entry (provider_key p) (config_models p) (missing_message p)]>
       (snd st))
  else if enabled p then (fst st ++ [submit p], snd st)
  else st.

(** [setTimeout(..., timeoutMs)] in [withTimeout] converts the timeout
    of a job to a number. When that throws, [withTimeout] and with it
    [runWithRetries] return a rejected promise, which the handler hands
    to [Promise.all]. *)
Definition timer_throws : bool :=
  existsb (fun p => enabled p && unprintable (eff_tmo p))
          [OpenAI; Claude; Gemini].

(** [app.post('/api/ask', ...)], with
    [const { prompt, system, ... } = req.body || {}] above as the
    definitions [req_prompt], [req_system], ... The handler has no
    [try]: when the debug block or [buildPromptWithAttachments] throws,
    or [await Promise.all(jobs)] does, the handler ends there, without
    sending a reply ([None]). *)
Definition ask : option exchange :=
  if logging_throws then None
  else if missing_prompt then
    Some {| reply := BadRequest (JObject [("error", JString "Missing prompt")]);
            submitted := [] |}
  else
    match effectivePrompt with
    | None => None
    | Some _ =>
        let jobs : list job := [] in
        let results : gmap string json := ∅ in
        let st := foldl block (jobs, results) [OpenAI; Claude; Gemini] in
        if timer_throws then None else respond st
    end.

(** Specification: whether the handler throws before it replies, for a
    request whose prompt passes the check. *)
Definition ask_throws : bool :=
  logging_throws
  || attachments_throw req_prompt req_attachments
  || timer_throws.

(** Specification: the jobs and entries there are when the handler
    reaches [await Promise.all(jobs)]. *)
Definition plan : list job * gmap string json :=
  foldl block ([], ∅) [OpenAI; Claude; Gemini].

End Request.

(** How [/api/stream] begins: a 400, an error event (for the missing
    key, or written by the [catch] when building the payload throws), or
    the call [client.chat.completions.create(payload)]. *)
Inductive stream_start : Type :=
| StreamBadRequest (text : string)
| StreamError (event : json)
| StreamCreate (payload : json).

(** [app.post('/api/stream', ...)], up to the call of the SDK. *)
Definition stream (reqBody : json) : stream_start :=
  let body := or_else reqBody (JObject []) in
  let prompt := get body "prompt" in
  let system := get body "system" in
  let model := get body "model" in
  let temperature := get body "temperature" in
  let maxTokens := get body "maxTokens" in
  let maxCompletionTokens := get body "maxCompletionTokens" in
  let histories := get body "histories" in
  let modelId := get body "modelId" in
  let attachments := get body "attachments" in
  let caught (e : exn) :=
    StreamError (JObject [("error", JString (error_text e))]) in
  if negb (truthy prompt) then StreamBadRequest "Missing prompt"
  else if negb (configured (OPENAI_API_KEY env)) then
    StreamError (JObject [("error", JString "Missing OPENAI_API_KEY")])
  else
    match buildPromptWithAttachments StringToNumber prompt attachments with
    | None => caught type_error
    | Some promptWithAttachments =>
        let history :=
          if isString modelId && isArray (get_at histories modelId)
          then get_at histories modelId
          else or_else (get histories "openai") (JArray []) in
        let messages :=
          (if truthy system then [message "system" system] else [])
          ++ for_of history (fun m =>
               let role := chat_role m in
               let content := content_of m in
               if nonempty content then [message role (JString content)] else [])
          ++ [message "user" promptWithAttachments] in
        if unprintable (or_else model (JString "")) then caught type_error
        else
          let isGpt5 := isGpt5 (or_else model (JString "")) in
          let payload :=
            JObject [("model", or_else model (openaiModel DEFAULTS));
                     ("messages", JArray messages)] in
          let payload :=
            with_sampling isGpt5 temperature maxTokens maxCompletionTokens
                          payload in
          StreamCreate (set payload "stream" (JBool true))
    end.

End Handlers.

End Server.

(** ** Sample requests *)

Module Samples.
Import Js Providers Config Adapters Server.

Definition all_keys : environment :=
  {| OPENAI_API_KEY := Some "sk-test";
     ANTHROPIC_API_KEY := Some "sk-ant-test";
     GEMINI_API_KEY := Some "g-test";
     GOOGLE_API_KEY := None |}.

Definition openai_only : environment :=
  {| OPENAI_API_KEY := Some "sk-test";
     ANTHROPIC_API_KEY := None;
     GEMINI_API_KEY := None;
     GOOGLE_API_KEY := None |}.

(** A turn with role [system] and two turns an adapter drops. *)
Definition transcript : json :=
  JArray [turnC;
          JObject [("role", JString "assistant"); ("content", JString "")];
          JObject [("role", JString "user"); ("content", JNumber (Int 7))];
          turnB].

(** Arguments for a deep-research model, with a system instruction and
    one turn of each role. *)
Definition research_args : ask_args :=
  {| Adapters.prompt := JString "hi";
     Adapters.system := JString "S";
     Adapters.model := JString "o3-deep-research";
     Adapters.temperature := JNumber (Frac "0.5");
     Adapters.maxTokens := JNumber (Int 1024);
     Adapters.maxCompletionTokens := JUndefined;
     Adapters.history := JArray [turnA; turnB; turnC];
     Adapters.useModelConfig := false |}.

Definition args_for (model : string) : ask_args :=
  {| Adapters.prompt := JString "hi";
     Adapters.system := JUndefined;
     Adapters.model := JString model;
     Adapters.temperature := JNumber (Frac "0.5");
     Adapters.maxTokens := JNumber (Int 1024);
     Adapters.maxCompletionTokens := JUndefined;
     Adapters.history := transcript;
     Adapters.useModelConfig := false |}.

(** The chat vendor fails once and then answers; the message vendor
    is rejected; the generative-content vendor never answers. *)
Definition vendors (c : vendor_call) (i : nat) : behaviour json :=
  if String.eqb (endpoint c) "generateContent" then TimerFirst None
  else if String.eqb (endpoint c) "messages.create" then
    SettlesFirst (Rejects (Exn "APIError" "401 unauthorized"))
  else if (i <? 1)%nat then SettlesFirst (Rejects (new_Error "503"))
  else
    SettlesFirst (Fulfils
      (JObject [("choices",
         JArray [JObject [("message",
           JObject [("content", JString "hello")])]])])).

Definition clock_start (provider : string) : Z := 1000.

Definition clock_settled (provider : string) : Z :=
  if String.eqb provider "openai" then 1050
  else if String.eqb provider "claude" then 1020
  else 91000.

Definition all_three : json :=
  JObject [("prompt", JString "hi");
           ("providers",
            JObject [("openai", JBool true);
                     ("claude", JBool true);
                     ("gemini", JBool true)])].

(** A string of [n] copies of a character. *)
Fixpoint replicate_char (n : nat) (c : ascii) : string :=
  match n with
  | O => EmptyString
  | S n => String c (replicate_char n c)
  end.

Definition big_content : string := replicate_char (Z.to_nat 150000) "x".

Definition big_attachment : json :=
  JObject [("name", JString "big.txt");
           ("type", JString "text/plain");
           ("size", JNumber (Int 150000));
           ("content", JString big_content)].

Definition big_request : json :=
  JObject [("prompt", JString "hi");
           ("providers",
            JObject [("openai", JBool true); ("gemini", JBool true)]);
           ("attachments", JArray [big_attachment])].

End Samples.


(** ** providers.js: the usage log *)

Module UsageLog.
Import Js.

Definition USAGE_LOG_MAX : nat := 100.

(** [while (usageLog.length > USAGE_LOG_MAX) usageLog.shift()] *)
Fixpoint shift_excess (usageLog : list json) : list json :=
  match usageLog with
  | [] => []
  | _ :: rest =>
      if (USAGE_LOG_MAX <? List.length usageLog)%nat then shift_excess rest
      else usageLog
  end.

(** [{ id: Date.now() + Math.random(), ts: Date.now(), ...entry }], given
    the two values read off the clock. *)
Definition enriched (id ts entry : json) : json :=
  spread (JObject [("id", id); ("ts", ts)]) entry.

(** [recordUsage(entry)]: the log after the call. *)
Definition recordUsage (id ts entry : json) (usageLog : list json)
  : list json :=
  shift_excess (usageLog ++ [enriched id ts entry]).

(** [getUsageLog()] *)
Definition getUsageLog (usageLog : list json) : list json :=
  reverse usageLog.

(** A run of calls [recordUsage(entry)], each with its clock values. *)
Definition record_all (calls : list (json * json * json))
    (usageLog : list json) : list json :=
  foldl (fun log c => recordUsage (fst (fst c)) (snd (fst c)) (snd c) log)
        usageLog calls.

(** [GET /api/usage] *)
Definition usage (usageLog : list json) : json :=
  JObject [("entries", JArray (getUsageLog usageLog))].

End UsageLog.

(** ** server.js: the other routes and the start-up *)

Module Routes.
Import Js Providers Config Adapters Server.

(** [v === undefined || v === null] *)
Definition is_nullish (v : json) : bool :=
  match v with JUndefined | JNull => true | _ => false end.

(** [typeof v === 'object'] *)
Definition typeof_object (v : json) : bool :=
  match v with JNull | JArray _ | JObject _ => true | _ => false end.

(** Specification: a string of white space only (the empty string
    included). *)
Fixpoint blank (s : string) : bool :=
  match s with
  | EmptyString => true
  | String c s' => is_space c && blank s'
  end.

(** The event [{ error: String(err?.message || err) }] and the body
    [{ ok: false, error: String(err?.message || err) }] of a [catch]. *)
Definition error_event (e : exn) : json :=
  JObject [("error", JString (error_text e))].

Definition failure_body (e : exn) : json :=
  JObject [("ok", JBool false); ("error", JString (error_text e))].

(** [app.get('/api/providers', ...)] *)
Definition providers (env : environment) : json :=
  JObject
    [("openai", JBool (configured (OPENAI_API_KEY env)));
     ("claude", JBool (configured (ANTHROPIC_API_KEY env)));
     ("gemini", JBool (configured (GEMINI_API_KEY env)
                       || configured (GOOGLE_API_KEY env)))].

(** *** prompts.js and [/api/prompts/summarize] *)

Definition summarize_system : string :=
  "You are a helpful summarizer. You will take the answers from multiple AI agents. They are too tedious despite being informational. You need to summerize these information into a structured report. Be concise, it can be a key concept with bold font, following by a concise explanation. At the end of this summerization, you can shortly tell me what model provide the  most helful info, and what are thry.".

(** [loadSummarizeConfig()] *)
Definition loadSummarizeConfig : json :=
  JObject
    [("system", JString summarize_system);
     ("preface",
      JArray
        [JString "Summarize the following model outputs into a concise list of bullet points.";
         JString "- Use short, scannable bullets.";
         JString "- Group related ideas and remove duplicates.";
         JString "- Highlight agreements, contradictions, and standout insights."]);
     ("sourcesTitle", JString "Sources:")].

(** The file [config/summarize.json] as the route finds it: not there,
    there but [readFileSync] or [JSON.parse] throws, or parsed. *)
Inductive config_file : Type :=
| Missing
| Unreadable
| Parsed (content : json).

(** [app.get('/api/prompts/summarize', ...)] *)
Definition summarize (file : config_file) : json :=
  let base := loadSummarizeConfig in
  match file with
  | Parsed json =>
      if truthy json && typeof_object json then
        let merged :=
          JObject
            [("system", nullish (get json "system") (get base "system"));
             ("preface",
              if isArray (get json "preface") then get json "preface"
              else get base "preface");
             ("sourcesTitle",
              nullish (get json "sourcesTitle") (get base "sourcesTitle"))] in
        JObject [("ok", JBool true); ("config", merged)]
      else JObject [("ok", JBool true); ("config", base)]
  | Missing | Unreadable => JObject [("ok", JBool true); ("config", base)]
  end.

(** *** [drawOpenAI] and [/api/draw] *)

Section Draw.
Variable env : environment.
(** [client.images.generate(payload)]: how the SDK promise settles,
    [None] if it never does. A fulfilment carries the fields of the
    response object. *)
Variable generate : json -> option (settlement (list (string * json))).
(** The two readings of [nowMs()]. *)
Variables startedAt finishedAt : Z.

(** The argument of [client.images.generate]. *)
Definition image_request (prompt size : json) : json :=
  JObject [("model", JString "gpt-image-1");
           ("prompt", prompt);
           ("size", if_defined size (JString "1024x1024"))].

(** [drawOpenAI({ prompt, size = '1024x1024' })]: how the promise it
    returns settles. *)
Definition drawOpenAI (prompt size : json) : option (settlement json) :=
  if negb (configured (OPENAI_API_KEY env)) then
    Some (Rejects (new_Error "Missing OPENAI_API_KEY"))
  else
    match generate (image_request prompt size) with
    | None => None
    | Some (Rejects e) => Some (Rejects e)
    | Some (Fulfils response) =>
        let b64 := get (get (get (JObject response) "data") "0") "b64_json" in
        if negb (truthy b64) then Some (Rejects (new_Error "No image generated"))
        else Some (Fulfils (JString ("data:image/png;base64," +:+ to_string b64)))
    end.

(** What [/api/draw] sends: [res.status(400).json(body)] or
    [res.json(body)]. *)
Inductive draw_reply : Type :=
| DrawBadRequest (body : json)
| DrawJson (body : json).

(** [!prompt || typeof prompt !== 'string'] *)
Definition draw_missing_prompt (reqBody : json) : bool :=
  let prompt := get (or_else reqBody (JObject [])) "prompt" in
  negb (truthy prompt) || negb (isString prompt).

(** [app.post('/api/draw', ...)]; [None] when the SDK never settles. *)
Definition draw (reqBody : json) : option draw_reply :=
  let body := or_else reqBody (JObject []) in
  let prompt := get body "prompt" in
  let size := get body "size" in
  if negb (truthy prompt) || negb (isString prompt) then
    Some (DrawBadRequest (JObject [("error", JString "Missing prompt")]))
  else
    match drawOpenAI prompt size with
    | None => None
    | Some (Fulfils dataUrl) =>
        Some (DrawJson (JObject [("ok", JBool true);
                                 ("image", dataUrl);
                                 ("latencyMs",
                                  JNumber (Int (finishedAt - startedAt)))]))
    | Some (Rejects e) => Some (DrawJson (failure_body e))
    end.

End Draw.

(** *** The streaming loop of [/api/stream] *)

(** What [client.chat.completions.create({...payload, stream: true})]
    does: the promise is rejected, or it gives a stream that yields
    [parts] and then ends, or throws [failure] after them. (A stream
    that never ends is not described: the handler then never writes its
    last event.) *)
Inductive sdk_stream : Type :=
| CreateRejects (e : exn)
| Stream (parts : list json) (failure : option exn).

(** [part?.choices?.[0]?.delta?.content ?? ''] *)
Definition delta_of (part : json) : json :=
  nullish (get (get (get (get part "choices") "0") "delta") "content")
          (JString "").

(** The objects written as [data:] events (before [JSON.stringify]). *)
Definition delta_event (delta : json) : json :=
  JObject [("provider", JString "openai"); ("delta", delta)].

Definition done_event (text : string) (latencyMs : Z) : json :=
  JObject [("provider", JString "openai");
           ("done", JBool true);
           ("text", JString text);
           ("latencyMs", JNumber (Int latencyMs))].

(** One turn of [for await (const part of stream)]: the state is
    [accumulated] and the events written so far. *)
Definition on_part (st : string * list json) (part : json)
  : string * list json :=
  let delta := delta_of part in
  if truthy delta then
    (fst st +:+ to_string delta, snd st ++ [delta_event delta])
  else st.

(** What the client of [/api/stream] receives. *)
Inductive stream_reply : Type :=
| StreamStatus400 (text : string)
| StreamEvents (events : list json).

Section Streaming.
Variable env : environment.
Variable StringToNumber : string -> number.
Variable create : json -> sdk_stream.
(** [nowMs() - startedAt] when the stream has ended. *)
Variable latencyMs : Z.

(** [app.post('/api/stream', ...)], from the request to the last event. *)
Definition stream_route (reqBody : json) : stream_reply :=
  match stream env StringToNumber reqBody with
  | StreamBadRequest text => StreamStatus400 text
  | StreamError event => StreamEvents [event]
  | StreamCreate payload =>
      match create payload with
      | CreateRejects e => StreamEvents [error_event e]
      | Stream parts failure =>
          let st := foldl on_part (EmptyString, []) parts in
          match failure with
          | None => StreamEvents (snd st ++ [done_event (fst st) latencyMs])
          | Some e => StreamEvents (snd st ++ [error_event e])
          end
      end
  end.

End Streaming.

(** *** [startServer] *)

(** What [app.listen(port)] comes to: the server listens, or its
    ['error'] event fires with [err]. *)
Inductive listen_result : Type :=
| Listening
| ListenError (err : json).

Inductive start_outcome : Type :=
| Serving (port : Z)
| Exit (code : Z).

(** [err && err.code === 'EADDRINUSE'] *)
Definition in_use (r : listen_result) : bool :=
  match r with
  | Listening => false
  | ListenError err => truthy err && equals (get err "code") "EADDRINUSE"
  end.

Section Start.
(** Whether a port can be bound at the time it is tried. *)
Variable listen : Z -> listen_result.

(** [startServer(port, retries = 5)], for an integer port. *)
Equations? startServer (port : Z) (retries : Z) : start_outcome
  by wf (Z.to_nat retries) lt :=
  startServer port retries with listen port => {
    | Listening := Serving port
    | ListenError err with in_use (ListenError err) => {
      | false := Exit 1
      | true with Z_gt_dec retries 0 => {
        | left _ := startServer (port + 1) (retries - 1)
        | right _ := Exit 1 } } }.
Proof. lia. Qed.

End Start.

End Routes.

(** ** index.js: the command line

    [main] calls the adapters of [providers.js] once each, through the
    timeout wrapper and without the retry helper. *)

Module Cli.
Import Js Providers Config Adapters Server.

(** The parsed command line ([argv]). *)
Record argv := Argv {
  arg_prompt : json;            (* [argv.prompt] *)
  positional : list json;       (* [argv._] *)
  arg_system : json;            (* [argv.system] *)
  arg_temperature : json;       (* [argv.temperature] *)
  arg_max_tokens : json;        (* [argv['max-tokens']] *)
  arg_timeout : json;           (* [argv.timeout] *)
  model_openai : json;          (* [argv['model-openai']] *)
  model_claude : json;
  model_gemini : json;
  flag_openai : json;           (* [argv.openai] *)
  flag_claude : json;
  flag_gemini : json;
  arg_format : json;            (* [argv.format] *)
}.

(** [readStdinIfPiped()], given the text piped in ([None] on a TTY). *)
Definition readStdinIfPiped (stdin : option string) : json :=
  match stdin with
  | None => JNull
  | Some raw =>
      let text := trim raw in
      if (0 <? String.length text)%nat then JString text else JNull
  end.

(** [prompt], after the two [if (!prompt)] that may replace it. *)
Definition resolve_prompt (a : argv) (stdin : option string) : json :=
  let prompt :=
    or_else (arg_prompt a)
            (JString (if (0 <? List.length (positional a))%nat
                      then trim (join " " (positional a))
                      else "")) in
  if negb (truthy prompt) then
    let piped := readStdinIfPiped stdin in
    if truthy piped then piped else prompt
  else prompt.

(** What [main] leaves behind: [process.exit(code)] before any output,
    the results printed as JSON, or the lines printed in text form
    (without the colour codes, which [chalk] adds on a colour terminal
    only); [crashed] says that printing stopped on a [TypeError], which
    ends in [process.exit(1)]. *)
Inductive cli_outcome : Type :=
| CliExit (code : Z)
| CliJson (results : gmap string json)
| CliText (lines : list string) (crashed : bool).

Definition divider : string :=
  "────────────────────────────────────────".

(** [`${label} (${res.model}) [${res.latencyMs}ms]`] *)
Definition header (label : string) (res : json) : string :=
  label +:+ " (" +:+ to_string (get res "model") +:+ ") ["
        +:+ to_string (get res "latencyMs") +:+ "ms]".

(** The loop [for (const [label, res, color] of entries)]. An entry
    with [ok] whose [text] is neither a string nor null nor undefined
    has no [trim], and the call throws. *)
Fixpoint print_entries (entries : list (string * json)) : list string * bool :=
  match entries with
  | [] => ([], false)
  | (label, res) :: rest =>
      if negb (truthy res) then print_entries rest
      else
        let continue (body : string) :=
          let (lines, crashed) := print_entries rest in
          (header label res :: body :: divider :: lines, crashed) in
        if truthy (get res "ok") then
          match get res "text" with
          | JUndefined | JNull => continue ""
          | JString s => continue (trim s)
          | _ => ([header label res], true)
          end
        else continue ("Error: " +:+ to_string (get res "error"))
  end.

(** Specification: an entry whose text can be printed, and the three
    lines printed for it. *)
Definition printable (res : json) : bool :=
  negb (truthy (get res "ok"))
  || match get res "text" with
     | JUndefined | JNull | JString _ => true
     | _ => false
     end.

Definition printed_block (label : string) (res : json) : list string :=
  [header label res;
   if truthy (get res "ok") then
     match get res "text" with JString s => trim s | _ => "" end
   else "Error: " +:+ to_string (get res "error");
   divider].

Section Main.
Variable env : environment.
Variable readJsonSafe : string -> json.
Variable vendor : vendor_call -> nat -> behaviour json.
Variables startedAt settledAt : string -> Z.
Variable a : argv.
Variable stdin : option string.

Definition prompt : json := resolve_prompt a stdin.

Definition cli_model (p : provider) : json :=
  match p with
  | OpenAI => model_openai a
  | Claude => model_claude a
  | Gemini => model_gemini a
  end.

Definition cli_flag (p : provider) : json :=
  match p with
  | OpenAI => flag_openai a
  | Claude => flag_claude a
  | Gemini => flag_gemini a
  end.

(** The argument object [{ prompt, system: config.system, model,
    temperature: config.temperature, maxTokens: config.maxTokens }]. *)
Definition cli_args (p : provider) : ask_args :=
  {| Adapters.prompt := prompt;
     Adapters.system := or_else (arg_system a) JUndefined;
     Adapters.model := cli_model p;
     Adapters.temperature := arg_temperature a;
     Adapters.maxTokens := arg_max_tokens a;
     Adapters.maxCompletionTokens := JUndefined;
     Adapters.history := JUndefined;
     Adapters.useModelConfig := false |}.

(** [withTimeout(askX({...}), config.timeoutMs, label)]: one call of
    the adapter, wrapped. *)
Definition cli_job (p : provider) : job :=
  let started := factory vendor (adapter env readJsonSafe p) (cli_args p) [] in
  {| key := provider_key p;
     args := cli_args p;
     settled :=
       (fun r => (r, snd started, 1%nat))
         <$> await (withTimeout (arg_timeout a) (provider_label p)
                                (fst started)) |}.

(** [if (argv.x && process.env.X_API_KEY) { ...; jobs.push(p) }] *)
Definition cli_block (jobs : list job) (p : provider) : list job :=
  if truthy (cli_flag p) && hasKey env p then jobs ++ [cli_job p] else jobs.

Definition cli_jobs : list job := foldl cli_block [] [OpenAI; Claude; Gemini].

(** [await Promise.all(jobs)]: [results] once every callback has run. *)
Definition gather (jobs : list job) : option (gmap string json) :=
  match mapM (fun j => pair j <$> settled j) jobs with
  | None => None
  | Some done =>
      Some (foldl (on_settled startedAt settledAt) ∅
                  (completion_order settledAt done))
  end.

(** [main()] *)
Definition main : option cli_outcome :=
  if negb (truthy prompt) then Some (CliExit 1)
  else
    match gather cli_jobs with
    | None => None
    | Some results =>
        if equals (arg_format a) "json" then Some (CliJson results)
        else
          let entries :=
            [("OpenAI", default JUndefined (results !! "openai"));
             ("Claude", default JUndefined (results !! "claude"));
             ("Gemini", default JUndefined (results !! "gemini"))] in
          let (lines, crashed) := print_entries entries in
          Some (CliText lines crashed)
    end.

End Main.

End Cli.

(** ** More sample data *)

Module MoreSamples.
Import Js Providers Config Adapters Server Routes Cli.

Definition no_keys : environment :=
  {| OPENAI_API_KEY := None;
     ANTHROPIC_API_KEY := None;
     GEMINI_API_KEY := None;
     GOOGLE_API_KEY := None |}.

(** A chunk of a streamed completion. *)
Definition chunk (delta : json) : json :=
  JObject [("choices", JArray [JObject [("delta", delta)]])].

(** Three chunks, the second without content. *)
Definition hello_chunks : list json :=
  [chunk (JObject [("content", JString "Hel")]);
   chunk (JObject []);
   chunk (JObject [("content", JString "lo")])].

(** A configuration directory in which every file holds the same
    object. *)
Definition warm_files (fileName : string) : json :=
  JObject [("temperature", JNumber (Frac "0.7")); ("system", JNull)].

(** A request that turns the configuration files on and gives its
    own token limit. *)
Definition configured_request : json :=
  JObject [("prompt", JString "hi");
           ("useModelConfig", JBool true);
           ("maxTokens", JNumber (Int 50));
           ("providers", JObject [("openai", JBool true)])].

(** A vendor that answers every call at once. *)
Definition prompt_vendor (c : vendor_call) (i : nat) : behaviour json :=
  if String.eqb (endpoint c) "chat.completions.create" then
    SettlesFirst (Fulfils
      (JObject [("choices",
         JArray [JObject [("message",
           JObject [("content", JString "hello")])]])]))
  else SettlesFirst (Fulfils (JString "hello")).

(** A vendor that answers every call at once, with [null]. *)
Definition null_vendor (c : vendor_call) (i : nat) : behaviour json :=
  SettlesFirst (Fulfils JNull).

(** A request with a transcript under the provider key and another
    under the model id. *)
Definition two_histories : json :=
  JObject [("prompt", JString "hi");
           ("modelId", JString "model2");
           ("histories",
            JObject [("openai", JArray [turnA]); ("model2", JArray [turnB])]);
           ("providers", JObject [("openai", JBool true)])].

(** A streaming request that names no model and gives both sampling
    parameters. *)
Definition modelless_stream : json :=
  JObject [("prompt", JString "hi");
           ("temperature", JNumber (Frac "0.5"));
           ("maxTokens", JNumber (Int 64))].

(** A command line with a prompt and every provider switched on. *)
Definition plain_argv : argv :=
  {| arg_prompt := JString "hi";
     positional := [];
     arg_system := JUndefined;
     arg_temperature := JNumber (Frac "0.2");
     arg_max_tokens := JNumber (Int 1024);
     arg_timeout := JNumber (Int 30000);
     model_openai := JString "gpt-5-mini-2025-08-07";
     model_claude := JString "claude-3-5-sonnet-latest";
     model_gemini := JString "gemini-1.5-flash";
     flag_openai := JBool true;
     flag_claude := JBool true;
     flag_gemini := JBool true;
     arg_format := JString "text" |}.

End MoreSamples.

(* ===================================================================== *)
(** * Part II: properties                                                 *)
(* ===================================================================== *)

Module TimeoutFacts.
Import Js Providers.

Section Facts.
Context {V : Type}.
Variable timeoutMs : json.
Variable label : string.

Local Abbreviation step := (step (V:=V) timeoutMs label).
Local Abbreviation run := (run (V:=V) timeoutMs label).
Local Abbreviation withTimeout := (withTimeout (V:=V) timeoutMs label).
Local Abbreviation resolution := (resolution (V:=V) timeoutMs label).
Local Abbreviation outcome := (outcome (V:=V) timeoutMs label).

Lemma resolve_settled (r r' : result V) w :
  promise w = Resolved r -> resolve r' w = w.
Proof. unfold resolve. intros ->. reflexivity. Qed.

(** Once resolved, no callback changes the promise or notifies again. *)
Lemma step_settled r w ev :
  promise w = Resolved r ->
  promise (step w ev) = Resolved r /\ delivered (step w ev) = delivered w.
Proof.
  intros Hw. destruct ev; cbn.
  - destruct (timer w); [|auto].
    rewrite (resolve_settled r); cbn; auto.
  - rewrite (resolve_settled r); cbn; auto.
  - rewrite (resolve_settled r); cbn; auto.
Qed.

Lemma run_settled r evs : forall w,
  promise w = Resolved r ->
  promise (run evs w) = Resolved r /\ delivered (run evs w) = delivered w.
Proof.
  induction evs as [|ev evs IH]; intros w Hw; [auto|].
  change (run (ev :: evs) w) with (run evs (step w ev)).
  destruct (step_settled r w ev Hw) as [Hp Hd].
  destruct (IH _ Hp) as [Hp' Hd']. split; congruence.
Qed.

(** The first callback to run decides. *)
Lemma step_started ev :
  promise (step started ev) = Resolved (resolution ev)
  /\ delivered (step started ev) = [resolution ev].
Proof. destruct ev; cbn; auto. Qed.

(** Whatever the event loop delivers, and in whatever order, the
    caller is notified once, with the resolution of the first event. *)
Lemma run_started ev evs :
  promise (run (ev :: evs) started) = Resolved (resolution ev)
  /\ delivered (run (ev :: evs) started) = [resolution ev].
Proof.
  destruct (step_started ev) as [Hp Hd].
  change (run (ev :: evs) started) with (run evs (step started ev)).
  destruct (run_settled _ evs _ Hp) as [Hp' Hd']. split; congruence.
Qed.

Lemma run_at_most_once evs :
  (List.length (delivered (run evs started)) <= 1)%nat.
Proof.
  destruct evs as [|ev evs]; [cbn; lia|].
  destruct (run_started ev evs) as [_ ->]. cbn. lia.
Qed.

Lemma await_withTimeout b : await (withTimeout b) = Some (outcome b).
Proof. destruct b as [[v|e]|[[v|e]|]]; reflexivity. Qed.

End Facts.

Example withTimeout_never :
  await (withTimeout (JNumber (Int 5000)) "OpenAI" (TimerFirst (V:=string) None))
  = Some {| ok := false; value := None;
            error := Some (new_Error "OpenAI timed out after 5000ms") |}.
Proof. reflexivity. Qed.

(** C2. The timeout wrapper resolves exactly once and never rejects.
    If the operation settles before the timer is due, the result mirrors
    it: [{ok: true, value}] for a fulfilment, [{ok: false, error}] for a
    rejection. If the timer is due first, whether the operation settles
    later or never, the result is [{ok: false, error}] with the message
    [label ++ " timed out after " ++ timeoutMs ++ "ms"]; it is already
    delivered when the timer callback has run, and a later settlement
    of the abandoned operation leaves promise and deliveries as they
    were. *)
Theorem withTimeout_settles_once {V : Type} (timeoutMs : json) (label : string)
    (b : behaviour V) :
  exists r : result V,
    promise (withTimeout timeoutMs label b) = Resolved r
    /\ delivered (withTimeout timeoutMs label b) = [r]
    /\ match b with
       | SettlesFirst (Fulfils v) =>
           r = {| ok := true; value := Some v; error := None |}
       | SettlesFirst (Rejects e) =>
           r = {| ok := false; value := None; error := Some e |}
       | TimerFirst late =>
           r = {| ok := false; value := None;
                  error := Some (new_Error
                    (label +:+ " timed out after " +:+ to_string timeoutMs +:+ "ms")) |}
           /\ let fired := run timeoutMs label [TimerDue] started in
              promise fired = Resolved r /\ delivered fired = [r]
              /\ forall s, late = Some s ->
                   run timeoutMs label [settle_event s] fired = fired
       end.
Proof.
  destruct b as [[v|e]|late].
  - eexists; repeat split; reflexivity.
  - eexists; repeat split; reflexivity.
  - eexists. split; [|split; [|split; [reflexivity|]]].
    + destruct late as [[v|e]|]; reflexivity.
    + destruct late as [[v|e]|]; reflexivity.
    + cbn. repeat split. intros [v|e] _; reflexivity.
Qed.

End TimeoutFacts.

Module RetryFacts.
Import Js Providers Server TimeoutFacts.

Section Facts.
Context {V W : Type}.
Variable label : string.
Variable taskFactory : W -> behaviour V * W.
Variable attempts : Z.
Variable perAttemptTimeoutMs : json.

Local Abbreviation attempt := (attempt label taskFactory attempts perAttemptTimeoutMs).
Local Abbreviation world_before := (world_before taskFactory).
Local Abbreviation nth_result := (nth_result label taskFactory perAttemptTimeoutMs).

(** The body of [attempt], as written in the source. *)
Lemma attempt_unfold n w made :
  attempt n w made =
  let (task, w') := taskFactory w in
  match await (withTimeout perAttemptTimeoutMs label task) with
  | None => None
  | Some r =>
      if ok r then Some (r, w', S made)
      else if Z_ge_dec (n + 1) attempts then Some (r, w', S made)
      else attempt (n + 1) w' (S made)
  end.
Proof.
  simp attempt. destruct (taskFactory w) as [task w']. cbn.
  destruct (await _) as [r|]; cbn; [|reflexivity].
  destruct (ok r); cbn; [reflexivity|].
  destruct (Z_ge_dec (n + 1) attempts); reflexivity.
Qed.

Lemma nth_result_0 w :
  nth_result 0 w
  = await (withTimeout perAttemptTimeoutMs label (fst (taskFactory w))).
Proof. reflexivity. Qed.

Lemma nth_result_S i w :
  nth_result (S i) w = nth_result i (snd (taskFactory w)).
Proof. reflexivity. Qed.

Lemma nth_result_some i w : exists r, nth_result i w = Some r.
Proof. unfold Server.nth_result. rewrite await_withTimeout. eauto. Qed.

(** [k] failures, then a success, with room for [k + 1] attempts. *)
Lemma attempt_first_success (k : nat) : forall n w made r,
  n + Z.of_nat k < attempts ->
  (forall i, (i < k)%nat -> ok <$> nth_result i w = Some false) ->
  nth_result k w = Some r -> ok r = true ->
  attempt n w made = Some (r, world_before (S k) w, (made + S k)%nat).
Proof.
  induction k as [|k IH]; intros n w made r Hn Hfail Hk Hok.
  - rewrite attempt_unfold. rewrite nth_result_0 in Hk.
    cbn. destruct (taskFactory w) as [task w']. cbn in *.
    rewrite Hk, Hok.
    replace (made + 1)%nat with (S made) by lia. reflexivity.
  - rewrite attempt_unfold.
    pose proof (Hfail 0%nat ltac:(lia)) as H0. rewrite nth_result_0 in H0.
    rewrite nth_result_S in Hk.
    assert (Hfail' : forall i, (i < k)%nat ->
              ok <$> nth_result i (snd (taskFactory w)) = Some false).
    { intros i Hi. rewrite <- nth_result_S. apply Hfail. lia. }
    cbn. destruct (taskFactory w) as [task w']. cbn in *.
    destruct (await _) as [r0|]; [|discriminate]. cbn in H0.
    injection H0 as ->.
    destruct (Z_ge_dec (n + 1) attempts) as [Hge|_]; [lia|].
    rewrite (IH (n + 1) w' (S made) r); [|lia|assumption..].
    replace (S made + S k)%nat with (made + S (S k))%nat by lia.
    reflexivity.
Qed.

(** Every attempt fails and exactly [k + 1] attempts remain. *)
Lemma attempt_all_fail (k : nat) : forall n w made r,
  n + Z.of_nat k + 1 >= attempts ->
  (n + Z.of_nat k < attempts \/ k = 0%nat) ->
  (forall i, (i <= k)%nat -> ok <$> nth_result i w = Some false) ->
  nth_result k w = Some r ->
  attempt n w made = Some (r, world_before (S k) w, (made + S k)%nat).
Proof.
  induction k as [|k IH]; intros n w made r Hge Hlt Hfail Hk.
  - rewrite attempt_unfold.
    pose proof (Hfail 0%nat ltac:(lia)) as H0. rewrite nth_result_0 in H0, Hk.
    cbn. destruct (taskFactory w) as [task w']. cbn in *.
    rewrite Hk in *. cbn in H0. injection H0 as ->.
    destruct (Z_ge_dec (n + 1) attempts) as [_|Hn]; [|lia].
    replace (made + 1)%nat with (S made) by lia. reflexivity.
  - rewrite attempt_unfold.
    pose proof (Hfail 0%nat ltac:(lia)) as H0. rewrite nth_result_0 in H0.
    rewrite nth_result_S in Hk.
    assert (Hfail' : forall i, (i <= k)%nat ->
              ok <$> nth_result i (snd (taskFactory w)) = Some false).
    { intros i Hi. rewrite <- nth_result_S. apply Hfail. lia. }
    cbn. destruct (taskFactory w) as [task w']. cbn in *.
    destruct (await _) as [r0|]; [|discriminate]. cbn in H0.
    injection H0 as ->.
    destruct (Z_ge_dec (n + 1) attempts) as [Hge'|_]; [lia|].
    rewrite (IH (n + 1) w' (S made) r); [|lia|lia|assumption..].
    replace (S made + S k)%nat with (made + S (S k))%nat by lia.
    reflexivity.
Qed.

(** [attempt] returns, whatever the factory does. *)
Lemma attempt_total (k : nat) : forall n w made,
  attempts - n <= Z.of_nat k -> is_Some (attempt n w made).
Proof.
  induction k as [|k IH]; intros n w made Hk; rewrite attempt_unfold;
    destruct (taskFactory w) as [task w']; rewrite await_withTimeout;
    destruct (ok _); try (eexists; reflexivity);
    destruct (Z_ge_dec (n + 1) attempts); try (eexists; reflexivity).
  - lia.
  - apply IH. lia.
Qed.

End Facts.

(** [runWithRetries] always returns. *)
Lemma runWithRetries_total {V W : Type} label
    (taskFactory : W -> behaviour V * W) attempts perAttemptTimeoutMs w :
  is_Some (runWithRetries label taskFactory attempts perAttemptTimeoutMs w).
Proof.
  unfold runWithRetries.
  apply (attempt_total _ _ _ _ (Z.to_nat (default 3 attempts))). lia.
Qed.

Example runWithRetries_flaky :
  runWithRetries "OpenAI" flaky (Some 3) (JNumber (Int 5000)) 0%nat
  = Some ({| ok := true; value := Some "hello"; error := None |}, 3%nat, 3%nat).
Proof. vm_compute. reflexivity. Qed.

(** C1. With an attempt ceiling [attempts >= 1], [runWithRetries] always
    returns. Attempt 0 is [withTimeout(taskFactory(), perAttemptTimeoutMs,
    label)]. If the first [k] attempts fail and attempt [k + 1] succeeds
    ([k < attempts]), it returns that [ok = true] result after exactly
    [k + 1] calls of the factory ([k = 0]: the first result, at once).
    If every attempt fails it returns the result of the last one after
    exactly [attempts] calls. *)
Theorem runWithRetries_attempts {V W : Type} (label : string)
    (taskFactory : W -> behaviour V * W) (attempts : Z)
    (perAttemptTimeoutMs : json) (w : W) :
  1 <= attempts ->
  let T := if_defined perAttemptTimeoutMs (JNumber (Int 5000)) in
  let res i := nth_result label taskFactory T i w in
  res 0%nat = await (withTimeout T label (fst (taskFactory w)))
  /\ (forall (k : nat) r,
        Z.of_nat k < attempts ->
        (forall i, (i < k)%nat -> ok <$> res i = Some false) ->
        res k = Some r -> ok r = true ->
        runWithRetries label taskFactory (Some attempts) perAttemptTimeoutMs w
        = Some (r, world_before taskFactory (S k) w, S k))
  /\ ((forall i, Z.of_nat i < attempts -> ok <$> res i = Some false) ->
      exists r,
        res (Z.to_nat attempts - 1)%nat = Some r /\ ok r = false
        /\ runWithRetries label taskFactory (Some attempts) perAttemptTimeoutMs w
           = Some (r, world_before taskFactory (Z.to_nat attempts) w,
                   Z.to_nat attempts)).
Proof.
  intros Hpos T res. split; [reflexivity|]. split.
  - intros k r Hk Hfail Hres Hok.
    apply (attempt_first_success label taskFactory attempts T k 0 w 0%nat r);
      auto; lia.
  - intros Hfail.
    destruct (nth_result_some label taskFactory T (Z.to_nat attempts - 1) w)
      as [r Hr].
    exists r. split; [exact Hr|]. split.
    + specialize (Hfail (Z.to_nat attempts - 1)%nat ltac:(lia)).
      unfold res in Hfail. rewrite Hr in Hfail. cbn in Hfail. congruence.
    + assert (Hm : Z.to_nat attempts = S (Z.to_nat attempts - 1)) by lia.
      set (m := (Z.to_nat attempts - 1)%nat) in *. rewrite Hm.
      apply (attempt_all_fail label taskFactory attempts T m 0 w 0%nat r);
        auto; try lia.
      intros i Hi. apply Hfail. lia.
Qed.

Lemma runWithRetries_attempts_witness :
  runWithRetries "OpenAI" flaky (Some 3) (JNumber (Int 5000)) 0%nat
  = Some ({| ok := true; value := Some "hello"; error := None |}, 3%nat, 3%nat)
  /\ exists r,
       ok r = false
       /\ runWithRetries "OpenAI" hopeless (Some 3) JUndefined 0%nat
          = Some (r, 3%nat, 3%nat).
Proof.
  split.
  - refine (proj1 (proj2 (runWithRetries_attempts "OpenAI" flaky 3
                            (JNumber (Int 5000)) 0%nat _))
                  2%nat _ _ _ _ _).
    + lia.
    + lia.
    + intros [|[|i]] Hi; [reflexivity|reflexivity|lia].
    + reflexivity.
    + reflexivity.
  - destruct (proj2 (proj2 (runWithRetries_attempts "OpenAI" hopeless 3
                              JUndefined 0%nat ltac:(lia))))
      as (r & _ & Hr & Hrun).
    + intros [|[|[|i]]] Hi; [reflexivity..|lia].
    + exists r. split; [exact Hr|exact Hrun].
Defined.

End RetryFacts.

Module HistoryFacts.
Import Js Server.

Example pickHist_provider_key :
  pickHist (JObject [("openai", JArray [turnA])]) (JString "model2") JUndefined
           "openai" = JArray [turnA].
Proof. reflexivity. Qed.

Example pickHist_model_id :
  pickHist (JObject [("model2", JArray [turnB])]) (JString "model2") JUndefined
           "openai" = JArray [turnB].
Proof. reflexivity. Qed.

Example pickHist_legacy_slots :
  pickHist (JObject [("model3", JArray [turnC]); ("model1", JArray [turnA])])
           JUndefined JUndefined "claude" = JArray [turnA; turnC].
Proof. reflexivity. Qed.

Example pickHist_array_bag :
  pickHist (JArray [JArray [turnA]]) (JString "0") JUndefined "openai"
  = JArray [turnA].
Proof. reflexivity. Qed.

(** C3, counterexample. With no per-provider, per-card or legacy-slot
    history, a shared [history] that is a string comes back as that
    string: the result of the resolver is then not a sequence. *)
Lemma pickHist_legacy_not_a_sequence :
  pickHist JUndefined JUndefined (JString "earlier") "openai" = JString "earlier"
  /\ isArray (pickHist JUndefined JUndefined (JString "earlier") "openai") = false.
Proof. split; reflexivity. Qed.

(** C3. Precedence of the history resolver. (1) If
    [histories[providerKey]] is an array it is returned as it is, for any
    [modelId]. (2) Otherwise, if [modelId] is a string and
    [histories[modelId]] is an array, that one is returned. (3) Otherwise,
    if one of [model1], [model2], [model3] holds an array, the result is
    the concatenation of those that do, in that order. (4) Otherwise the
    result is the shared [history] as it is, or the empty array when that
    is absent ([undefined] or [null]). The result is never [null] or
    [undefined]; it is an array exactly when one of the steps (1) to (3)
    applies or the shared [history] is an array or absent. *)
Theorem pickHist_precedence (histories modelId history : json)
    (providerKey : string) :
  let by_model_id := isString modelId && isArray (get_at histories modelId) in
  let slots := ["model1"; "model2"; "model3"] in
  let absent := match history with JUndefined | JNull => true | _ => false end in
  (isArray (get histories providerKey) = true ->
     pickHist histories modelId history providerKey = get histories providerKey)
  /\ (isArray (get histories providerKey) = false ->
      by_model_id = true ->
      pickHist histories modelId history providerKey = get_at histories modelId)
  /\ (isArray (get histories providerKey) = false ->
      by_model_id = false ->
      existsb (fun k => isArray (get histories k)) slots = true ->
      pickHist histories modelId history providerKey
      = JArray (elements (get histories "model1")
                ++ elements (get histories "model2")
                ++ elements (get histories "model3")))
  /\ (isArray (get histories providerKey) = false ->
      by_model_id = false ->
      existsb (fun k => isArray (get histories k)) slots = false ->
      pickHist histories modelId history providerKey
      = match history with
        | JUndefined | JNull => JArray []
        | _ => history
        end)
  /\ pickHist histories modelId history providerKey <> JNull
  /\ pickHist histories modelId history providerKey <> JUndefined
  /\ isArray (pickHist histories modelId history providerKey)
     = isArray (get histories providerKey) || by_model_id
       || existsb (fun k => isArray (get histories k)) slots
       || isArray history || absent.
Proof.
  intros by_model_id slots absent. unfold pickHist. fold by_model_id.
  assert (Hslots : existsb (fun k => isArray (get histories k)) slots
                   = isArray (get histories "model1")
                     || isArray (get histories "model2")
                     || isArray (get histories "model3")).
  { cbn. rewrite orb_false_r, orb_assoc. reflexivity. }
  assert (Hcat : flat_map (fun k => if isArray (get histories k)
                                    then elements (get histories k) else [])
                          slots
                 = (elements (get histories "model1")
                    ++ elements (get histories "model2")
                    ++ elements (get histories "model3"))%list).
  { cbn. rewrite app_nil_r.
    repeat match goal with
           | |- context [if isArray ?v then _ else _] => destruct v; cbn
           end; reflexivity. }
  fold slots. rewrite Hcat, <- Hslots. clear Hcat Hslots.
  assert (Harr : forall v, isArray v = true -> v <> JNull /\ v <> JUndefined).
  { intros v Hv. split; intros ->; discriminate. }
  split; [intros ->; reflexivity|].
  split; [intros -> ->; reflexivity|].
  split; [intros -> -> ->; reflexivity|].
  split; [intros -> -> ->; destruct history; reflexivity|].
  destruct (isArray (get histories providerKey)) eqn:Hp.
  { destruct (Harr _ Hp). rewrite Hp. auto. }
  destruct by_model_id eqn:Hm.
  { apply andb_prop in Hm. destruct (Harr _ (proj2 Hm)).
    rewrite (proj2 Hm). auto. }
  destruct (existsb _ _).
  { repeat split; discriminate. }
  subst absent. destruct history; cbn; repeat split; discriminate.
Qed.

Lemma pickHist_precedence_witness :
  pickHist (JObject [("openai", JArray [turnA])]) (JString "model2") JUndefined
           "openai" = JArray [turnA]
  /\ pickHist (JObject [("model2", JArray [turnB])]) (JString "model2")
              JUndefined "openai" = JArray [turnB]
  /\ pickHist (JObject [("model3", JArray [turnC]); ("model1", JArray [turnA])])
              JUndefined JUndefined "claude" = JArray [turnA; turnC]
  /\ pickHist (JObject []) JUndefined (JArray [turnB]) "gemini" = JArray [turnB]
  /\ isArray (pickHist JNull (JString "model1") JNull "gemini") = true
  /\ isArray (pickHist JNull (JString "model1") (JNumber (Int 7)) "gemini")
     = false.
Proof.
  split; [|split; [|split; [|split; [|split]]]].
  - destruct (pickHist_precedence (JObject [("openai", JArray [turnA])])
                (JString "model2") JUndefined "openai") as (H & _).
    apply H. reflexivity.
  - destruct (pickHist_precedence (JObject [("model2", JArray [turnB])])
                (JString "model2") JUndefined "openai") as (_ & H & _).
    apply H; reflexivity.
  - destruct (pickHist_precedence
                (JObject [("model3", JArray [turnC]); ("model1", JArray [turnA])])
                JUndefined JUndefined "claude") as (_ & _ & H & _).
    apply H; reflexivity.
  - destruct (pickHist_precedence (JObject []) JUndefined (JArray [turnB])
                "gemini") as (_ & _ & _ & H & _).
    apply H; reflexivity.
  - destruct (pickHist_precedence JNull (JString "model1") JNull "gemini")
      as (_ & _ & _ & _ & _ & _ & H).
    rewrite H. reflexivity.
  - destruct (pickHist_precedence JNull (JString "model1") (JNumber (Int 7))
                "gemini") as (_ & _ & _ & _ & _ & _ & H).
    rewrite H. reflexivity.
Defined.

End HistoryFacts.

Module AdapterFacts.
Import Js Providers Config Adapters Server Samples.

(** [v || d] converts to a string when [v] and [d] do. *)
Lemma unprintable_or_else v d :
  unprintable v = false -> unprintable d = false ->
  unprintable (or_else v d) = false.
Proof. intros Hv Hd. unfold or_else. destruct (truthy v); assumption. Qed.

(** The loop over the history keeps the turns with a non-empty string
    content and pushes one item for each. *)
Lemma for_of_kept {A : Type} (history : json) (f : json -> A) :
  for_of history (fun m => if nonempty (content_of m) then [f m] else [])
  = map f (kept_turns history).
Proof.
  unfold for_of, kept_turns. destruct (isArray history); [|reflexivity].
  induction (elements history) as [|m ms IH]; [reflexivity|].
  cbn [flat_map]. rewrite IH, filter_cons.
  destruct (nonempty (content_of m)) eqn:Hm.
  - rewrite decide_True by reflexivity. reflexivity.
  - rewrite decide_False by discriminate. reflexivity.
Qed.

Lemma kept_turns_nonempty history m :
  m ∈ kept_turns history -> nonempty (content_of m) = true.
Proof. unfold kept_turns. rewrite list_elem_of_filter. tauto. Qed.

Lemma kept_turns_elem history m :
  isArray history = true -> m ∈ elements history ->
  nonempty (content_of m) = true -> m ∈ kept_turns history.
Proof.
  intros Ha Hm Hc. unfold kept_turns. rewrite Ha, list_elem_of_filter. auto.
Qed.

Lemma with_model_config_model files a :
  model (with_model_config files a) = model a.
Proof. unfold with_model_config. destruct (useModelConfig a); reflexivity. Qed.

Lemma with_model_config_history files a :
  history (with_model_config files a) = history a.
Proof. unfold with_model_config. destruct (useModelConfig a); reflexivity. Qed.

Lemma with_model_config_prompt files a :
  prompt (with_model_config files a) = prompt a.
Proof. unfold with_model_config. destruct (useModelConfig a); reflexivity. Qed.

Lemma chat_messages_kept a :
  chat_messages a
  = (if truthy (system a) then [message "system" (system a)] else [])
    ++ map (fun m => message (chat_role m) (JString (content_of m)))
           (kept_turns (history a))
    ++ [message "user" (prompt a)].
Proof.
  unfold chat_messages.
  rewrite (for_of_kept (history a)
             (fun m => message (chat_role m) (JString (content_of m)))).
  reflexivity.
Qed.

Lemma research_parts_kept a :
  research_parts a
  = ["System: " +:+ DEEP_RESEARCH_PLANNER_INSTRUCTIONS]
    ++ (if truthy (system a) then ["System: " +:+ to_string (system a)] else [])
    ++ map (fun m => research_role m +:+ ": " +:+ content_of m)
           (kept_turns (history a))
    ++ ["User: " +:+ to_string (prompt a)].
Proof.
  unfold research_parts.
  rewrite (for_of_kept (history a)
             (fun m => research_role m +:+ ": " +:+ content_of m)).
  reflexivity.
Qed.

Lemma claude_messages_kept a :
  claude_messages a
  = map (fun m => message (claude_role m) (JString (content_of m)))
        (kept_turns (history a))
    ++ [message "user" (prompt a)].
Proof.
  unfold claude_messages.
  rewrite (for_of_kept (history a)
             (fun m => message (claude_role m) (JString (content_of m)))).
  reflexivity.
Qed.

Lemma gemini_contents_kept a :
  gemini_contents a
  = map (fun m => content_entry (gemini_role m) (JString (content_of m)))
        (kept_turns (history a))
    ++ [content_entry "user" (prompt a)].
Proof.
  unfold gemini_contents.
  rewrite (for_of_kept (history a)
             (fun m => content_entry (gemini_role m) (JString (content_of m)))).
  reflexivity.
Qed.

(** Adding a field that is not there leaves the others alone. *)
Lemma lookup_set_field_ne k k' v fields :
  k <> k' -> lookup_field k' (set_field k v fields) = lookup_field k' fields.
Proof.
  intros Hne. induction fields as [|[k0 v0] rest IH]; cbn.
  - destruct (String.eqb_spec k' k); [congruence|reflexivity].
  - destruct (String.eqb_spec k k0) as [->|Hk0]; cbn.
    + destruct (String.eqb_spec k' k0); [congruence|reflexivity].
    + destruct (String.eqb_spec k' k0); [reflexivity|exact IH].
Qed.

Lemma get_set_ne obj k k' v :
  k <> k' -> get (set obj k v) k' = get obj k'.
Proof.
  intros Hne. destruct obj; try reflexivity. cbn.
  apply lookup_set_field_ne, Hne.
Qed.

(** The sampling parameters do not touch [messages]. *)
Lemma with_sampling_messages g t mt mct payload :
  get (with_sampling g t mt mct payload) "messages" = get payload "messages".
Proof.
  unfold with_sampling.
  repeat match goal with
         | |- context [if ?b then _ else _] => destruct b
         end;
    repeat rewrite get_set_ne by discriminate; reflexivity.
Qed.

(** What each adapter sends, when its key is configured. *)
Lemma sent_messages_askOpenAI env files a :
  configured (OPENAI_API_KEY env) = true ->
  usesResponsesApi (model a) = false ->
  sent_messages (askOpenAI env files a)
  = chat_messages (with_model_config files a).
Proof.
  intros Hk Hm. unfold askOpenAI. rewrite Hk. cbn [negb].
  rewrite with_model_config_model, Hm.
  unfold sent_messages. cbn [endpoint payload String.eqb Ascii.eqb Bool.eqb].
  rewrite with_sampling_messages. reflexivity.
Qed.

Lemma sent_messages_askClaude env a :
  configured (ANTHROPIC_API_KEY env) = true ->
  sent_messages (askClaude env a) = claude_messages a.
Proof. intros Hk. unfold askClaude. rewrite Hk. reflexivity. Qed.

Lemma sent_messages_askGemini env a :
  configured (GEMINI_API_KEY env) || configured (GOOGLE_API_KEY env) = true ->
  sent_messages (askGemini env a) = gemini_contents a.
Proof.
  intros Hk. unfold askGemini.
  destruct (configured (GEMINI_API_KEY env)) eqn:Hg.
  - rewrite Hg. reflexivity.
  - cbn in Hk. rewrite Hk. reflexivity.
Qed.

Lemma message_text_message role c : message_text (message role c) = c.
Proof. reflexivity. Qed.

Lemma message_text_content_entry role t :
  message_text (content_entry role t) = t.
Proof. reflexivity. Qed.

Lemma no_empty_message_app l1 l2 :
  no_empty_message l1 -> no_empty_message l2 -> no_empty_message (l1 ++ l2).
Proof. unfold no_empty_message. rewrite Forall_app. auto. Qed.

Lemma no_empty_message_kept (f : json -> json) history :
  (forall m, message_text (f m) = JString (content_of m)) ->
  no_empty_message (map f (kept_turns history)).
Proof.
  intros Hf. unfold no_empty_message. rewrite Forall_map, Forall_forall.
  intros m Hm. cbn. rewrite Hf. cbn. apply (kept_turns_nonempty history), Hm.
Qed.

Lemma ends_with_prompt_snoc p role l :
  (forall c, message_text (role c) = c) ->
  (forall c, get (role c) "role" = JString "user") ->
  ends_with_prompt p (l ++ [role p]).
Proof.
  intros Ht Hr. exists (role p). rewrite last_snoc. auto.
Qed.





(** The switch as [with_sampling] performs it on a fresh payload. *)
Lemma switched_with_sampling model t mt mct x y :
  switched model t mt mct
    (with_sampling (isGpt5 model) t mt mct
       (JObject [("model", x); ("messages", y)])) = true.
Proof.
  unfold switched, with_sampling.
  destruct (isGpt5 model), (isNumber t), (isNumber (nullish mct mt)),
    (isNumber (nullish mt mct)); reflexivity.
Qed.

Lemma with_sampling_values g t mt mct x y :
  let payload :=
    with_sampling g t mt mct (JObject [("model", x); ("messages", y)]) in
  get payload "temperature"
  = (if has_field payload "temperature" then t else JUndefined)
  /\ get payload "max_completion_tokens"
     = (if has_field payload "max_completion_tokens"
        then nullish mct mt else JUndefined)
  /\ get payload "max_tokens"
     = (if has_field payload "max_tokens" then nullish mt mct else JUndefined).
Proof.
  unfold with_sampling.
  destruct g, (isNumber t), (isNumber (nullish mct mt)),
    (isNumber (nullish mt mct)); repeat split; reflexivity.
Qed.

(** [{ ...payload, stream: true }] adds one field. *)
Lemma switched_stream model t mt mct x y :
  switched model t mt mct
    (set (with_sampling (isGpt5 model) t mt mct
            (JObject [("model", x); ("messages", y)]))
         "stream" (JBool true)) = true.
Proof.
  unfold switched, with_sampling.
  destruct (isGpt5 model), (isNumber t), (isNumber (nullish mct mt)),
    (isNumber (nullish mt mct)); reflexivity.
Qed.

Lemma stream_values g t mt mct x y :
  let payload :=
    set (with_sampling g t mt mct (JObject [("model", x); ("messages", y)]))
        "stream" (JBool true) in
  get payload "temperature"
  = (if has_field payload "temperature" then t else JUndefined)
  /\ get payload "max_completion_tokens"
     = (if has_field payload "max_completion_tokens"
        then nullish mct mt else JUndefined)
  /\ get payload "max_tokens"
     = (if has_field payload "max_tokens" then nullish mt mct else JUndefined).
Proof.
  unfold with_sampling.
  destruct g, (isNumber t), (isNumber (nullish mct mt)),
    (isNumber (nullish mt mct)); repeat split; reflexivity.
Qed.

Example chat_payload_older_family :
  sent_payload (askOpenAI all_keys no_files (args_for "gpt-4o"))
  = JObject [("model", JString "gpt-4o");
             ("messages",
              JArray [message "system" (JString "C");
                      message "assistant" (JString "B");
                      message "user" (JString "hi")]);
             ("temperature", JNumber (Frac "0.5"));
             ("max_tokens", JNumber (Int 1024))].
Proof. reflexivity. Qed.

Example chat_payload_newer_family :
  sent_payload (askOpenAI all_keys no_files (args_for "gpt-5-mini"))
  = JObject [("model", JString "gpt-5-mini");
             ("messages",
              JArray [message "system" (JString "C");
                      message "assistant" (JString "B");
                      message "user" (JString "hi")]);
             ("max_completion_tokens", JNumber (Int 1024))].
Proof. reflexivity. Qed.




Example research_input :
  get (sent_payload (askOpenAI all_keys no_files
                       (args_for "o3-deep-research"))) "input"
  = JString ("System: " +:+ DEEP_RESEARCH_PLANNER_INSTRUCTIONS +:+ nl +:+ nl
             +:+ "System: C" +:+ nl +:+ nl +:+ "Assistant: B" +:+ nl +:+ nl
             +:+ "User: hi").
Proof. vm_compute. reflexivity. Qed.

Example decode_responses_stitches :
  decode_responses
    (JObject [("output_text", JString "");
              ("output",
               JArray [JObject [("type", JString "reasoning")];
                       JObject [("text", JString "a")];
                       JObject [("content",
                                 JArray [JObject [("text", JString "b")];
                                         JNull;
                                         JObject [("text", JString "c")]])]])])
  = JString "abc".
Proof. reflexivity. Qed.

Lemma decode_responses_final_text response s :
  get response "output_text" = JString s -> nonempty s = true ->
  decode_responses response = JString s.
Proof.
  intros Ht Hs. unfold decode_responses. rewrite Ht. cbn. rewrite Hs.
  reflexivity.
Qed.

Lemma decode_responses_fragments response :
  isString (get response "output_text")
  && nonempty (to_string (get response "output_text")) = false ->
  decode_responses response
  = JString (String.concat ""
      (flat_map fragments
         (if isArray (get response "output")
          then elements (get response "output") else []))).
Proof.
  intros Ht. unfold decode_responses. rewrite Ht. unfold for_of.
  destruct (isArray (get response "output")); reflexivity.
Qed.

Lemma askOpenAI_ignores_limits env files a t mt mct :
  usesResponsesApi (model a) = true ->
  askOpenAI env files (with_limits a t mt mct) = askOpenAI env files a.
Proof.
  intros Hm. unfold askOpenAI.
  destruct (negb (configured (OPENAI_API_KEY env))); [reflexivity|].
  rewrite !with_model_config_model. cbn [with_limits model]. rewrite Hm.
  unfold with_model_config, research_parts. cbn [with_limits useModelConfig].
  destruct (useModelConfig a); reflexivity.
Qed.



End AdapterFacts.

Module TextFacts.
Import Js Providers Config Adapters Server Samples.

Lemma append_cons x (a b : string) : String x a +:+ b = String x (a +:+ b).
Proof. reflexivity. Qed.

Lemma append_assoc (a b c : string) : (a +:+ b) +:+ c = a +:+ (b +:+ c).
Proof.
  induction a as [|x a IH]; [reflexivity|]. rewrite !append_cons, IH.
  reflexivity.
Qed.

Lemma append_empty_r (a : string) : a +:+ "" = a.
Proof.
  induction a as [|x a IH]; [reflexivity|]. rewrite append_cons, IH.
  reflexivity.
Qed.

Lemma length_append (a b : string) :
  String.length (a +:+ b) = (String.length a + String.length b)%nat.
Proof.
  induction a as [|x a IH]; [reflexivity|]. rewrite append_cons. cbn.
  rewrite IH. reflexivity.
Qed.

Lemma skip_append (a b : string) : skip (String.length a) (a +:+ b) = b.
Proof.
  induction a as [|x a IH]; [destruct b; reflexivity|].
  rewrite append_cons. exact IH.
Qed.

Lemma prefix_append (a b : string) : String.prefix a (a +:+ b) = true.
Proof.
  induction a as [|x a IH]; [destruct b; reflexivity|].
  rewrite append_cons. cbn. destruct (ascii_dec x x); [exact IH|contradiction].
Qed.

(** [occurs] finds every occurrence. *)
Lemma occurs_complete pat text pre post :
  text = pre +:+ pat +:+ post -> occurs pat text = true.
Proof.
  intros ->. unfold occurs. apply existsb_exists. exists (String.length pre).
  split.
  - apply in_seq. rewrite !length_append. lia.
  - rewrite skip_append. apply prefix_append.
Qed.

Lemma length_substring n s :
  (n <= String.length s)%nat -> String.length (substring 0 n s) = n.
Proof.
  revert n. induction s as [|x s IH]; intros [|n] Hn; cbn in *;
    try reflexivity; try lia.
  rewrite IH by lia. reflexivity.
Qed.

Lemma substring_skip n s : s = substring 0 n s +:+ skip n s.
Proof.
  revert n. induction s as [|x s IH]; intros [|n]; try reflexivity.
  cbn [substring skip]. rewrite append_cons. f_equal. apply IH.
Qed.

Lemma skip_nonempty n s : (n < String.length s)%nat -> skip n s <> "".
Proof.
  revert n. induction s as [|x s IH]; intros [|n] Hn; cbn in *;
    try lia; try discriminate.
  apply IH. lia.
Qed.

Lemma length_replicate_char n c : String.length (replicate_char n c) = n.
Proof. induction n as [|n IH]; cbn; congruence. Qed.

(** Every element of a joined list is in the result. *)
Lemma concat_middle sep l1 x l2 :
  exists pre post, String.concat sep (l1 ++ x :: l2) = pre +:+ x +:+ post.
Proof.
  induction l1 as [|a l1 (pre & post & IH)].
  - destruct l2 as [|y l2].
    + exists "", "". cbn. rewrite append_empty_r. reflexivity.
    + exists "", (sep +:+ String.concat sep (y :: l2)). reflexivity.
  - exists (a +:+ sep +:+ pre), post.
    change ((a :: l1) ++ x :: l2) with (a :: (l1 ++ x :: l2)).
    destruct (l1 ++ x :: l2) as [|b rest] eqn:Hl.
    + destruct l1; discriminate.
    + change (String.concat sep (a :: b :: rest))
        with (a +:+ sep +:+ String.concat sep (b :: rest)).
      rewrite IH, !append_assoc. reflexivity.
Qed.

Lemma concat_cons sep x l :
  l <> [] -> String.concat sep (x :: l) = x +:+ sep +:+ String.concat sep l.
Proof. destruct l; [contradiction|reflexivity]. Qed.

Lemma concat_app sep l1 : forall l2,
  l1 <> [] -> l2 <> [] ->
  String.concat sep (l1 ++ l2)
  = String.concat sep l1 +:+ sep +:+ String.concat sep l2.
Proof.
  induction l1 as [|x l1 IH]; intros l2 H1 H2; [contradiction|].
  destruct l1 as [|y l1].
  - cbn [app]. apply concat_cons, H2.
  - change ((x :: y :: l1) ++ l2) with (x :: ((y :: l1) ++ l2)).
    rewrite concat_cons by discriminate.
    rewrite IH by first [exact H2|discriminate].
    rewrite (concat_cons sep x (y :: l1)) by discriminate.
    rewrite !append_assoc. reflexivity.
Qed.

(** A loop that pushes one item per element and stops at the first
    element on which it throws. *)
Lemma mapM_imap_guard {A B : Type} (l : list A) :
  forall (t : nat -> A -> bool) (g : nat -> A -> B),
  mapM id (imap (fun i a => if t i a then None else Some (g i a)) l)
  = if existsb id (imap t l) then None else Some (imap g l).
Proof.
  induction l as [|x l IH]; intros t g; [reflexivity|].
  cbn [imap existsb id].
  pose proof (IH (t ∘ S) (g ∘ S)) as IH'.
  change (mapM id (imap ((fun i a => if t i a then None else Some (g i a)) ∘ S) l)
          = (if existsb id (imap (t ∘ S) l) then None
             else Some (imap (g ∘ S) l))) in IH'.
  change (mapM id ((if t 0%nat x then None else Some (g 0%nat x))
                   :: imap ((fun i a => if t i a then None else Some (g i a)) ∘ S) l))
    with (y ← (if t 0%nat x then None else Some (g 0%nat x));
          k ← mapM id (imap ((fun i a => if t i a then None
                                         else Some (g i a)) ∘ S) l);
          Some (y :: k)).
  rewrite IH'. destruct (t 0%nat x); [reflexivity|]. cbn.
  destruct (existsb id (imap (t ∘ S) l)); reflexivity.
Qed.

Lemma existsb_imap {A : Type} (t : nat -> A -> bool) (l : list A) :
  existsb id (imap t l) = true
  <-> exists i a, l !! i = Some a /\ t i a = true.
Proof.
  rewrite existsb_exists. split.
  - intros (b & Hin & Hb). apply list_elem_of_In in Hin.
    apply list_elem_of_lookup in Hin as (i & Hi).
    rewrite list_lookup_imap in Hi.
    destruct (l !! i) as [a|] eqn:Ha; [|discriminate].
    cbn in Hi. injection Hi as <-. eauto.
  - intros (i & a & Ha & Ht). exists true. split; [|reflexivity].
    apply list_elem_of_In, list_elem_of_lookup. exists i.
    rewrite list_lookup_imap, Ha. cbn. rewrite Ht. reflexivity.
Qed.

Section Attachments.
Variable StringToNumber : string -> number.

Local Abbreviation header_text := (header_text StringToNumber).
Local Abbreviation line_text := (line_text StringToNumber).
Local Abbreviation attachment_header := (attachment_header StringToNumber).
Local Abbreviation attachment_line := (attachment_line StringToNumber).
Local Abbreviation buildPromptWithAttachments :=
  (buildPromptWithAttachments StringToNumber).

Lemma attachment_line_cases i a :
  attachment_line i a
  = if header_throws i a then None else Some (line_text i a).
Proof.
  unfold Server.attachment_line, Server.attachment_header, Server.line_text.
  destruct (header_throws i a); [reflexivity|].
  destruct (MAX_PER <? _)%nat; reflexivity.
Qed.

(** The line of an attachment that is cut. *)
Lemma line_text_truncated i a content :
  get a "content" = JString content ->
  (MAX_PER < String.length content)%nat ->
  line_text i a
  = header_text i a +:+ " [truncated]:" +:+ nl +:+ substring 0 MAX_PER content.
Proof.
  intros Hc Hlen. unfold Server.line_text. rewrite Hc.
  apply Nat.ltb_lt in Hlen. rewrite Hlen. reflexivity.
Qed.

(** The line of an attachment that fits. *)
Lemma line_text_whole i a content :
  get a "content" = JString content ->
  (String.length content <= MAX_PER)%nat ->
  line_text i a = header_text i a +:+ ":" +:+ nl +:+ content.
Proof.
  intros Hc Hlen. unfold Server.line_text. rewrite Hc.
  apply Nat.ltb_ge in Hlen. rewrite Hlen. reflexivity.
Qed.

(** The lines the loop pushes. *)
Lemma pushed_lines (atts : list json) :
  mapM id (imap attachment_line atts)
  = if existsb id (imap header_throws atts) then None
    else Some (imap line_text atts).
Proof.
  rewrite <- mapM_imap_guard. f_equal. apply imap_ext.
  intros i a _. apply attachment_line_cases.
Qed.

(** [buildPromptWithAttachments], case by case. *)
Lemma buildPromptWithAttachments_cases p atts :
  buildPromptWithAttachments p atts
  = if negb (isArray atts) || (List.length (elements atts) =? 0)%nat
    then Some p
    else if attachments_throw p atts then None
    else Some (JString ("Attachments:" +:+ nl
                        +:+ String.concat nl (imap line_text (elements atts))
                        +:+ nl +:+ (nl +:+ "---" +:+ nl) +:+ nl
                        +:+ join "" [p])).
Proof.
  unfold Server.buildPromptWithAttachments, attachments_throw.
  destruct (isArray atts); [|reflexivity].
  destruct (elements atts) as [|a0 rest] eqn:Hel; [reflexivity|].
  cbn [negb orb andb List.length Nat.eqb]. rewrite <- Hel.
  rewrite pushed_lines.
  destruct (existsb id (imap header_throws (elements atts))); [reflexivity|].
  cbn [orb]. destruct (unprintable p); [reflexivity|].
  f_equal. f_equal. unfold join. cbn [app map]. rewrite map_app.
  rewrite map_map. cbn [map]. rewrite map_id.
  assert (Hlines : imap line_text (elements atts) <> []).
  { rewrite Hel. discriminate. }
  rewrite concat_cons by (destruct (imap _ _); discriminate).
  rewrite concat_app by first [exact Hlines|discriminate].
  reflexivity.
Qed.

Lemma buildPromptWithAttachments_None p atts :
  buildPromptWithAttachments p atts = None
  <-> attachments_throw p atts = true.
Proof.
  rewrite buildPromptWithAttachments_cases. unfold attachments_throw.
  destruct (isArray atts); [|split; discriminate].
  destruct (elements atts) as [|a0 rest] eqn:Hel; [split; discriminate|].
  cbn [negb orb andb List.length Nat.eqb].
  destruct (existsb id _ || _); split; congruence.
Qed.

End Attachments.

End TextFacts.

Module AskFacts.
Import Js Providers Config Adapters Server Samples TimeoutFacts RetryFacts TextFacts.

Section Facts.
Variable env : environment.
Variable readJsonSafe : string -> json.
Variable StringToNumber : string -> number.
Variable vendor : vendor_call -> nat -> behaviour json.
Variables startedAt settledAt : string -> Z.
Variable reqBody : json.

Local Abbreviation on_settled := (on_settled startedAt settledAt).
Local Abbreviation respond := (respond startedAt settledAt).
Local Abbreviation submit := (submit env readJsonSafe StringToNumber vendor reqBody).
Local Abbreviation block := (block env readJsonSafe StringToNumber vendor reqBody).
Local Abbreviation requested := (requested reqBody).
Local Abbreviation enabled := (enabled env reqBody).
Local Abbreviation hasKey := (hasKey env).
Local Abbreviation config_models := (config_models reqBody).
Local Abbreviation unkeyed := (unkeyed env reqBody).
Local Abbreviation plan := (plan env readJsonSafe StringToNumber vendor reqBody).
Local Abbreviation ask :=
  (ask env readJsonSafe StringToNumber vendor startedAt settledAt reqBody).
Local Abbreviation ask_throws := (ask_throws env readJsonSafe reqBody).

Lemma provider_key_inj p q : provider_key p = provider_key q -> p = q.
Proof. destruct p, q; cbn; congruence. Qed.

Lemma provider_key_cases k :
  (exists p, k = provider_key p) \/ (forall p, k <> provider_key p).
Proof.
  destruct (decide (k = "openai")) as [->|Ho]; [left; exists OpenAI; reflexivity|].
  destruct (decide (k = "claude")) as [->|Hc]; [left; exists Claude; reflexivity|].
  destruct (decide (k = "gemini")) as [->|Hg]; [left; exists Gemini; reflexivity|].
  right. intros []; assumption.
Qed.

Lemma key_submit p : key (submit p) = provider_key p.
Proof. reflexivity. Qed.

Lemma submit_settles p : is_Some (settled (submit p)).
Proof. apply runWithRetries_total. Qed.

Lemma unkeyed_or_enabled p : requested p = unkeyed p || enabled p.
Proof.
  unfold Server.unkeyed, Server.enabled.
  destruct (hasKey p), (requested p); reflexivity.
Qed.

Lemma unkeyed_not_enabled p : unkeyed p = true -> enabled p = false.
Proof.
  unfold Server.unkeyed, Server.enabled.
  destruct (hasKey p), (requested p); cbn; congruence.
Qed.

Lemma unkeyed_iff p :
  unkeyed p = true <-> requested p = true /\ hasKey p = false.
Proof.
  unfold Server.unkeyed. destruct (hasKey p), (requested p); cbn; intuition congruence.
Qed.

Lemma enabled_iff p :
  enabled p = true <-> requested p = true /\ hasKey p = true.
Proof.
  unfold Server.enabled. destruct (hasKey p), (requested p); cbn; intuition congruence.
Qed.

(** The jobs pushed by the blocks of a list of providers. *)
Lemma blocks_jobs ps : forall st,
  fst (foldl block st ps)
  = fst st ++ map submit (filter (fun p => enabled p = true) ps).
Proof.
  induction ps as [|p ps IH]; intros st; cbn [foldl].
  - cbn. rewrite app_nil_r. reflexivity.
  - rewrite IH, filter_cons. unfold Server.block.
    destruct (unkeyed p) eqn:Hu.
    + rewrite (unkeyed_not_enabled p Hu).
      rewrite decide_False by discriminate. reflexivity.
    + destruct (enabled p) eqn:He.
      * rewrite decide_True by reflexivity. cbn. rewrite <- app_assoc.
        reflexivity.
      * rewrite decide_False by discriminate. reflexivity.
Qed.

Lemma plan_jobs :
  fst plan = map submit (filter (fun p => enabled p = true) [OpenAI; Claude; Gemini]).
Proof. unfold Server.plan. rewrite blocks_jobs. reflexivity. Qed.

(** The entries written before any job settles. *)
Lemma plan_results p :
  snd plan !! provider_key p
  = if unkeyed p
    then Some (missing_entry (provider_key p) (config_models p)
                             (missing_message p))
    else None.
Proof.
  unfold Server.plan. cbn [foldl]. unfold Server.block.
  destruct (unkeyed OpenAI) eqn:H1, (enabled OpenAI),
           (unkeyed Claude) eqn:H2, (enabled Claude),
           (unkeyed Gemini) eqn:H3, (enabled Gemini);
    destruct p; cbn [fst snd provider_key];
    rewrite ?H1, ?H2, ?H3; simplify_map_eq; reflexivity.
Qed.

Lemma plan_results_other k :
  (forall p, k <> provider_key p) -> snd plan !! k = None.
Proof.
  intros Hk.
  pose proof (Hk OpenAI) as Ho. pose proof (Hk Claude) as Hc.
  pose proof (Hk Gemini) as Hg. cbn in Ho, Hc, Hg.
  unfold Server.plan. cbn [foldl]. unfold Server.block.
  destruct (unkeyed OpenAI), (enabled OpenAI),
           (unkeyed Claude), (enabled Claude),
           (unkeyed Gemini), (enabled Gemini);
    cbn [fst snd provider_key]; simplify_map_eq; reflexivity.
Qed.

(** What the callbacks leave in [results], in any order of completion. *)
Lemma on_settled_other m l k :
  k ∉ map (fun d => key (fst d)) l -> foldl on_settled m l !! k = m !! k.
Proof.
  revert m. induction l as [|d l IH]; intros m Hk; [reflexivity|].
  cbn [foldl]. rewrite IH.
  - unfold Server.on_settled. apply lookup_insert_ne.
    intros Heq. apply Hk. rewrite <- Heq. apply list_elem_of_here.
  - intros Hin. apply Hk. apply list_elem_of_further, Hin.
Qed.

Lemma on_settled_job m l d :
  NoDup (map (fun d => key (fst d)) l) -> d ∈ l ->
  foldl on_settled m l !! key (fst d)
  = Some (outcome_entry (key (fst d)) (model (args (fst d))) (fst (fst (snd d)))
            (settledAt (key (fst d)) - startedAt (key (fst d)))).
Proof.
  revert m. induction l as [|d0 l IH]; intros m Hnd Hd.
  - apply elem_of_nil in Hd. contradiction.
  - cbn [map] in Hnd. apply NoDup_cons in Hnd as [Hfresh Hnd]. cbn [foldl].
    apply elem_of_cons in Hd as [->|Hd].
    + rewrite on_settled_other by exact Hfresh.
      unfold Server.on_settled. apply lookup_insert_eq.
    + apply IH; assumption.
Qed.

(** Every job of the plan settles, so the handler replies. *)
Lemma plan_settles :
  exists done,
    mapM (fun j => pair j <$> settled j) (fst plan) = Some done
    /\ map fst done = fst plan
    /\ Forall (fun d => settled (fst d) = Some (snd d)) done.
Proof.
  assert (Hall : Forall (fun j => is_Some (pair j <$> settled j)) (fst plan)).
  { rewrite plan_jobs. apply Forall_forall. intros j Hj.
    apply list_elem_of_fmap in Hj as (p & -> & _).
    destruct (submit_settles p) as [out Hout]. rewrite Hout. eexists; reflexivity. }
  destruct (mapM_is_Some_2 _ _ Hall) as [done Hdone].
  exists done. split; [exact Hdone|].
  apply mapM_Some_1 in Hdone. clear Hall.
  induction Hdone as [|j d js ds Hjd _ [IH1 IH2]]; [split; constructor|].
  destruct (settled j) as [out|] eqn:Hout; [|discriminate].
  cbn in Hjd. injection Hjd as <-. cbn. split.
  - f_equal. exact IH1.
  - constructor; [exact Hout|exact IH2].
Qed.

Lemma providers_NoDup : NoDup [OpenAI; Claude; Gemini].
Proof.
  repeat (apply NoDup_cons; split;
          [rewrite ?not_elem_of_cons; repeat split;
           try discriminate; apply not_elem_of_nil|]).
  apply NoDup_nil_2.
Qed.

Lemma providers_all p : p ∈ [OpenAI; Claude; Gemini].
Proof. destruct p; repeat constructor. Qed.

Lemma enabled_providers_NoDup :
  NoDup (map (fun p => provider_key p)
             (filter (fun p => enabled p = true) [OpenAI; Claude; Gemini])).
Proof.
  apply NoDup_fmap_2; [intros p q; apply provider_key_inj|].
  apply NoDup_filter, providers_NoDup.
Qed.

Lemma plan_keys :
  map key (fst plan)
  = map provider_key (filter (fun p => enabled p = true) [OpenAI; Claude; Gemini]).
Proof. rewrite plan_jobs, map_map. reflexivity. Qed.

(** The reply to a request with a prompt. *)
Lemma respond_plan :
  exists done,
    map fst done = fst plan
    /\ Forall (fun d => settled (fst d) = Some (snd d)) done
    /\ respond plan
       = Some {| reply :=
                   Aggregate (foldl on_settled (snd plan)
                                (completion_order settledAt done));
                 submitted := fst plan |}.
Proof.
  destruct plan_settles as (done & Hm & Hfst & Hall).
  exists done. split; [exact Hfst|]. split; [exact Hall|].
  unfold Server.respond. rewrite Hm. reflexivity.
Qed.

Lemma completion_order_keys done :
  map fst done = fst plan ->
  NoDup (map (fun d => key (fst d)) (completion_order settledAt done))
  /\ (forall k, k ∈ map (fun d => key (fst d)) (completion_order settledAt done)
                <-> exists p, k = provider_key p /\ enabled p = true).
Proof.
  intros Hfst.
  assert (Hperm : map (fun d => key (fst d)) (completion_order settledAt done)
                  ≡ₚ map key (fst plan)).
  { unfold completion_order. rewrite merge_sort_Permutation.
    rewrite <- Hfst, map_map. reflexivity. }
  split.
  - rewrite Hperm, plan_keys. apply enabled_providers_NoDup.
  - intros k. rewrite Hperm, plan_keys, list_elem_of_fmap. split.
    + intros (p & -> & Hp). apply list_elem_of_filter in Hp as [Hp _]. eauto.
    + intros (p & -> & Hp). exists p. split; [reflexivity|].
      apply list_elem_of_filter. split; [exact Hp|apply providers_all].
Qed.

(** The handler, case by case. *)
Lemma ask_cases :
  ask
  = if logging_throws reqBody then None
    else if missing_prompt reqBody then
      Some {| reply := BadRequest (JObject [("error", JString "Missing prompt")]);
              submitted := [] |}
    else if attachments_throw (req_prompt reqBody) (req_attachments reqBody)
    then None
    else if timer_throws env readJsonSafe reqBody then None
    else respond plan.
Proof.
  unfold Server.ask.
  destruct (logging_throws reqBody); [reflexivity|].
  destruct (missing_prompt reqBody); [reflexivity|].
  pose proof (buildPromptWithAttachments_None StringToNumber
                (req_prompt reqBody) (req_attachments reqBody)) as Hnone.
  unfold effectivePrompt.
  destruct (buildPromptWithAttachments StringToNumber _ _) as [text|].
  - destruct (attachments_throw _ _); [|reflexivity].
    destruct Hnone as [_ Hnone]. discriminate (Hnone eq_refl).
  - rewrite (proj1 Hnone eq_refl). reflexivity.
Qed.

Lemma ask_throws_None :
  missing_prompt reqBody = false -> ask_throws = true -> ask = None.
Proof.
  intros Hprompt. unfold Server.ask_throws. rewrite ask_cases, Hprompt.
  destruct (logging_throws reqBody); [reflexivity|].
  destruct (attachments_throw _ _); [reflexivity|].
  cbn [orb]. intros ->. reflexivity.
Qed.

(** A request that gets an aggregate. *)
Lemma ask_aggregate_inv results jobs :
  ask = Some {| reply := Aggregate results; submitted := jobs |} ->
  missing_prompt reqBody = false /\ ask_throws = false /\ jobs = fst plan.
Proof.
  rewrite ask_cases. unfold Server.ask_throws.
  destruct (logging_throws reqBody); [discriminate|].
  destruct (missing_prompt reqBody); [discriminate|].
  destruct (attachments_throw _ _); [discriminate|].
  destruct (timer_throws env readJsonSafe reqBody); [discriminate|].
  unfold Server.respond. destruct (mapM _ _); [|discriminate].
  intros [= _ <-]. auto.
Qed.

(** A request that gets a reply submits the jobs of the plan, or none. *)
Lemma ask_submitted ex :
  ask = Some ex -> submitted ex = [] \/ submitted ex = fst plan.
Proof.
  rewrite ask_cases.
  destruct (logging_throws reqBody); [discriminate|].
  destruct (missing_prompt reqBody); [intros [= <-]; left; reflexivity|].
  destruct (attachments_throw _ _); [discriminate|].
  destruct (timer_throws env readJsonSafe reqBody); [discriminate|].
  unfold Server.respond. destruct (mapM _ _); [|discriminate].
  intros [= <-]. right. reflexivity.
Qed.

(** No job is submitted for a provider without a key. *)
Lemma plan_no_job p j :
  hasKey p = false -> j ∈ fst plan -> key j <> provider_key p.
Proof.
  intros Hkey Hj. rewrite plan_jobs in Hj.
  apply list_elem_of_fmap in Hj as (q & -> & Hq).
  apply list_elem_of_filter in Hq as [Hq _].
  apply enabled_iff in Hq as [_ Hq]. cbn [key Server.submit].
  intros Heq. apply provider_key_inj in Heq as ->. congruence.
Qed.

(** The prompt of a request that passes the check is a string. *)
Lemma valid_prompt_string :
  missing_prompt reqBody = false -> exists s, req_prompt reqBody = JString s.
Proof.
  unfold missing_prompt. destruct (req_prompt reqBody); cbn;
    rewrite ?orb_true_r; try discriminate. eauto.
Qed.

(** The aggregate, key by key. *)
Lemma aggregate_lookup :
  missing_prompt reqBody = false ->
  ask_throws = false ->
  exists results done,
    ask = Some {| reply := Aggregate results; submitted := fst plan |}
    /\ map fst done = fst plan
    /\ Forall (fun d => settled (fst d) = Some (snd d)) done
    /\ (forall p, unkeyed p = true ->
          results !! provider_key p
          = Some (missing_entry (provider_key p) (config_models p)
                                (missing_message p)))
    /\ (forall d, d ∈ done ->
          results !! key (fst d)
          = Some (outcome_entry (key (fst d)) (model (args (fst d)))
                    (fst (fst (snd d)))
                    (settledAt (key (fst d)) - startedAt (key (fst d)))))
    /\ (forall p, requested p = false -> results !! provider_key p = None)
    /\ (forall k, (forall p, k <> provider_key p) -> results !! k = None).
Proof.
  intros Hprompt Hthrows.
  destruct respond_plan as (done & Hfst & Hall & Hrespond).
  destruct (completion_order_keys done Hfst) as [Hnd Hkeys].
  eexists _, done. split; [|split; [exact Hfst|split; [exact Hall|]]].
  { rewrite ask_cases, Hprompt. unfold Server.ask_throws in Hthrows.
    apply orb_false_iff in Hthrows as [Hthrows ->].
    apply orb_false_iff in Hthrows as [-> ->]. exact Hrespond. }
  split; [|split; [|split]].
  - intros p Hp. rewrite on_settled_other.
    + rewrite plan_results, Hp. reflexivity.
    + rewrite Hkeys. intros (q & Hq & He).
      apply provider_key_inj in Hq as <-.
      rewrite (unkeyed_not_enabled p Hp) in He. discriminate.
  - intros d Hd. apply on_settled_job; [exact Hnd|].
    unfold completion_order. rewrite merge_sort_Permutation. exact Hd.
  - intros p Hp. rewrite on_settled_other.
    + rewrite plan_results.
      destruct (unkeyed p) eqn:Hu; [|reflexivity].
      apply unkeyed_iff in Hu as [Hr _]. congruence.
    + rewrite Hkeys. intros (q & Hq & He).
      apply provider_key_inj in Hq as <-.
      apply enabled_iff in He as [Hr _]. congruence.
  - intros k Hk. rewrite on_settled_other.
    + apply plan_results_other, Hk.
    + rewrite Hkeys. intros (q & Hq & _). exact (Hk q Hq).
Qed.

(** The prompt every job of a request with attachments passes on. *)
Lemma effectivePrompt_layout :
  missing_prompt reqBody = false ->
  attachments_throw (req_prompt reqBody) (req_attachments reqBody) = false ->
  isArray (req_attachments reqBody) = true ->
  elements (req_attachments reqBody) <> [] ->
  effectivePrompt StringToNumber reqBody
  = Some (JString ("Attachments:" +:+ nl
                   +:+ String.concat nl
                         (imap (line_text StringToNumber)
                               (elements (req_attachments reqBody)))
                   +:+ nl +:+ (nl +:+ "---" +:+ nl) +:+ nl
                   +:+ to_string (req_prompt reqBody))).
Proof.
  intros Hprompt Hthrow Harr Hne. unfold effectivePrompt.
  rewrite buildPromptWithAttachments_cases, Hthrow, Harr.
  destruct (elements (req_attachments reqBody)) as [|a0 rest] eqn:Hel;
    [contradiction|].
  cbn [negb orb List.length Nat.eqb]. rewrite <- Hel.
  destruct (valid_prompt_string Hprompt) as [s ->].
  cbn [join map String.concat to_string]. reflexivity.
Qed.

End Facts.

Example ask_blank_prompt :
  ask openai_only no_files digits_only vendors clock_start clock_settled
      (JObject [("prompt", JString "   ");
                ("providers", JObject [("claude", JBool true)])])
  = Some {| reply := BadRequest (JObject [("error", JString "Missing prompt")]);
            submitted := [] |}.
Proof. reflexivity. Qed.

(** A request whose attachment has a name that cannot be converted to
    a string: the handler throws. *)
Example ask_attachment_throws :
  ask all_keys no_files digits_only vendors clock_start clock_settled
      (JObject [("prompt", JString "hi");
                ("providers", JObject [("gemini", JBool true)]);
                ("attachments",
                 JArray [JObject [("name", JObject [("toString", JNumber (Int 0))]);
                                  ("content", JString "c")]])])
  = None.
Proof. reflexivity. Qed.

(** With [useModelConfig: true], a timeout in the provider file that
    cannot be converted to a number makes [setTimeout] throw: the job
    is rejected and the handler sends nothing. *)
Example ask_timer_throws :
  ask all_keys
      (fun _ => JObject [("timeoutMs", JObject [("toString", JNumber (Int 0))])])
      digits_only vendors clock_start clock_settled
      (JObject [("prompt", JString "hi");
                ("useModelConfig", JBool true);
                ("providers", JObject [("claude", JBool true)])])
  = None.
Proof. reflexivity. Qed.

(** A model that cannot be converted to a string: [askOpenAI] throws on
    each of the three attempts, before any SDK call, and the entry
    carries the error. *)
Example ask_model_throws :
  exists results jobs,
    ask all_keys no_files digits_only vendors clock_start clock_settled
        (JObject [("prompt", JString "hi");
                  ("models",
                   JObject [("openai",
                             JObject [("toString", JNumber (Int 0))])]);
                  ("providers", JObject [("openai", JBool true)])])
    = Some {| reply := Aggregate results; submitted := jobs |}
    /\ get (default JUndefined (results !! "openai")) "error"
       = JString "Cannot convert object to primitive value"
    /\ map (fun j => snd <$> settled j) jobs = [Some 3%nat]
    /\ map (fun j => snd <$> (fst <$> settled j)) jobs = [Some []].
Proof. eexists _, _. split; [reflexivity|]. repeat split. Qed.

(** C4. For a provider that is requested but has no credential
    configured: in every aggregate the handler returns, the provider
    has the entry [{provider, model, ok: false, error, latencyMs: 0}],
    where [error] names the missing environment variable; no job is
    ever built for that provider, in any run of the handler, so its
    adapter is never called, nothing is retried and no SDK call is made
    for it; and the handler does return an aggregate when the prompt
    passes its check and nothing throws on the way. *)
Theorem missing_credential_outcome env readJsonSafe StringToNumber vendor
    startedAt settledAt reqBody (p : provider) :
  requested reqBody p = true ->
  hasKey env p = false ->
  (forall results jobs,
     ask env readJsonSafe StringToNumber vendor startedAt settledAt reqBody
     = Some {| reply := Aggregate results; submitted := jobs |} ->
     results !! provider_key p
     = Some (JObject
               [("provider", JString (provider_key p));
                ("model", config_models reqBody p);
                ("ok", JBool false);
                ("error",
                 JString match p with
                         | OpenAI => "Missing OPENAI_API_KEY"
                         | Claude => "Missing ANTHROPIC_API_KEY"
                         | Gemini => "Missing GEMINI_API_KEY or GOOGLE_API_KEY"
                         end);
                ("latencyMs", JNumber (Int 0))]))
  /\ (forall j,
        j ∈ fst (plan env readJsonSafe StringToNumber vendor reqBody) ->
        key j <> provider_key p)
  /\ (forall ex,
        ask env readJsonSafe StringToNumber vendor startedAt settledAt reqBody
        = Some ex ->
        forall j, j ∈ submitted ex -> key j <> provider_key p)
  /\ (missing_prompt reqBody = false ->
      ask_throws env readJsonSafe reqBody = false ->
      exists results jobs,
        ask env readJsonSafe StringToNumber vendor startedAt settledAt reqBody
        = Some {| reply := Aggregate results; submitted := jobs |}).
Proof.
  intros Hreq Hkey. split; [|split; [|split]].
  - intros results jobs Hask.
    destruct (ask_aggregate_inv env readJsonSafe StringToNumber vendor
                startedAt settledAt reqBody results jobs Hask)
      as (Hprompt & Hthrows & _).
    destruct (aggregate_lookup env readJsonSafe StringToNumber vendor startedAt
                settledAt reqBody Hprompt Hthrows)
      as (results' & done & Hask' & _ & _ & Hmissing & _).
    rewrite Hask in Hask'. injection Hask' as -> _.
    rewrite Hmissing by (apply unkeyed_iff; auto).
    destruct p; reflexivity.
  - intros j. apply plan_no_job, Hkey.
  - intros ex Hask j Hj.
    destruct (ask_submitted env readJsonSafe StringToNumber vendor startedAt
                settledAt reqBody ex Hask) as [Hnone|Hplan].
    + rewrite Hnone in Hj. apply elem_of_nil in Hj. contradiction.
    + rewrite Hplan in Hj. revert Hj. apply plan_no_job, Hkey.
  - intros Hprompt Hthrows.
    destruct (aggregate_lookup env readJsonSafe StringToNumber vendor startedAt
                settledAt reqBody Hprompt Hthrows)
      as (results & done & Hask & _).
    eauto.
Qed.

Lemma missing_credential_outcome_witness :
  exists results jobs,
    ask openai_only no_files digits_only vendors clock_start clock_settled
        all_three
    = Some {| reply := Aggregate results; submitted := jobs |}
    /\ results !! "gemini"
       = Some (JObject
                 [("provider", JString "gemini");
                  ("model", JString "gemini-1.5-flash");
                  ("ok", JBool false);
                  ("error", JString "Missing GEMINI_API_KEY or GOOGLE_API_KEY");
                  ("latencyMs", JNumber (Int 0))])
    /\ (forall j, j ∈ jobs -> key j <> "gemini").
Proof.
  destruct (missing_credential_outcome openai_only no_files digits_only vendors
              clock_start clock_settled all_three Gemini eq_refl eq_refl)
    as (Hentry & _ & Hjobs & Hreply).
  destruct (Hreply eq_refl eq_refl) as (results & jobs & Hask).
  exists results, jobs. split; [exact Hask|]. split.
  - exact (Hentry results jobs Hask).
  - exact (Hjobs _ Hask).
Defined.

(** C5. For a request with a valid prompt, every aggregate the handler
    returns has a key for each requested provider and no other key; it
    is empty when no provider is requested; and it is sent only after
    every submitted job has settled: each job's result is in it, under
    the job's key. The handler returns an aggregate unless it throws on
    the way, and then it sends nothing. *)
Theorem aggregate_keys env readJsonSafe StringToNumber vendor
    startedAt settledAt reqBody :
  missing_prompt reqBody = false ->
  (forall results jobs,
     ask env readJsonSafe StringToNumber vendor startedAt settledAt reqBody
     = Some {| reply := Aggregate results; submitted := jobs |} ->
     (forall k, is_Some (results !! k)
                <-> exists p, k = provider_key p /\ requested reqBody p = true)
     /\ ((forall p, requested reqBody p = false) -> results = ∅)
     /\ (forall p, enabled env reqBody p = true ->
           exists j, j ∈ jobs /\ key j = provider_key p)
     /\ (forall j, j ∈ jobs ->
           exists r calls n,
             settled j = Some (r, calls, n)
             /\ results !! key j
                = Some (outcome_entry (key j) (model (args j)) r
                          (settledAt (key j) - startedAt (key j)))))
  /\ (ask_throws env readJsonSafe reqBody = false ->
      exists results jobs,
        ask env readJsonSafe StringToNumber vendor startedAt settledAt reqBody
        = Some {| reply := Aggregate results; submitted := jobs |})
  /\ (ask_throws env readJsonSafe reqBody = true ->
      ask env readJsonSafe StringToNumber vendor startedAt settledAt reqBody
      = None).
Proof.
  intros Hprompt. split; [|split].
  2: { intros Hthrows.
       destruct (aggregate_lookup env readJsonSafe StringToNumber vendor
                   startedAt settledAt reqBody Hprompt Hthrows)
         as (results & done & Hask & _).
       eauto. }
  2: { apply ask_throws_None, Hprompt. }
  intros results0 jobs0 Hask0.
  destruct (ask_aggregate_inv env readJsonSafe StringToNumber vendor
              startedAt settledAt reqBody results0 jobs0 Hask0)
    as (_ & Hthrows & ->).
  destruct (aggregate_lookup env readJsonSafe StringToNumber vendor startedAt
              settledAt reqBody Hprompt Hthrows)
    as (results & done & Hask & Hfst & Hall & Hmissing & Hdone & Hnot & Hother).
  rewrite Hask0 in Hask. injection Hask as ->.
  assert (Hjobs : forall q, enabled env reqBody q = true ->
            exists d, d ∈ done
              /\ fst d = submit env readJsonSafe StringToNumber vendor reqBody q).
  { intros q Hq.
    assert (Hin : submit env readJsonSafe StringToNumber vendor reqBody q
                  ∈ map fst done).
    { rewrite Hfst, plan_jobs. apply list_elem_of_fmap. exists q.
      split; [reflexivity|]. apply list_elem_of_filter.
      split; [exact Hq|apply providers_all]. }
    apply list_elem_of_fmap in Hin as (d & Hd & Hin). eauto. }
  assert (Hkeys : forall k, is_Some (results !! k)
            <-> exists p, k = provider_key p /\ requested reqBody p = true).
  { intros k. split.
    - intros Hk.
      destruct (provider_key_cases k) as [[p ->]|Hno].
      + exists p. split; [reflexivity|].
        destruct (requested reqBody p) eqn:Hr; [reflexivity|].
        rewrite (Hnot p Hr) in Hk. destruct Hk; discriminate.
      + rewrite (Hother k Hno) in Hk. destruct Hk; discriminate.
    - intros (p & -> & Hr). rewrite (unkeyed_or_enabled env reqBody p) in Hr.
      apply orb_true_iff in Hr as [Hu|He].
      + rewrite (Hmissing p Hu). eauto.
      + destruct (Hjobs p He) as (d & Hd & Hfd).
        pose proof (Hdone d Hd) as Hl. rewrite Hfd in Hl. cbn [key Server.submit] in Hl.
        rewrite Hl. eauto. }
  split; [exact Hkeys|]. split; [|split].
  - intros Hnone. apply map_eq. intros k. rewrite lookup_empty.
    apply eq_None_not_Some. rewrite Hkeys. intros (p & _ & Hp).
    rewrite Hnone in Hp. discriminate.
  - intros p Hp. exists (submit env readJsonSafe StringToNumber vendor reqBody p).
    split; [|reflexivity]. rewrite plan_jobs. apply list_elem_of_fmap.
    exists p. split; [reflexivity|]. apply list_elem_of_filter.
    split; [exact Hp|apply providers_all].
  - intros j Hj. rewrite <- Hfst in Hj.
    apply list_elem_of_fmap in Hj as (d & -> & Hd).
    rewrite Forall_forall in Hall. pose proof (Hall d Hd) as Hs.
    destruct d as [j [[r calls] n]]. cbn [fst snd] in *.
    exists r, calls, n. split; [exact Hs|]. exact (Hdone _ Hd).
Qed.

Lemma aggregate_keys_witness :
  exists results jobs,
    ask openai_only no_files digits_only vendors clock_start clock_settled
        (JObject [("prompt", JString "hi");
                  ("providers",
                   JObject [("openai", JBool true); ("gemini", JBool true)])])
    = Some {| reply := Aggregate results; submitted := jobs |}
    /\ is_Some (results !! "openai")
    /\ is_Some (results !! "gemini")
    /\ results !! "claude" = None
    /\ (exists j r calls n,
          j ∈ jobs /\ key j = "openai" /\ settled j = Some (r, calls, n)
          /\ results !! "openai"
             = Some (outcome_entry "openai" (model (args j)) r 50)).
Proof.
  destruct (aggregate_keys openai_only no_files digits_only vendors clock_start
              clock_settled
              (JObject [("prompt", JString "hi");
                        ("providers",
                         JObject [("openai", JBool true);
                                  ("gemini", JBool true)])])
              eq_refl)
    as (Hall & Hreply & _).
  destruct (Hreply eq_refl) as (results & jobs & Hask).
  destruct (Hall results jobs Hask) as (Hkeys & _ & Hjob & Hsettled).
  exists results, jobs. split; [exact Hask|]. split; [|split; [|split]].
  - apply Hkeys. exists OpenAI. split; reflexivity.
  - apply Hkeys. exists Gemini. split; reflexivity.
  - apply eq_None_not_Some. rewrite Hkeys. intros (p & Hp & Hr).
    destruct p; try discriminate Hp. discriminate Hr.
  - destruct (Hjob OpenAI eq_refl) as (j & Hj & Hkey).
    destruct (Hsettled j Hj) as (r & calls & n & Hs & Hentry).
    exists j, r, calls, n. split; [exact Hj|]. split; [exact Hkey|].
    split; [exact Hs|]. rewrite Hkey in Hentry. exact Hentry.
Defined.

Example small_attachment_inlined :
  buildPromptWithAttachments digits_only (JString "hi")
    (JArray [JObject [("name", JString "a.txt"); ("size", JNumber (Int 3));
                      ("content", JString "abc")];
             JNull])
  = Some (JString ("Attachments:" +:+ nl
             +:+ nl +:+ "[1] a.txt (text/plain, 3 bytes):" +:+ nl +:+ "abc" +:+ nl
             +:+ nl +:+ "[2] file_2 (text/plain, 0 bytes):" +:+ nl +:+ nl
             +:+ nl +:+ "---" +:+ nl +:+ nl +:+ "hi")).
Proof. reflexivity. Qed.

(** C6, as stated, fails: in the prompt built for a request with one
    attachment of 150,000 characters, which is the prompt of the one job
    that is submitted, the first 100,000 characters of the attachment
    are nowhere followed by the marker [" [truncated]"]: the marker
    closes the header line, before the content, and what follows the
    content is the separator and the user's prompt. *)
Lemma truncation_marker_not_after_content :
  let text :=
    to_string (default JUndefined (effectivePrompt digits_only big_request)) in
  effectivePrompt digits_only big_request = Some (JString text)
  /\ map (fun j => prompt (args j))
         (fst (plan openai_only no_files digits_only vendors big_request))
     = [JString text]
  /\ text
     = ("Attachments:" +:+ nl +:+ nl
        +:+ "[1] big.txt (text/plain, 150000 bytes) [truncated]:" +:+ nl)
       +:+ substring 0 MAX_PER big_content
       +:+ (nl +:+ nl +:+ "---" +:+ nl +:+ nl +:+ "hi")
  /\ ~ exists pre post,
         text = pre +:+ (substring 0 MAX_PER big_content +:+ " [truncated]")
                +:+ post.
Proof.
  intros text. split; [reflexivity|]. split; [reflexivity|].
  split; [apply String.eqb_eq; vm_compute; reflexivity|].
  intros (pre & post & H). apply occurs_complete in H.
  assert (Hno : occurs (substring 0 MAX_PER big_content +:+ " [truncated]") text
                = false) by (vm_compute; reflexivity).
  congruence.
Qed.

(** C6 (amended). For a request with a valid prompt and a list of
    attachments, one of which has a content that is a string of more
    than 100,000 characters: the prompt built is the line
    ["Attachments:"], one line per attachment, the separator and the
    user's prompt; the line of that attachment is its header
    [[i] name (type, size bytes)], then the truncation marker
    [" [truncated]:"], a line break, and the first 100,000 characters of
    the content, the rest of which is left out. The prompt is built
    once: in every aggregate exchange, each submitted job passes that
    same text to its adapter. The handler returns an aggregate unless it
    throws on the way. *)
Theorem attachments_inlined_once env readJsonSafe StringToNumber vendor
    startedAt settledAt reqBody (i : nat) (att : json) (content : string) :
  missing_prompt reqBody = false ->
  isArray (req_attachments reqBody) = true ->
  elements (req_attachments reqBody) !! i = Some att ->
  get att "content" = JString content ->
  (MAX_PER < String.length content)%nat ->
  let lines :=
    imap (line_text StringToNumber) (elements (req_attachments reqBody)) in
  let text :=
    "Attachments:" +:+ nl +:+ String.concat nl lines +:+ nl
    +:+ (nl +:+ "---" +:+ nl) +:+ nl +:+ to_string (req_prompt reqBody) in
  (forall results jobs,
     ask env readJsonSafe StringToNumber vendor startedAt settledAt reqBody
     = Some {| reply := Aggregate results; submitted := jobs |} ->
     effectivePrompt StringToNumber reqBody = Some (JString text)
     /\ attachment_header StringToNumber i att
        = Some (header_text StringToNumber i att)
     /\ (forall j, j ∈ jobs -> prompt (args j) = JString text))
  /\ List.length lines = List.length (elements (req_attachments reqBody))
  /\ lines !! i
     = Some (header_text StringToNumber i att
             +:+ " [truncated]:" +:+ nl +:+ substring 0 MAX_PER content)
  /\ String.length (substring 0 MAX_PER content) = MAX_PER
  /\ (exists dropped,
        dropped <> "" /\ content = substring 0 MAX_PER content +:+ dropped)
  /\ (ask_throws env readJsonSafe reqBody = false ->
      exists results jobs,
        ask env readJsonSafe StringToNumber vendor startedAt settledAt reqBody
        = Some {| reply := Aggregate results; submitted := jobs |}).
Proof.
  intros Hprompt Harr Hi Hc Hlen lines text.
  split; [|split; [|split; [|split; [|split]]]].
  - intros results jobs Hask.
    destruct (ask_aggregate_inv env readJsonSafe StringToNumber vendor
                startedAt settledAt reqBody results jobs Hask)
      as (_ & Hthrows & ->).
    unfold Server.ask_throws in Hthrows.
    apply orb_false_iff in Hthrows as [Hthrows _].
    apply orb_false_iff in Hthrows as [_ Hthrows].
    assert (Hne : elements (req_attachments reqBody) <> []).
    { intros Hnil. rewrite Hnil in Hi. discriminate. }
    pose proof (effectivePrompt_layout StringToNumber reqBody Hprompt Hthrows
                  Harr Hne) as Htext.
    split; [exact Htext|]. split.
    + unfold attachment_header.
      destruct (header_throws i att) eqn:Hh; [|reflexivity].
      unfold attachments_throw in Hthrows. rewrite Harr in Hthrows.
      apply orb_false_iff in Hthrows as [Hthrows _].
      assert (Hex : existsb id (imap header_throws
                                     (elements (req_attachments reqBody)))
                    = true) by (apply existsb_imap; eauto).
      cbn [andb] in Hthrows. congruence.
    + intros j Hj. rewrite plan_jobs in Hj.
      apply list_elem_of_fmap in Hj as (q & -> & _).
      cbn [args prompt Server.submit Server.adapter_args].
      rewrite Htext. reflexivity.
  - subst lines. apply length_imap.
  - subst lines. rewrite list_lookup_imap, Hi. cbn. f_equal.
    apply line_text_truncated; assumption.
  - apply length_substring. lia.
  - exists (skip MAX_PER content). split.
    + apply skip_nonempty, Hlen.
    + apply substring_skip.
  - intros Hthrows.
    destruct (aggregate_lookup env readJsonSafe StringToNumber vendor startedAt
                settledAt reqBody Hprompt Hthrows)
      as (results & done & Hask & _).
    eauto.
Qed.

Lemma attachments_inlined_once_witness :
  exists results jobs header,
    ask all_keys no_files digits_only vendors clock_start clock_settled
        big_request
    = Some {| reply := Aggregate results; submitted := jobs |}
    /\ attachment_header digits_only 0 big_attachment = Some header
    /\ (forall j, j ∈ jobs ->
          prompt (args j)
          = JString ("Attachments:" +:+ nl
                     +:+ (header +:+ " [truncated]:" +:+ nl
                          +:+ substring 0 MAX_PER big_content)
                     +:+ nl +:+ (nl +:+ "---" +:+ nl) +:+ nl +:+ "hi"))
    /\ String.length (substring 0 MAX_PER big_content) = MAX_PER.
Proof.
  destruct (attachments_inlined_once all_keys no_files digits_only vendors
              clock_start clock_settled big_request 0 big_attachment
              big_content eq_refl eq_refl eq_refl eq_refl)
    as (Hjobs & _ & _ & Hlen & _ & Hreply).
  { apply Nat.ltb_lt. vm_compute. reflexivity. }
  destruct (Hreply eq_refl) as (results & jobs & Hask).
  destruct (Hjobs results jobs Hask) as (_ & Hheader & Hprompts).
  exists results, jobs, (header_text digits_only 0 big_attachment).
  split; [exact Hask|]. split; [exact Hheader|]. split; [|exact Hlen].
  intros j Hj. rewrite (Hprompts j Hj). apply (f_equal JString).
  apply String.eqb_eq. vm_compute. reflexivity.
Defined.

End AskFacts.

Module JsFacts.
Import Js AdapterFacts.

Lemma lookup_set_field_eq k v fields :
  lookup_field k (set_field k v fields) = v.
Proof.
  induction fields as [|[k0 v0] rest IH]; cbn.
  - rewrite String.eqb_refl. reflexivity.
  - destruct (String.eqb_spec k k0) as [->|Hne]; cbn.
    + rewrite String.eqb_refl. reflexivity.
    + destruct (String.eqb_spec k k0); [contradiction|exact IH].
Qed.

Lemma lookup_field_absent k fields :
  existsb (fun kv => String.eqb (fst kv) k) fields = false ->
  lookup_field k fields = JUndefined.
Proof.
  induction fields as [|[k0 v0] rest IH]; cbn; [reflexivity|].
  rewrite (String.eqb_sym k0 k). destruct (String.eqb k k0); cbn; [discriminate|].
  exact IH.
Qed.

(** Copying fields one by one: a key of the source gets the source's
    value, any other key keeps the target's. *)
Lemma lookup_copy_fields k entries : forall fields,
  NoDup (map fst entries) ->
  lookup_field k
    (foldl (fun fs kv => set_field (fst kv) (snd kv) fs) fields entries)
  = if existsb (fun kv => String.eqb (fst kv) k) entries
    then lookup_field k entries
    else lookup_field k fields.
Proof.
  induction entries as [|[k0 v0] rest IH]; intros fields Hnd; [reflexivity|].
  cbn [map fst] in Hnd. apply NoDup_cons in Hnd as [Hfresh Hnd].
  cbn [foldl existsb lookup_field fst snd]. rewrite IH by exact Hnd.
  rewrite (String.eqb_sym k0 k).
  destruct (String.eqb_spec k k0) as [->|Hne]; cbn [orb].
  - assert (Hno : existsb (fun kv => String.eqb (fst kv) k0) rest = false).
    { apply not_true_is_false. intros Hex.
      apply existsb_exists in Hex as ([k1 v1] & Hin & Hk).
      apply String.eqb_eq in Hk. cbn in Hk. subst k1.
      apply Hfresh. apply list_elem_of_fmap. exists (k0, v1).
      split; [reflexivity|]. apply list_elem_of_In, Hin. }
    rewrite Hno. apply lookup_set_field_eq.
  - destruct (existsb _ rest); [reflexivity|].
    apply lookup_set_field_ne. congruence.
Qed.

Lemma foldl_set_object entries : forall fields,
  foldl (fun o kv => set o (fst kv) (snd kv)) (JObject fields) entries
  = JObject (foldl (fun fs kv => set_field (fst kv) (snd kv) fs) fields entries).
Proof.
  induction entries as [|kv rest IH]; intros fields; [reflexivity|].
  cbn [foldl]. cbn [set]. apply IH.
Qed.

(** [{...base, ...v}[k]] for two objects. *)
Lemma get_spread_object base_fields fields k :
  NoDup (map fst fields) ->
  get (spread (JObject base_fields) (JObject fields)) k
  = if has_field (JObject fields) k then get (JObject fields) k
    else get (JObject base_fields) k.
Proof.
  intros Hnd. unfold spread. cbn [own_entries]. rewrite foldl_set_object.
  cbn [get has_field]. apply lookup_copy_fields, Hnd.
Qed.

Lemma get_set_eq fields k v : get (set (JObject fields) k v) k = v.
Proof. apply lookup_set_field_eq. Qed.

(** [{...base, ...v}] when [v] is nothing to copy from. *)
Lemma spread_nothing base v :
  own_entries v = [] -> spread base v = base.
Proof. unfold spread. intros ->. reflexivity. Qed.

End JsFacts.

Module UsageLogFacts.
Import Js UsageLog JsFacts.

Lemma shift_excess_drop usageLog :
  shift_excess usageLog
  = drop (List.length usageLog - USAGE_LOG_MAX) usageLog.
Proof.
  induction usageLog as [|x rest IH]; [reflexivity|].
  cbn [shift_excess]. destruct (Nat.ltb_spec USAGE_LOG_MAX (List.length (x :: rest))) as [Hlt|Hge].
  - rewrite IH. cbn [List.length] in *.
    replace (S (List.length rest) - USAGE_LOG_MAX)%nat
      with (S (List.length rest - USAGE_LOG_MAX)) by lia.
    reflexivity.
  - replace (List.length (x :: rest) - USAGE_LOG_MAX)%nat with 0%nat by lia.
    reflexivity.
Qed.

Lemma recordUsage_last id ts entry usageLog :
  recordUsage id ts entry usageLog
  = drop (S (List.length usageLog) - USAGE_LOG_MAX)
         (usageLog ++ [enriched id ts entry]).
Proof.
  unfold recordUsage. rewrite shift_excess_drop, length_app. cbn [List.length].
  replace (List.length usageLog + 1)%nat with (S (List.length usageLog)) by lia.
  reflexivity.
Qed.

(** The log after a run of calls, on a log that is within the bound:
    the newest [USAGE_LOG_MAX] of old and new entries. *)
Lemma record_all_last calls : forall usageLog,
  (List.length usageLog <= USAGE_LOG_MAX)%nat ->
  record_all calls usageLog
  = drop (List.length usageLog + List.length calls - USAGE_LOG_MAX)
         (usageLog
          ++ map (fun c => enriched (fst (fst c)) (snd (fst c)) (snd c)) calls).
Proof.
  induction calls as [|c calls IH]; intros usageLog Hlen.
  - cbn. rewrite app_nil_r.
    replace (List.length usageLog + 0 - USAGE_LOG_MAX)%nat with 0%nat by lia.
    reflexivity.
  - change (record_all (c :: calls) usageLog)
      with (record_all calls
              (recordUsage (fst (fst c)) (snd (fst c)) (snd c) usageLog)).
    rewrite IH.
    + rewrite recordUsage_last.
      set (e := enriched (fst (fst c)) (snd (fst c)) (snd c)).
      set (d := (S (List.length usageLog) - USAGE_LOG_MAX)%nat).
      rewrite length_drop, length_app. cbn [List.length map].
      rewrite <- drop_app_le by (rewrite length_app; cbn [List.length]; unfold d; lia).
      rewrite drop_drop, <- app_assoc. cbn [app]. f_equal.
      unfold d, USAGE_LOG_MAX in *. lia.
    + rewrite recordUsage_last, length_drop, length_app. cbn [List.length].
      unfold USAGE_LOG_MAX in *. lia.
Qed.

Example usage_log_small :
  getUsageLog
    (record_all [(JNumber (Int 1), JNumber (Int 1), JObject [("ok", JBool true)]);
                 (JNumber (Int 2), JNumber (Int 2), JObject [("ts", JNull)])]
                [])
  = [JObject [("id", JNumber (Int 2)); ("ts", JNull)];
     JObject [("id", JNumber (Int 1)); ("ts", JNumber (Int 1));
              ("ok", JBool true)]].
Proof. reflexivity. Qed.

(** X1. The usage log is a bounded FIFO: after any run of [recordUsage]
    calls on a log within the bound, the log is within the bound, and
    [getUsageLog] returns the newest [USAGE_LOG_MAX] entries (old and
    new), most recent first. *)
Theorem usage_log_bounded_recent_first calls usageLog :
  (List.length usageLog <= USAGE_LOG_MAX)%nat ->
  (List.length (record_all calls usageLog) <= USAGE_LOG_MAX)%nat
  /\ getUsageLog (record_all calls usageLog)
     = take (Nat.min USAGE_LOG_MAX (List.length usageLog + List.length calls))
            (reverse (map (fun c => enriched (fst (fst c)) (snd (fst c)) (snd c))
                          calls)
             ++ reverse usageLog).
Proof.
  intros Hlen. rewrite record_all_last by exact Hlen.
  set (new := map _ calls).
  assert (Hnew : List.length new = List.length calls)
    by (unfold new; apply length_map).
  split.
  - rewrite length_drop, length_app, Hnew. lia.
  - unfold getUsageLog. rewrite <- reverse_app.
    rewrite <- (reverse_involutive (drop _ (usageLog ++ new))) at 1.
    rewrite reverse_involutive.
    rewrite <- (reverse_involutive (usageLog ++ new)) at 1.
    rewrite drop_reverse, reverse_involutive, length_reverse, length_app, Hnew.
    f_equal. lia.
Qed.

Lemma usage_log_bounded_recent_first_witness :
  getUsageLog
    (record_all [(JNumber (Int 1), JNumber (Int 1), JObject [("ok", JBool true)])]
                [JObject [("id", JNumber (Int 0))]])
  = take (Nat.min USAGE_LOG_MAX 2)
         (reverse [enriched (JNumber (Int 1)) (JNumber (Int 1))
                            (JObject [("ok", JBool true)])]
          ++ reverse [JObject [("id", JNumber (Int 0))]]).
Proof.
  refine (proj2 (usage_log_bounded_recent_first
                   [(JNumber (Int 1), JNumber (Int 1),
                     JObject [("ok", JBool true)])]
                   [JObject [("id", JNumber (Int 0))]] _)).
  unfold USAGE_LOG_MAX. cbn. lia.
Defined.

(** X2. A recorded entry keeps every field of the object passed in: the
    generated [id] and [ts] are used only for an entry that has no field
    of that name, and a field [id] or [ts] of the entry overrides the
    generated one. *)
Theorem usage_entry_fields id ts fields k :
  NoDup (map fst fields) ->
  get (enriched id ts (JObject fields)) k
  = if has_field (JObject fields) k then get (JObject fields) k
    else if String.eqb k "id" then id
    else if String.eqb k "ts" then ts
    else JUndefined.
Proof.
  intros Hnd. unfold enriched. rewrite get_spread_object by exact Hnd.
  destruct (has_field (JObject fields) k); [reflexivity|]. reflexivity.
Qed.

Lemma usage_entry_fields_witness :
  get (enriched (JNumber (Int 7)) (JNumber (Int 8))
                (JObject [("provider", JString "openai"); ("ts", JNull)])) "ts"
  = JNull.
Proof.
  refine (usage_entry_fields (JNumber (Int 7)) (JNumber (Int 8))
            [("provider", JString "openai"); ("ts", JNull)] "ts" _).
  repeat (apply NoDup_cons; split;
          [rewrite ?not_elem_of_cons; repeat split;
           try discriminate; apply not_elem_of_nil|]).
  apply NoDup_nil_2.
Defined.

End UsageLogFacts.

Module RetryBounds.
Import Js Providers Server TimeoutFacts RetryFacts.

Section Facts.
Context {V W : Type}.
Variable label : string.
Variable taskFactory : W -> behaviour V * W.
Variable attempts : Z.
Variable perAttemptTimeoutMs : json.

Local Abbreviation attempt := (attempt label taskFactory attempts perAttemptTimeoutMs).
Local Abbreviation world_before := (world_before taskFactory).
Local Abbreviation nth_result := (nth_result label taskFactory perAttemptTimeoutMs).

(** What a returned value of [attempt(n)] says about the attempts made. *)
Lemma attempt_sound (k : nat) : forall n w made out,
  attempts - n <= Z.of_nat k ->
  attempt n w made = Some out ->
  exists (j : nat) r,
    out = (r, world_before (S j) w, (made + S j)%nat)
    /\ nth_result j w = Some r
    /\ (forall i, (i < j)%nat -> ok <$> nth_result i w = Some false)
    /\ (j = 0%nat \/ n + Z.of_nat j < attempts)
    /\ (ok r = false -> n + Z.of_nat j + 1 >= attempts).
Proof.
  induction k as [|k IH]; intros n w made out Hk; rewrite attempt_unfold;
    pose proof (nth_result_0 label taskFactory perAttemptTimeoutMs w) as H0;
    pose proof (fun i => nth_result_S label taskFactory perAttemptTimeoutMs i w)
      as HS;
    cbn; destruct (taskFactory w) as [task w'] eqn:Hf; cbn [fst snd] in *;
    destruct (await _) as [r|] eqn:Hr; try discriminate;
    destruct (ok r) eqn:Hok.
  1, 3: intros [= <-]; exists 0%nat, r; cbn [Server.world_before];
        replace (made + 1)%nat with (S made) by lia;
        repeat split; [exact H0|intros i Hi; lia|left; reflexivity|congruence].
  - destruct (Z_ge_dec (n + 1) attempts) as [Hge|Hlt]; [|lia].
    intros [= <-]. exists 0%nat, r. cbn [Server.world_before].
    replace (made + 1)%nat with (S made) by lia.
    repeat split; [exact H0|intros i Hi; lia|left; reflexivity|lia].
  - destruct (Z_ge_dec (n + 1) attempts) as [Hge|Hlt].
    + intros [= <-]. exists 0%nat, r. cbn [Server.world_before].
      replace (made + 1)%nat with (S made) by lia.
      repeat split; [exact H0|intros i Hi; lia|left; reflexivity|lia].
    + intros Hrec. apply IH in Hrec as (j & r' & -> & Hj & Hfail & Hroom & Hlast);
        [|lia].
      exists (S j), r'. split; [|split; [|split; [|split]]].
      * f_equal. lia.
      * rewrite HS. exact Hj.
      * intros [|i] Hi; [rewrite H0; cbn; rewrite Hok; reflexivity|].
        rewrite HS. apply Hfail. lia.
      * right. lia.
      * intros Hr'. specialize (Hlast Hr'). lia.
Qed.

End Facts.

(** X3. Whatever the attempt ceiling (zero and negative ones included),
    a value returned by [runWithRetries] comes from the last call of the
    factory: at least one call and at most [max 1 attempts] calls were
    made, every earlier attempt failed, and a failure is returned only
    when the ceiling is used up. *)
Theorem retry_returns_last_attempt {V W : Type} (label : string)
    (taskFactory : W -> behaviour V * W) (attempts : Z)
    (perAttemptTimeoutMs : json) (w : W) r w' (made : nat) :
  runWithRetries label taskFactory (Some attempts) perAttemptTimeoutMs w
  = Some (r, w', made) ->
  let T := if_defined perAttemptTimeoutMs (JNumber (Int 5000)) in
  let res i := nth_result label taskFactory T i w in
  (1 <= made)%nat
  /\ Z.of_nat made <= Z.max 1 attempts
  /\ w' = world_before taskFactory made w
  /\ res (made - 1)%nat = Some r
  /\ (forall i, (i < made - 1)%nat -> ok <$> res i = Some false)
  /\ (ok r = false -> Z.of_nat made = Z.max 1 attempts).
Proof.
  intros Hrun T res. unfold runWithRetries in Hrun.
  change (default 3 (Some attempts)) with attempts in Hrun.
  apply (attempt_sound _ _ _ _ (Z.to_nat attempts)) in Hrun
    as (j & r' & [= -> -> ->] & Hj & Hfail & Hroom & Hlast); [|lia].
  cbn [Nat.add]. replace (S j - 1)%nat with j by lia.
  repeat split; try assumption; try lia.
  intros Hr. specialize (Hlast Hr). lia.
Qed.

Lemma retry_returns_last_attempt_witness :
  (1 <= 1)%nat
  /\ Z.of_nat 1 <= Z.max 1 (-2)
  /\ 1%nat = world_before hopeless 1 0%nat
  /\ nth_result "OpenAI" hopeless (JNumber (Int 5000)) (1 - 1) 0%nat
     = Some {| ok := false; value := None; error := Some (new_Error "boom") |}
  /\ (forall i, (i < 1 - 1)%nat ->
        ok <$> nth_result "OpenAI" hopeless (JNumber (Int 5000)) i 0%nat
        = Some false)
  /\ (ok {| ok := false; value := None (A:=string);
            error := Some (new_Error "boom") |} = false ->
      Z.of_nat 1 = Z.max 1 (-2)).
Proof.
  refine (retry_returns_last_attempt "OpenAI" hopeless (-2) JUndefined 0%nat
            {| ok := false; value := None; error := Some (new_Error "boom") |}
            1%nat 1%nat _).
  vm_compute. reflexivity.
Defined.

End RetryBounds.

Module ConfigFacts.
Import Js Providers Config Adapters Server Samples Routes.
Import AdapterFacts JsFacts.

Lemma base_fields k :
  get base k
  = if String.eqb k "system" then JString defaultSystem
    else if String.eqb k "temperature" then JNumber (Frac "0.2")
    else if String.eqb k "maxTokens" then JNumber (Int 1024)
    else if String.eqb k "timeoutMs" then JNumber (Int 30000)
    else JUndefined.
Proof. reflexivity. Qed.

(** A file that is there but holds a falsy value, or nothing an object
    spread copies, leaves the defaults as they are. *)
Lemma spread_base_falsy v : truthy v = false -> spread base v = base.
Proof.
  intros Hv. apply spread_nothing.
  destruct v as [| |b|n|s|items|fields]; try reflexivity; try discriminate.
  destruct s; [reflexivity|discriminate].
Qed.

Lemma provider_entry readJsonSafe (p : provider) :
  get (loadProviderConfig readJsonSafe) (provider_key p)
  = spread base (or_else (readJsonSafe (provider_key p +:+ ".json"))
                         (JObject [])).
Proof. destruct p; reflexivity. Qed.

Lemma provider_entry_field readJsonSafe (p : provider) fields k :
  readJsonSafe (provider_key p +:+ ".json") = JObject fields ->
  NoDup (map fst fields) ->
  get (get (loadProviderConfig readJsonSafe) (provider_key p)) k
  = if has_field (JObject fields) k then get (JObject fields) k
    else get base k.
Proof.
  intros Hfile Hnd. rewrite provider_entry, Hfile. unfold or_else.
  cbn [truthy]. unfold base at 1. rewrite get_spread_object by exact Hnd.
  reflexivity.
Qed.

(** X4. Each provider entry of [loadProviderConfig] holds the defaults
    overridden field by field by the provider's file: with no file, or a
    file holding a falsy value, the entry is the defaults; with a file
    holding an object, a field of the file wins and any other field is
    the default ([system], [temperature] 0.2, [maxTokens] 1024,
    [timeoutMs] 30000). *)
Theorem provider_config_overrides_defaults (readJsonSafe : string -> json)
    (p : provider) :
  let file := readJsonSafe (provider_key p +:+ ".json") in
  let entry := get (loadProviderConfig readJsonSafe) (provider_key p) in
  (truthy file = false -> entry = base)
  /\ (forall fields k,
        file = JObject fields -> NoDup (map fst fields) ->
        get entry k
        = if has_field file k then get file k
          else if String.eqb k "system" then JString defaultSystem
          else if String.eqb k "temperature" then JNumber (Frac "0.2")
          else if String.eqb k "maxTokens" then JNumber (Int 1024)
          else if String.eqb k "timeoutMs" then JNumber (Int 30000)
          else JUndefined).
Proof.
  intros file entry. unfold entry. split.
  - intros Hf. rewrite provider_entry. fold file. unfold or_else.
    rewrite Hf. reflexivity.
  - intros fields k Hfile Hnd.
    rewrite (provider_entry_field readJsonSafe p fields k Hfile Hnd), Hfile.
    destruct (has_field (JObject fields) k); reflexivity.
Qed.

(** X5. [loadModelSpecificConfig(model)] is the [openai] entry of
    [loadProviderConfig()], whatever the files hold, unless [model] is
    one of the two names of the small model and [gpt5-mini.json] holds a
    truthy value; in that case the result is built from that file alone
    and [openai.json] is not looked at. *)
Theorem model_config_source (readJsonSafe : string -> json) (model : json) :
  let special :=
    (equals model "gpt-5-mini" || equals model "gpt-5-mini-2025-08-07")
    && truthy (readJsonSafe "gpt5-mini.json") in
  (special = false ->
   loadModelSpecificConfig readJsonSafe model
   = get (loadProviderConfig readJsonSafe) "openai")
  /\ (special = true ->
      forall other : string -> json,
        other "gpt5-mini.json" = readJsonSafe "gpt5-mini.json" ->
        loadModelSpecificConfig other model
        = loadModelSpecificConfig readJsonSafe model
        /\ loadModelSpecificConfig readJsonSafe model
           = spread base (readJsonSafe "gpt5-mini.json")).
Proof.
  intros special. unfold special, loadModelSpecificConfig.
  assert (Hfallback : spread base (readJsonSafe "openai.json")
                      = get (loadProviderConfig readJsonSafe) "openai").
  { cbn [loadProviderConfig get lookup_field String.eqb Ascii.eqb Bool.eqb].
    unfold or_else. destruct (truthy (readJsonSafe "openai.json")) eqn:Ht;
      [reflexivity|].
    rewrite spread_base_falsy by exact Ht. reflexivity. }
  split.
  - intros Hs. destruct (equals model "gpt-5-mini"
                         || equals model "gpt-5-mini-2025-08-07");
      [|exact Hfallback].
    cbn [andb] in Hs. rewrite Hs. exact Hfallback.
  - intros Hs other Hother.
    apply andb_prop in Hs as [Hm Ht]. rewrite Hm, Hother, Ht. split; reflexivity.
Qed.

End ConfigFacts.

Module HandlerFacts.
Import Js Providers Config Adapters Server Samples Routes.
Import TimeoutFacts RetryFacts AdapterFacts JsFacts AskFacts ConfigFacts.

(** *** Credentials *)

Lemma adapter_without_key env readJsonSafe (p : provider) (a : ask_args) :
  hasKey env p = false ->
  adapter env readJsonSafe p a = Throws (new_Error (missing_message p)).
Proof.
  destruct p; cbn [adapter hasKey missing_message];
    unfold askOpenAI, askClaude, askGemini; intros Hk.
  - rewrite Hk. reflexivity.
  - rewrite Hk. reflexivity.
  - apply orb_false_elim in Hk as [Hg Ho]. rewrite Hg, Ho. reflexivity.
Qed.

Lemma adapter_with_key env readJsonSafe (p : provider) (a : ask_args) :
  hasKey env p = true ->
  exists c decode, adapter env readJsonSafe p a = Calls c decode.
Proof.
  destruct p; cbn [adapter hasKey];
    unfold askOpenAI, askClaude, askGemini; intros Hk.
  - rewrite Hk. cbn [negb].
    destruct (usesResponsesApi _); eexists _, _; reflexivity.
  - rewrite Hk. eexists _, _; reflexivity.
  - destruct (configured (GEMINI_API_KEY env)) eqn:Hg.
    + rewrite Hg. eexists _, _; reflexivity.
    + cbn [orb] in Hk. rewrite Hk. eexists _, _; reflexivity.
Qed.

Lemma call_adapter_without_key env readJsonSafe (p : provider) (a : ask_args) :
  hasKey env p = false ->
  call_adapter env readJsonSafe p a = Throws (new_Error (missing_message p)).
Proof.
  intros Hk. rewrite <- (adapter_without_key env readJsonSafe p a Hk).
  destruct p; try reflexivity. cbn [call_adapter hasKey] in *.
  rewrite Hk. reflexivity.
Qed.

(** X6. The three places that look at the credentials agree. A call of
    an adapter throws the missing-credential error, before any SDK
    call, exactly when the server's [hasKey] is false for its provider,
    and the message is the one the server records for a provider
    requested without a key. With a key the adapter goes on to its SDK
    call, unless it is [askOpenAI] and one of its conversions of the
    model, the system instruction or the prompt to a string throws a
    [TypeError]. [/api/providers] reports the same flags. *)
Theorem credential_checks_agree env readJsonSafe (p : provider) (a : ask_args) :
  let throws :=
    match p with
    | OpenAI => askOpenAI_throws readJsonSafe a
    | _ => false
    end in
  (call_adapter env readJsonSafe p a = Throws (new_Error (missing_message p))
   <-> hasKey env p = false)
  /\ (hasKey env p = true -> throws = true ->
      call_adapter env readJsonSafe p a = Throws type_error)
  /\ (hasKey env p = true -> throws = false ->
      exists c decode,
        call_adapter env readJsonSafe p a = Calls c decode
        /\ adapter env readJsonSafe p a = Calls c decode)
  /\ get (Routes.providers env) (provider_key p) = JBool (hasKey env p).
Proof.
  intros throws.
  assert (Hkey : hasKey env p = true -> throws = true ->
                 call_adapter env readJsonSafe p a = Throws type_error).
  { intros Hk Ht. destruct p; try discriminate Ht.
    cbn [call_adapter hasKey] in *. subst throws. rewrite Hk, Ht.
    reflexivity. }
  assert (Hcall : hasKey env p = true -> throws = false ->
                  exists c decode,
                    call_adapter env readJsonSafe p a = Calls c decode
                    /\ adapter env readJsonSafe p a = Calls c decode).
  { intros Hk Ht.
    destruct (adapter_with_key env readJsonSafe p a Hk) as (c & decode & Hc).
    exists c, decode. split; [|exact Hc]. rewrite <- Hc.
    destruct p; try reflexivity. cbn [call_adapter]. subst throws.
    rewrite Ht, andb_false_r. reflexivity. }
  split; [|split; [exact Hkey|split; [exact Hcall|destruct p; reflexivity]]].
  split; [|apply call_adapter_without_key].
  intros Hthrow. destruct (hasKey env p) eqn:Hk; [|reflexivity].
  destruct throws eqn:Ht.
  - rewrite (Hkey eq_refl eq_refl) in Hthrow. discriminate.
  - destruct (Hcall eq_refl eq_refl) as (c & decode & Hc & _).
    rewrite Hc in Hthrow. discriminate.
Qed.

(** *** What the chat-completion adapter returns *)

Lemma decode_responses_string response :
  isString (decode_responses response) = true.
Proof.
  unfold decode_responses.
  destruct (isString (get response "output_text")) eqn:Hs; [|reflexivity].
  destruct (nonempty _); [exact Hs|reflexivity].
Qed.

Lemma decode_chat_defined completion :
  is_nullish (decode_chat completion) = false.
Proof.
  unfold decode_chat. destruct (isArray _); [reflexivity|].
  destruct (get _ "content"); reflexivity.
Qed.

(** X7. Whatever object the vendor answers with, the text [askOpenAI]
    returns for it is never [null] or [undefined] (an answer without
    content reads as the empty string), and for a deep-research model it
    is always a string. *)
Theorem openai_text_defined env readJsonSafe (a : ask_args) c decode
    (response : list (string * json)) :
  askOpenAI env readJsonSafe a = Calls c decode ->
  is_nullish (decode (JObject response)) = false
  /\ (usesResponsesApi (model a) = true ->
      isString (decode (JObject response)) = true).
Proof.
  unfold askOpenAI. destruct (configured _); [|discriminate]. cbn [negb].
  rewrite with_model_config_model.
  destruct (usesResponsesApi (model a)); intros [= <- <-].
  - pose proof (decode_responses_string (JObject response)) as Hs.
    split; [|intros _; exact Hs].
    destruct (decode_responses _); try discriminate. reflexivity.
  - split; [apply decode_chat_defined|discriminate].
Qed.

Lemma openai_text_defined_witness :
  is_nullish (decode_chat (JObject [("id", JString "x")])) = false
  /\ (usesResponsesApi (model (args_for "gpt-4o")) = true ->
      isString (decode_chat (JObject [("id", JString "x")])) = true).
Proof.
  refine (openai_text_defined all_keys no_files (args_for "gpt-4o") _
            decode_chat [("id", JString "x")] _).
  reflexivity.
Defined.

(** *** Configuration files and the handler *)

Lemma askOpenAI_plain env f1 f2 (a : ask_args) :
  useModelConfig a = false -> askOpenAI env f1 a = askOpenAI env f2 a.
Proof.
  intros Ha. unfold askOpenAI, with_model_config. rewrite Ha. reflexivity.
Qed.

Lemma factory_ext vendor (ad1 ad2 : ask_args -> adapter_run) (a : ask_args) :
  ad1 a = ad2 a -> factory vendor ad1 a = factory vendor ad2 a.
Proof. intros H. unfold factory. rewrite H. reflexivity. Qed.

Section Files.
Variable env : environment.
Variables f1 f2 : string -> json.
Variable StringToNumber : string -> number.
Variable vendor : vendor_call -> nat -> behaviour json.
Variables startedAt settledAt : string -> Z.
Variable reqBody : json.
Hypothesis Hoff : is_true (req_useModelConfig reqBody) = false.

Lemma adapter_args_plain p :
  adapter_args f1 StringToNumber reqBody p
  = adapter_args f2 StringToNumber reqBody p.
Proof.
  unfold adapter_args, eff_sys, eff_temp, eff_maxT. rewrite Hoff. reflexivity.
Qed.

Lemma eff_tmo_plain p : eff_tmo f1 reqBody p = eff_tmo f2 reqBody p.
Proof. unfold eff_tmo. rewrite Hoff. reflexivity. Qed.

Lemma call_adapter_plain p :
  call_adapter env f1 p (adapter_args f2 StringToNumber reqBody p)
  = call_adapter env f2 p (adapter_args f2 StringToNumber reqBody p).
Proof.
  destruct p; cbn [call_adapter adapter]; try reflexivity.
  assert (Hcfg : useModelConfig (adapter_args f2 StringToNumber reqBody OpenAI)
                 = false) by exact Hoff.
  rewrite (askOpenAI_plain env f1 f2 _ Hcfg).
  unfold askOpenAI_throws, with_model_config. rewrite Hcfg. reflexivity.
Qed.

Lemma submit_plain p :
  submit env f1 StringToNumber vendor reqBody p
  = submit env f2 StringToNumber vendor reqBody p.
Proof.
  unfold submit. rewrite (adapter_args_plain p), (eff_tmo_plain p).
  rewrite (factory_ext vendor (call_adapter env f1 p) (call_adapter env f2 p));
    [reflexivity|].
  apply call_adapter_plain.
Qed.

Lemma block_plain st p :
  block env f1 StringToNumber vendor reqBody st p
  = block env f2 StringToNumber vendor reqBody st p.
Proof. unfold block. rewrite submit_plain. reflexivity. Qed.

Lemma timer_throws_plain :
  timer_throws env f1 reqBody = timer_throws env f2 reqBody.
Proof. unfold timer_throws. cbn [existsb]. rewrite !eff_tmo_plain. reflexivity. Qed.

Lemma ask_plain :
  ask env f1 StringToNumber vendor startedAt settledAt reqBody
  = ask env f2 StringToNumber vendor startedAt settledAt reqBody.
Proof.
  unfold ask. cbn [foldl]. rewrite !block_plain, timer_throws_plain.
  reflexivity.
Qed.

End Files.

(** X8. Unless the request says [useModelConfig: true] (the boolean
    itself), what [/api/ask] does and replies does not depend on the
    configuration files: with any two contents of the configuration
    directory the reply and the jobs, with every SDK call they make, are
    the same. *)
Theorem ask_ignores_config_files env (f1 f2 : string -> json) StringToNumber
    vendor startedAt settledAt reqBody :
  is_true (req_useModelConfig reqBody) = false ->
  ask env f1 StringToNumber vendor startedAt settledAt reqBody
  = ask env f2 StringToNumber vendor startedAt settledAt reqBody.
Proof. apply ask_plain. Qed.

Lemma ask_ignores_config_files_witness :
  ask all_keys no_files digits_only vendors clock_start clock_settled
      (JObject [("prompt", JString "hi");
                ("useModelConfig", JString "true");
                ("providers", JObject [("openai", JBool true)])])
  = ask all_keys (fun _ => JObject [("temperature", JNumber (Int 1))])
        digits_only vendors clock_start clock_settled
        (JObject [("prompt", JString "hi");
                  ("useModelConfig", JString "true");
                  ("providers", JObject [("openai", JBool true)])]).
Proof.
  apply (ask_ignores_config_files all_keys no_files
           (fun _ => JObject [("temperature", JNumber (Int 1))])).
  reflexivity.
Defined.

(** X9. With [useModelConfig: true] and a provider file that holds an
    object, each of temperature, token limit and per-attempt timeout
    comes from the request when the request gives a finite number, else
    from the provider's file when the file has the field (whatever it
    holds), else from the built-in default; the system prompt comes from
    the request when it is a non-blank string, else from the file, else
    the default one. *)
Theorem model_config_precedence (readJsonSafe : string -> json) StringToNumber
    reqBody (p : provider) (fields : list (string * json)) :
  is_true (req_useModelConfig reqBody) = true ->
  readJsonSafe (provider_key p +:+ ".json") = JObject fields ->
  NoDup (map fst fields) ->
  let a := adapter_args readJsonSafe StringToNumber reqBody p in
  let from_file k d :=
    if has_field (JObject fields) k then get (JObject fields) k else d in
  temperature a
  = (if isFinite (req_temperature reqBody) then req_temperature reqBody
     else from_file "temperature" (JNumber (Frac "0.2")))
  /\ maxTokens a
     = (if isFinite (req_maxTokens reqBody) then req_maxTokens reqBody
        else from_file "maxTokens" (JNumber (Int 1024)))
  /\ eff_tmo readJsonSafe reqBody p
     = (if isFinite (req_timeoutMs reqBody) then req_timeoutMs reqBody
        else from_file "timeoutMs" (JNumber (Int 30000)))
  /\ system a
     = if_defined (config_system reqBody)
                  (from_file "system" (JString defaultSystem)).
Proof.
  intros Hon Hfile Hnd a from_file. unfold a, from_file.
  cbn [temperature maxTokens system adapter_args].
  unfold eff_temp, eff_maxT, eff_tmo, eff_sys, CFG. rewrite Hon.
  rewrite !(provider_entry_field readJsonSafe p fields _ Hfile Hnd).
  unfold config_temperature, config_maxTokens, config_timeoutMs.
  repeat split.
  - destruct (req_temperature reqBody) as [| | |[]| | |]; reflexivity.
  - destruct (req_maxTokens reqBody) as [| | |[]| | |]; reflexivity.
  - destruct (req_timeoutMs reqBody) as [| | |[]| | |]; reflexivity.
Qed.

Lemma model_config_precedence_witness :
  let files (_ : string) :=
    JObject [("temperature", JNumber (Frac "0.7")); ("system", JNull)] in
  let a :=
    adapter_args files digits_only
      (JObject [("prompt", JString "hi"); ("useModelConfig", JBool true);
                ("maxTokens", JNumber (Int 50))])
      Claude in
  temperature a = JNumber (Frac "0.7")
  /\ maxTokens a = JNumber (Int 50)
  /\ eff_tmo files
       (JObject [("prompt", JString "hi"); ("useModelConfig", JBool true);
                 ("maxTokens", JNumber (Int 50))])
       Claude
     = JNumber (Int 30000)
  /\ system a = JNull.
Proof.
  refine (model_config_precedence
            (fun _ => JObject [("temperature", JNumber (Frac "0.7"));
                               ("system", JNull)])
            digits_only
            (JObject [("prompt", JString "hi"); ("useModelConfig", JBool true);
                      ("maxTokens", JNumber (Int 50))])
            Claude
            [("temperature", JNumber (Frac "0.7")); ("system", JNull)] _ _ _).
  - reflexivity.
  - reflexivity.
  - repeat (apply NoDup_cons; split;
            [rewrite ?not_elem_of_cons; repeat split;
             try discriminate; apply not_elem_of_nil|]).
    apply NoDup_nil_2.
Defined.

End HandlerFacts.

Module JobFacts.
Import Js Providers Config Adapters Server Samples Routes MoreSamples.
Import TimeoutFacts RetryFacts AdapterFacts JsFacts AskFacts ConfigFacts.
Import HandlerFacts.



(** *** The job of an enabled provider *)

Section Jobs.
Variable vendor : vendor_call -> nat -> behaviour json.
Variable ad : ask_args -> adapter_run.
Variable a : ask_args.
Variable c : vendor_call.
Variable decode : json -> json.
Hypothesis Hcalls : ad a = Calls c decode.
Variable label : string.
Variable T : json.

Lemma factory_calls w :
  factory vendor ad a w
  = (decoded (decoding_error c) decode (vendor c (List.length w)), w ++ [c]).
Proof. unfold factory. rewrite Hcalls. reflexivity. Qed.

Lemma world_before_factory i : forall w,
  world_before (factory vendor ad a) i w = w ++ replicate i c.
Proof.
  induction i as [|i IH]; intros w; cbn [world_before replicate].
  - rewrite app_nil_r. reflexivity.
  - rewrite IH, factory_calls. cbn [snd]. rewrite <- app_assoc. reflexivity.
Qed.

Lemma nth_result_factory i :
  nth_result label (factory vendor ad a) T i []
  = Some (outcome T label (decoded (decoding_error c) decode (vendor c i))).
Proof.
  unfold nth_result, nth_task. rewrite await_withTimeout.
  rewrite world_before_factory, factory_calls. cbn [fst app].
  rewrite length_replicate. reflexivity.
Qed.

(** A call that is rejected or not answered in time. *)
Lemma nth_result_failed i :
  ((exists e, vendor c i = SettlesFirst (Rejects e))
   \/ (exists late, vendor c i = TimerFirst late)) ->
  ok <$> nth_result label (factory vendor ad a) T i [] = Some false.
Proof.
  rewrite nth_result_factory.
  intros [[e ->]|[late ->]]; [reflexivity|].
  destruct late as [[v|e]|]; reflexivity.
Qed.

(** The first [k] calls fail and the next one is answered. *)
Lemma retries_answer (k : nat) v :
  (k < 3)%nat ->
  (forall i, (i < k)%nat ->
     (exists e, vendor c i = SettlesFirst (Rejects e))
     \/ (exists late, vendor c i = TimerFirst late)) ->
  vendor c k = SettlesFirst (Fulfils v) ->
  decoding_error c v = None ->
  attempt label (factory vendor ad a) 3 T 0 [] 0%nat
  = Some ({| ok := true; value := Some (decode v); error := None |},
          replicate (S k) c, S k).
Proof.
  intros Hk Hfail Hv Hdec.
  rewrite (attempt_first_success label (factory vendor ad a) 3 T k 0 [] 0%nat
             {| ok := true; value := Some (decode v); error := None |}).
  - rewrite world_before_factory. reflexivity.
  - lia.
  - intros i Hi. apply nth_result_failed, Hfail, Hi.
  - rewrite nth_result_factory, Hv. cbn [decoded]. rewrite Hdec. reflexivity.
  - reflexivity.
Qed.

(** No call is answered in time. *)
Lemma retries_no_answer :
  (forall i, (i < 3)%nat -> exists late, vendor c i = TimerFirst late) ->
  attempt label (factory vendor ad a) 3 T 0 [] 0%nat
  = Some ({| ok := false; value := None;
             error := Some (timeout_error T label) |}, [c; c; c], 3%nat).
Proof.
  intros Hv.
  assert (Hres : forall i, (i < 3)%nat ->
            nth_result label (factory vendor ad a) T i []
            = Some {| ok := false; value := None;
                      error := Some (timeout_error T label) |}).
  { intros i Hi. rewrite nth_result_factory.
    destruct (Hv i Hi) as [late ->].
    destruct late as [[v|e]|]; reflexivity. }
  rewrite (attempt_all_fail label (factory vendor ad a) 3 T 2 0 [] 0%nat
             {| ok := false; value := None;
                error := Some (timeout_error T label) |}).
  - rewrite world_before_factory. reflexivity.
  - lia.
  - left. lia.
  - intros i Hi. rewrite Hres by lia. reflexivity.
  - apply Hres. lia.
Qed.

(** Every call is answered in time with a value the adapter cannot
    decode. *)
Lemma retries_undecodable (e : exn) :
  (forall i, (i < 3)%nat ->
     exists v, vendor c i = SettlesFirst (Fulfils v)
               /\ decoding_error c v = Some e) ->
  attempt label (factory vendor ad a) 3 T 0 [] 0%nat
  = Some ({| ok := false; value := None; error := Some e |}, [c; c; c], 3%nat).
Proof.
  intros Hv.
  assert (Hres : forall i, (i < 3)%nat ->
            nth_result label (factory vendor ad a) T i []
            = Some {| ok := false; value := None; error := Some e |}).
  { intros i Hi. rewrite nth_result_factory.
    destruct (Hv i Hi) as (v & -> & Hdec). cbn [decoded]. rewrite Hdec.
    reflexivity. }
  rewrite (attempt_all_fail label (factory vendor ad a) 3 T 2 0 [] 0%nat
             {| ok := false; value := None; error := Some e |}).
  - rewrite world_before_factory. reflexivity.
  - lia.
  - left. lia.
  - intros i Hi. rewrite Hres by lia. reflexivity.
  - apply Hres. lia.
Qed.

End Jobs.

Section Facts.
Variable env : environment.
Variable readJsonSafe : string -> json.
Variable StringToNumber : string -> number.
Variable vendor : vendor_call -> nat -> behaviour json.
Variables startedAt settledAt : string -> Z.
Variable reqBody : json.

Local Abbreviation submit := (submit env readJsonSafe StringToNumber vendor reqBody).
Local Abbreviation plan := (plan env readJsonSafe StringToNumber vendor reqBody).
Local Abbreviation ask :=
  (ask env readJsonSafe StringToNumber vendor startedAt settledAt reqBody).

(** The entry of a provider that runs. *)
Lemma job_entry (p : provider) :
  missing_prompt reqBody = false ->
  ask_throws env readJsonSafe reqBody = false ->
  enabled env reqBody p = true ->
  exists results out,
    ask = Some {| reply := Aggregate results; submitted := fst plan |}
    /\ submit p ∈ fst plan
    /\ settled (submit p) = Some out
    /\ results !! provider_key p
       = Some (outcome_entry (provider_key p) (config_models reqBody p)
                 (fst (fst out))
                 (settledAt (provider_key p) - startedAt (provider_key p))).
Proof.
  intros Hprompt Hthrows Hen.
  destruct (aggregate_lookup env readJsonSafe StringToNumber vendor startedAt
              settledAt reqBody Hprompt Hthrows)
    as (results & done & Hask & Hfst & Hall & _ & Hjobs & _).
  assert (Hin : submit p ∈ fst plan).
  { rewrite plan_jobs. apply list_elem_of_fmap. exists p. split; [reflexivity|].
    apply list_elem_of_filter. split; [exact Hen|apply providers_all]. }
  assert (Hd : exists d, d ∈ done /\ fst d = submit p).
  { rewrite <- Hfst in Hin. apply list_elem_of_fmap in Hin as (d & Hd & Hin).
    exists d. auto. }
  destruct Hd as (d & Hd & Hdp).
  exists results, (snd d). split; [exact Hask|]. split; [exact Hin|]. split.
  - rewrite Forall_forall in Hall. rewrite <- Hdp. apply Hall, Hd.
  - specialize (Hjobs d Hd). rewrite Hdp in Hjobs. exact Hjobs.
Qed.

End Facts.

(** X11. For a request whose prompt passes the check and on which the
    handler does not throw, a provider that is requested and has a key,
    whose adapter gets to its SDK call, whose first [k] SDK calls ([k]
    at most 2) are rejected or not answered within the time allowed and
    whose next call is answered in time with a value the adapter can
    decode, is reported with [ok: true] and the decoded answer as
    [text]; exactly [k + 1] SDK calls were made for it, all with the
    same payload. With [k = 0] nothing is retried. *)
Theorem answer_after_retries env readJsonSafe StringToNumber vendor
    startedAt settledAt reqBody (p : provider) c decode (k : nat) v :
  missing_prompt reqBody = false ->
  ask_throws env readJsonSafe reqBody = false ->
  enabled env reqBody p = true ->
  call_adapter env readJsonSafe p
               (adapter_args readJsonSafe StringToNumber reqBody p)
  = Calls c decode ->
  (k < 3)%nat ->
  (forall i, (i < k)%nat ->
     (exists e, vendor c i = SettlesFirst (Rejects e))
     \/ (exists late, vendor c i = TimerFirst late)) ->
  vendor c k = SettlesFirst (Fulfils v) ->
  decoding_error c v = None ->
  exists results jobs,
    ask env readJsonSafe StringToNumber vendor startedAt settledAt reqBody
    = Some {| reply := Aggregate results; submitted := jobs |}
    /\ results !! provider_key p
       = Some (JObject
                 [("provider", JString (provider_key p));
                  ("model", config_models reqBody p);
                  ("ok", JBool true);
                  ("text", decode v);
                  ("error", JUndefined);
                  ("latencyMs",
                   JNumber (Int (settledAt (provider_key p)
                                 - startedAt (provider_key p))))])
    /\ exists j r,
         j ∈ jobs /\ key j = provider_key p
         /\ settled j = Some (r, replicate (S k) c, S k).
Proof.
  intros Hprompt Hthrows Hen Hcalls Hk Hfail Hv Hdec.
  destruct (job_entry env readJsonSafe StringToNumber vendor startedAt
              settledAt reqBody p Hprompt Hthrows Hen)
    as (results & out & Hask & Hin & Hout & Hentry).
  assert (Hrun : settled (submit env readJsonSafe StringToNumber vendor reqBody p)
                 = Some ({| ok := true; value := Some (decode v);
                            error := None |}, replicate (S k) c, S k)).
  { cbn [settled submit]. unfold runWithRetries. cbn [default].
    apply (retries_answer vendor _ _ c decode Hcalls _ _ k v Hk Hfail Hv Hdec). }
  rewrite Hrun in Hout. injection Hout as <-.
  exists results, (fst (plan env readJsonSafe StringToNumber vendor reqBody)).
  split; [exact Hask|]. split; [exact Hentry|].
  eexists _, _. split; [exact Hin|]. split; [reflexivity|exact Hrun].
Qed.

Lemma answer_after_retries_witness :
  exists results jobs,
    ask all_keys no_files digits_only vendors clock_start clock_settled
        all_three
    = Some {| reply := Aggregate results; submitted := jobs |}
    /\ results !! "openai"
       = Some (JObject
                 [("provider", JString "openai");
                  ("model", JString "gpt-5-mini-2025-08-07");
                  ("ok", JBool true);
                  ("text", JString "hello");
                  ("error", JUndefined);
                  ("latencyMs", JNumber (Int 50))])
    /\ exists j r,
         j ∈ jobs /\ key j = "openai"
         /\ settled j
            = Some (r,
                    replicate 2
                      {| endpoint := "chat.completions.create";
                         payload :=
                           JObject
                             [("model", JString "gpt-5-mini-2025-08-07");
                              ("messages",
                               JArray [message "user" (JString "hi")]);
                              ("max_completion_tokens",
                               JNumber (Int 1024))] |},
                    2%nat).
Proof.
  apply (answer_after_retries all_keys no_files digits_only vendors
           clock_start clock_settled all_three OpenAI _ decode_chat 1%nat
           (JObject [("choices",
              JArray [JObject [("message",
                JObject [("content", JString "hello")])]])])).
  - reflexivity.
  - reflexivity.
  - reflexivity.
  - reflexivity.
  - lia.
  - intros [|i] Hi; [|lia]. left. exists (new_Error "503"). reflexivity.
  - reflexivity.
  - reflexivity.
Defined.

(** X12. For a request whose prompt passes the check and on which the
    handler does not throw, a provider that is requested and has a key,
    whose adapter gets to its SDK call and none of whose first three SDK
    calls is answered within the time allowed, is reported with
    [ok: false], no text and the error
    ["<Label> timed out after <T>ms"], [T] being the per-attempt timeout
    in force (5000 when that is undefined); exactly three SDK calls were
    made for it, all with the same payload. *)
Theorem silent_provider_times_out env readJsonSafe StringToNumber vendor
    startedAt settledAt reqBody (p : provider) c decode :
  missing_prompt reqBody = false ->
  ask_throws env readJsonSafe reqBody = false ->
  enabled env reqBody p = true ->
  call_adapter env readJsonSafe p
               (adapter_args readJsonSafe StringToNumber reqBody p)
  = Calls c decode ->
  (forall i, (i < 3)%nat -> exists late, vendor c i = TimerFirst late) ->
  unprintable (eff_tmo readJsonSafe reqBody p) = false
  /\ exists results jobs,
    ask env readJsonSafe StringToNumber vendor startedAt settledAt reqBody
    = Some {| reply := Aggregate results; submitted := jobs |}
    /\ results !! provider_key p
       = Some (JObject
                 [("provider", JString (provider_key p));
                  ("model", config_models reqBody p);
                  ("ok", JBool false);
                  ("text", JUndefined);
                  ("error",
                   JString (provider_label p +:+ " timed out after "
                            +:+ to_string
                                  (if_defined (eff_tmo readJsonSafe reqBody p)
                                              (JNumber (Int 5000)))
                            +:+ "ms"));
                  ("latencyMs",
                   JNumber (Int (settledAt (provider_key p)
                                 - startedAt (provider_key p))))])
    /\ exists j r,
         j ∈ jobs /\ key j = provider_key p
         /\ settled j = Some (r, [c; c; c], 3%nat).
Proof.
  intros Hprompt Hthrows Hen Hcalls Hv. split.
  { unfold ask_throws in Hthrows.
    apply orb_false_iff in Hthrows as [_ Hthrows].
    unfold timer_throws in Hthrows. cbn [existsb] in Hthrows.
    rewrite !orb_false_iff in Hthrows.
    destruct Hthrows as (Ho & Hc & Hg & _).
    destruct p; rewrite Hen in *; assumption. }
  destruct (job_entry env readJsonSafe StringToNumber vendor startedAt
              settledAt reqBody p Hprompt Hthrows Hen)
    as (results & out & Hask & Hin & Hout & Hentry).
  set (T := if_defined (eff_tmo readJsonSafe reqBody p) (JNumber (Int 5000))).
  assert (Hrun : settled (submit env readJsonSafe StringToNumber vendor reqBody p)
                 = Some ({| ok := false; value := None;
                            error := Some (timeout_error T (provider_label p)) |},
                         [c; c; c], 3%nat)).
  { cbn [settled submit]. unfold runWithRetries. cbn [default].
    apply (retries_no_answer vendor _ _ c decode Hcalls _ _ Hv). }
  rewrite Hrun in Hout. injection Hout as <-.
  exists results, (fst (plan env readJsonSafe StringToNumber vendor reqBody)).
  split; [|split].
  - exact Hask.
  - rewrite Hentry. unfold outcome_entry. cbn [ok error fst].
    do 6 f_equal. destruct p; reflexivity.
  - eexists _, _. split; [exact Hin|]. split; [reflexivity|exact Hrun].
Qed.

Lemma silent_provider_times_out_witness :
  exists results jobs,
    ask all_keys no_files digits_only vendors clock_start clock_settled
        all_three
    = Some {| reply := Aggregate results; submitted := jobs |}
    /\ results !! "gemini"
       = Some (JObject
                 [("provider", JString "gemini");
                  ("model", JString "gemini-1.5-flash");
                  ("ok", JBool false);
                  ("text", JUndefined);
                  ("error", JString "Gemini timed out after 30000ms");
                  ("latencyMs", JNumber (Int 90000))])
    /\ exists j r,
         j ∈ jobs /\ key j = "gemini"
         /\ settled j
            = Some (r,
                    replicate 3
                      {| endpoint := "generateContent";
                         payload :=
                           JObject
                             [("getGenerativeModel",
                               JObject [("model", JString "gemini-1.5-flash")]);
                              ("contents",
                               JArray [content_entry "user" (JString "hi")]);
                              ("generationConfig",
                               JObject
                                 [("temperature", JNumber (Frac "0.2"));
                                  ("maxOutputTokens", JNumber (Int 1024))])] |},
                    3%nat).
Proof.
  refine (proj2 (silent_provider_times_out all_keys no_files digits_only vendors
                   clock_start clock_settled all_three Gemini _ sdk_text
                   eq_refl eq_refl eq_refl eq_refl _)).
  intros i _. exists None. reflexivity.
Defined.

(** X30. For a request whose prompt passes the check and on which the
    handler does not throw, a provider that is requested and has a key,
    whose adapter gets to its SDK call and whose three SDK calls are all
    answered in time with a value on which the decoding of the adapter
    throws (for the chat-completion call, [null]: reading
    [completion.choices] throws), is reported with [ok: false], no text
    and the message of the error thrown; the call is made three times,
    with the same payload. *)
Theorem undecodable_answers_fail env readJsonSafe StringToNumber vendor
    startedAt settledAt reqBody (p : provider) c decode (e : exn) :
  missing_prompt reqBody = false ->
  ask_throws env readJsonSafe reqBody = false ->
  enabled env reqBody p = true ->
  call_adapter env readJsonSafe p
               (adapter_args readJsonSafe StringToNumber reqBody p)
  = Calls c decode ->
  (forall i, (i < 3)%nat ->
     exists v, vendor c i = SettlesFirst (Fulfils v)
               /\ decoding_error c v = Some e) ->
  (endpoint c = "chat.completions.create" ->
   decoding_error c JNull
   = Some (Exn "TypeError"
               "Cannot read properties of null (reading 'choices')"))
  /\ exists results jobs,
    ask env readJsonSafe StringToNumber vendor startedAt settledAt reqBody
    = Some {| reply := Aggregate results; submitted := jobs |}
    /\ results !! provider_key p
       = Some (JObject
                 [("provider", JString (provider_key p));
                  ("model", config_models reqBody p);
                  ("ok", JBool false);
                  ("text", JUndefined);
                  ("error", JString (error_text e));
                  ("latencyMs",
                   JNumber (Int (settledAt (provider_key p)
                                 - startedAt (provider_key p))))])
    /\ exists j r,
         j ∈ jobs /\ key j = provider_key p
         /\ settled j = Some (r, [c; c; c], 3%nat).
Proof.
  intros Hprompt Hthrows Hen Hcalls Hv. split.
  { intros Hc. unfold decoding_error. rewrite Hc. reflexivity. }
  destruct (job_entry env readJsonSafe StringToNumber vendor startedAt
              settledAt reqBody p Hprompt Hthrows Hen)
    as (results & out & Hask & Hin & Hout & Hentry).
  assert (Hrun : settled (submit env readJsonSafe StringToNumber vendor reqBody p)
                 = Some ({| ok := false; value := None; error := Some e |},
                         [c; c; c], 3%nat)).
  { cbn [settled submit]. unfold runWithRetries. cbn [default].
    apply (retries_undecodable vendor _ _ c decode Hcalls _ _ e Hv). }
  rewrite Hrun in Hout. injection Hout as <-.
  exists results, (fst (plan env readJsonSafe StringToNumber vendor reqBody)).
  split; [|split].
  - exact Hask.
  - rewrite Hentry. reflexivity.
  - eexists _, _. split; [exact Hin|]. split; [reflexivity|exact Hrun].
Qed.

Lemma undecodable_answers_fail_witness :
  exists results jobs,
    ask openai_only no_files digits_only null_vendor clock_start clock_settled
        all_three
    = Some {| reply := Aggregate results; submitted := jobs |}
    /\ results !! "openai"
       = Some (JObject
                 [("provider", JString "openai");
                  ("model", JString "gpt-5-mini-2025-08-07");
                  ("ok", JBool false);
                  ("text", JUndefined);
                  ("error",
                   JString "Cannot read properties of null (reading 'choices')");
                  ("latencyMs", JNumber (Int 50))])
    /\ exists j r,
         j ∈ jobs /\ key j = "openai"
         /\ settled j
            = Some (r,
                    replicate 3
                      {| endpoint := "chat.completions.create";
                         payload :=
                           JObject
                             [("model", JString "gpt-5-mini-2025-08-07");
                              ("messages",
                               JArray [message "user" (JString "hi")]);
                              ("max_completion_tokens",
                               JNumber (Int 1024))] |},
                    3%nat).
Proof.
  refine (proj2 (undecodable_answers_fail openai_only no_files digits_only
                   null_vendor clock_start clock_settled all_three OpenAI _
                   decode_chat
                   (Exn "TypeError"
                        "Cannot read properties of null (reading 'choices')")
                   eq_refl eq_refl eq_refl eq_refl _)).
  intros i _. exists JNull. split; reflexivity.
Defined.

End JobFacts.

Module ValidationFacts.
Import Js Providers Config Adapters Server Samples Routes.
Import TimeoutFacts RetryFacts AdapterFacts TextFacts JsFacts AskFacts.
Import HandlerFacts JobFacts.

(** *** [trim] *)

Lemma trim_start_blank s : blank s = true -> trim_start s = EmptyString.
Proof.
  induction s as [|c s IH]; cbn; [reflexivity|].
  destruct (is_space c); cbn; [exact IH|discriminate].
Qed.

Lemma nonempty_trim_start s : nonempty (trim_start s) = negb (blank s).
Proof.
  induction s as [|c s IH]; cbn; [reflexivity|].
  destruct (is_space c); cbn; [exact IH|reflexivity].
Qed.

Lemma blank_trim_start s : blank (trim_start s) = blank s.
Proof.
  induction s as [|c s IH]; cbn; [reflexivity|].
  destruct (is_space c) eqn:Hc; cbn; [exact IH|]. rewrite Hc. reflexivity.
Qed.

Lemma blank_rev_app s : forall t,
  blank (String.rev_app s t) = blank s && blank t.
Proof.
  induction s as [|c s IH]; intros t; cbn; [reflexivity|].
  rewrite IH. cbn. destruct (is_space c), (blank s); reflexivity.
Qed.

Lemma blank_rev s : blank (String.rev s) = blank s.
Proof. unfold String.rev. rewrite blank_rev_app. cbn. apply andb_true_r. Qed.

Lemma nonempty_rev_app s : forall t,
  nonempty (String.rev_app s t) = nonempty s || nonempty t.
Proof.
  induction s as [|c s IH]; intros t; cbn; [reflexivity|].
  rewrite IH. cbn. apply orb_true_r.
Qed.

Lemma nonempty_rev s : nonempty (String.rev s) = nonempty s.
Proof. unfold String.rev. rewrite nonempty_rev_app. cbn. apply orb_false_r. Qed.

(** [s.trim()] is empty exactly for a string of white space. *)
Lemma nonempty_trim s : nonempty (trim s) = negb (blank s).
Proof.
  unfold trim.
  rewrite nonempty_rev, nonempty_trim_start, blank_rev, blank_trim_start.
  reflexivity.
Qed.

Lemma missing_prompt_blank reqBody :
  missing_prompt reqBody
  = match req_prompt reqBody with JString s => blank s | _ => true end.
Proof.
  unfold missing_prompt. destruct (req_prompt reqBody) as [| |b|n|s|l|l];
    cbn [isString negb orb truthy]; try apply orb_true_r; try reflexivity.
  - destruct (negb b); reflexivity.
  - destruct (negb _); reflexivity.
  - cbn [to_string]. rewrite nonempty_trim, negb_involutive.
    destruct s; reflexivity.
Qed.

(** The debug block throws on a [modelId] that cannot be converted to
    a string, and on a history that a number format of [console.log]
    cannot convert. *)
Example logging_throws_modelId :
  logging_throws
    (JObject [("prompt", JString "hi");
              ("histories", JObject [("a", JArray [])]);
              ("modelId", JObject [("toString", JNumber (Int 0))])])
  = true.
Proof. reflexivity. Qed.

Example logging_throws_format :
  logging_throws
    (JObject [("prompt", JString "hi");
              ("histories",
               JObject [("%d", JObject [("toString", JNumber (Int 0))])]);
              ("modelId", JString "%d")])
  = true
  /\ logging_throws
       (JObject [("prompt", JString "hi");
                 ("histories",
                  JObject [("%s", JObject [("toString", JNumber (Int 0))])]);
                 ("modelId", JString "%s")])
     = false.
Proof. split; reflexivity. Qed.

(** The debug block comes before the check of the prompt. *)
Example ask_logging_throws :
  ask all_keys no_files digits_only vendors clock_start clock_settled
      (JObject [("histories", JObject [("a", JArray [])]);
                ("modelId", JObject [("toString", JNumber (Int 0))])])
  = None.
Proof. reflexivity. Qed.

(** X13. Unless the debug block at its head throws, [/api/ask] answers
    400 [{error: "Missing prompt"}], without submitting a job, when
    [prompt] is not a string that holds a character other than white
    space, and it gives that answer in no other case. A request whose
    prompt passes the check gets an aggregate, unless the handler throws
    on the way (in the debug block, in building the prompt with the
    attachments, or in starting the timer of a job): then it sends
    nothing. *)
Theorem ask_rejects_blank_prompts env readJsonSafe StringToNumber vendor
    startedAt settledAt reqBody :
  let is_blank :=
    match get (or_else reqBody (JObject [])) "prompt" with
    | JString s => blank s
    | _ => true
    end in
  let refusal :=
    Some {| reply := BadRequest (JObject [("error", JString "Missing prompt")]);
            submitted := [] |} in
  (ask env readJsonSafe StringToNumber vendor startedAt settledAt reqBody
   = refusal
   <-> logging_throws reqBody = false /\ is_blank = true)
  /\ (logging_throws reqBody = true ->
      ask env readJsonSafe StringToNumber vendor startedAt settledAt reqBody
      = None)
  /\ (is_blank = false ->
      ask_throws env readJsonSafe reqBody = true ->
      ask env readJsonSafe StringToNumber vendor startedAt settledAt reqBody
      = None)
  /\ (is_blank = false ->
      ask_throws env readJsonSafe reqBody = false ->
      exists results jobs,
        ask env readJsonSafe StringToNumber vendor startedAt settledAt reqBody
        = Some {| reply := Aggregate results; submitted := jobs |}).
Proof.
  intros is_blank refusal.
  assert (Hm : missing_prompt reqBody = is_blank) by apply missing_prompt_blank.
  pose proof (ask_cases env readJsonSafe StringToNumber vendor startedAt
                settledAt reqBody) as Hcases.
  split; [|split; [|split]].
  - rewrite Hcases, Hm. subst refusal.
    destruct (logging_throws reqBody);
      [split; [discriminate|intros [H _]; discriminate H]|].
    destruct is_blank; [split; auto|].
    split; [|intros [_ H]; discriminate H].
    destruct (attachments_throw _ _); [discriminate|].
    destruct (timer_throws _ _ _); [discriminate|].
    unfold respond. destruct (mapM _ _); discriminate.
  - intros Hl. rewrite Hcases, Hl. reflexivity.
  - intros Hb. rewrite Hb in Hm. apply ask_throws_None, Hm.
  - intros Hb Ht. rewrite Hb in Hm.
    destruct (aggregate_lookup env readJsonSafe StringToNumber vendor startedAt
                settledAt reqBody Hm Ht) as (results & done & Hask & _).
    eauto.
Qed.

Example draw_takes_blank_prompt :
  draw_missing_prompt (JObject [("prompt", JString "  ")]) = false
  /\ missing_prompt (JObject [("prompt", JString "  ")]) = true.
Proof. split; reflexivity. Qed.

(** X14. The three routes check [prompt] with nested conditions: what
    [/api/stream] refuses (a falsy prompt), [/api/draw] refuses, and
    what [/api/draw] refuses (anything but a non-empty string),
    [/api/ask] refuses. Both inclusions are strict: a truthy number
    passes the first check only, a string of spaces the first two. *)
Theorem prompt_checks_nested (reqBody : json) :
  let prompt := get (or_else reqBody (JObject [])) "prompt" in
  (truthy prompt = false -> draw_missing_prompt reqBody = true)
  /\ (draw_missing_prompt reqBody = true -> missing_prompt reqBody = true)
  /\ (forall n, prompt = JNumber (Int n) -> n <> 0 ->
        truthy prompt = true /\ draw_missing_prompt reqBody = true)
  /\ (forall s, prompt = JString s -> s <> EmptyString -> blank s = true ->
        draw_missing_prompt reqBody = false /\ missing_prompt reqBody = true).
Proof.
  intros prompt.
  assert (Hd : draw_missing_prompt reqBody
               = negb (truthy prompt) || negb (isString prompt)) by reflexivity.
  assert (Hm : missing_prompt reqBody
               = match prompt with JString s => blank s | _ => true end)
    by apply missing_prompt_blank.
  rewrite Hd, Hm. split; [|split; [|split]].
  - intros ->. reflexivity.
  - destruct prompt as [| |b|n|s|l|l]; cbn; try reflexivity.
    destruct s; [reflexivity|discriminate].
  - intros n -> Hn. cbn. apply Z.eqb_neq in Hn. rewrite Hn. split; reflexivity.
  - intros s -> Hs Hb. cbn. destruct s; [contradiction|]. split; [reflexivity|exact Hb].
Qed.

End ValidationFacts.

Module AttachmentFacts.
Import Js Providers Config Adapters Server Samples Routes.
Import TextFacts.

Section Layout.
Variable StringToNumber : string -> number.

Local Abbreviation header_text := (header_text StringToNumber).
Local Abbreviation line_text := (line_text StringToNumber).
Local Abbreviation buildPromptWithAttachments :=
  (buildPromptWithAttachments StringToNumber).

(** X15. [buildPromptWithAttachments] leaves the prompt as it is when
    [attachments] is not an array or is empty. Otherwise it throws when
    the name, the type or the size of an attachment, or the prompt,
    cannot be converted (to a string, or the size to a number), and
    else the text it builds is the line ["Attachments:"], one line per
    attachment in the order given, the separator ["\n---\n"] and, last,
    the user's prompt, joined by line breaks. A content that is a
    string of at most 100,000 characters (that length included) stands
    in its line whole, after the header and a colon, with no marker; a
    longer one is cut to 100,000 characters, after the header and the
    marker. *)
Theorem attachments_prompt_layout (p : json) (atts : json) :
  (isArray atts = false \/ elements atts = [] ->
   buildPromptWithAttachments p atts = Some p)
  /\ (isArray atts = true -> elements atts <> [] ->
      buildPromptWithAttachments p atts
      = if existsb id (imap header_throws (elements atts)) || unprintable p
        then None
        else Some (JString
                     ("Attachments:" +:+ nl
                      +:+ String.concat nl (imap line_text (elements atts))
                      +:+ nl +:+ (nl +:+ "---" +:+ nl) +:+ nl +:+ join "" [p])))
  /\ (existsb id (imap header_throws (elements atts)) = true
      <-> exists i a,
            elements atts !! i = Some a
            /\ (unprintable
                  (or_else (get a "name")
                           (JString ("file_" +:+ pretty (i + 1)%nat)))
                || unprintable (or_else (get a "type") (JString "text/plain"))
                || unprintable (or_else (get a "size") (JNumber (Int 0))))
               = true)
  /\ (forall i a content,
        get a "content" = JString content ->
        line_text i a
        = if (MAX_PER <? String.length content)%nat
          then header_text i a +:+ " [truncated]:" +:+ nl
               +:+ substring 0 MAX_PER content
          else header_text i a +:+ ":" +:+ nl +:+ content)
  /\ (forall s, join "" [JString s] = s).
Proof.
  split; [|split; [|split; [|split]]].
  - rewrite buildPromptWithAttachments_cases. intros [->| ->]; [reflexivity|].
    cbn. rewrite orb_true_r. reflexivity.
  - intros Harr Hne. rewrite buildPromptWithAttachments_cases.
    unfold attachments_throw. rewrite Harr.
    destruct (elements atts) as [|a0 rest] eqn:Hel; [contradiction|].
    cbn [negb orb andb List.length Nat.eqb]. reflexivity.
  - apply existsb_imap.
  - intros i a content Hc. unfold Server.line_text. rewrite Hc. reflexivity.
  - intros s. cbn. reflexivity.
Qed.

End Layout.

End AttachmentFacts.

Module EntryFacts.
Import Js Providers Config Adapters Server Samples Routes.
Import TimeoutFacts RetryFacts AdapterFacts JsFacts AskFacts HandlerFacts JobFacts.

Lemma outcome_entry_shape k model (r : result json) latencyMs :
  let entry := outcome_entry k model r latencyMs in
  get entry "provider" = JString k
  /\ get entry "model" = model
  /\ get entry "latencyMs" = JNumber (Int latencyMs)
  /\ ((get entry "ok" = JBool true /\ get entry "error" = JUndefined)
      \/ (get entry "ok" = JBool false /\ get entry "text" = JUndefined
          /\ isString (get entry "error") = true)).
Proof.
  intros entry. unfold entry, outcome_entry. cbn.
  repeat split. destruct (ok r); [left|right]; repeat split.
Qed.

(** X16. Every entry of an aggregate is keyed by one of the three
    provider keys, for a provider the request asked for. Its [provider]
    is its key, its [model] the model chosen for that provider, its
    [latencyMs] a number, and either [ok] is true and there is no
    [error], or [ok] is false, there is no [text] and [error] is a
    string. *)
Theorem aggregate_entry_shape env readJsonSafe StringToNumber vendor
    startedAt settledAt reqBody results jobs k entry :
  ask env readJsonSafe StringToNumber vendor startedAt settledAt reqBody
  = Some {| reply := Aggregate results; submitted := jobs |} ->
  results !! k = Some entry ->
  exists p,
    k = provider_key p
    /\ requested reqBody p = true
    /\ get entry "provider" = JString k
    /\ get entry "model" = config_models reqBody p
    /\ isNumber (get entry "latencyMs") = true
    /\ ((get entry "ok" = JBool true /\ get entry "error" = JUndefined)
        \/ (get entry "ok" = JBool false /\ get entry "text" = JUndefined
            /\ isString (get entry "error") = true)).
Proof.
  intros Hask Hk.
  destruct (ask_aggregate_inv env readJsonSafe StringToNumber vendor
              startedAt settledAt reqBody results jobs Hask)
    as (Hprompt & Hthrows & _).
  destruct (aggregate_lookup env readJsonSafe StringToNumber vendor startedAt
              settledAt reqBody Hprompt Hthrows)
    as (results' & done & Hask' & _ & _ & Hmissing & _ & Hnot & Hother).
  rewrite Hask in Hask'. injection Hask' as <- _.
  destruct (provider_key_cases k) as [[p ->]|Hno];
    [|rewrite Hother in Hk by exact Hno; discriminate].
  exists p. split; [reflexivity|].
  destruct (requested reqBody p) eqn:Hreq;
    [|rewrite Hnot in Hk by exact Hreq; discriminate].
  split; [reflexivity|].
  pose proof (unkeyed_or_enabled env reqBody p) as Hcase. rewrite Hreq in Hcase.
  symmetry in Hcase. apply orb_prop in Hcase as [Hu|Hen].
  - rewrite Hmissing in Hk by exact Hu. injection Hk as <-.
    cbn. repeat split. right. repeat split.
  - destruct (job_entry env readJsonSafe StringToNumber vendor startedAt
                settledAt reqBody p Hprompt Hthrows Hen)
      as (results' & out & Hask' & _ & _ & Hentry).
    rewrite Hask in Hask'. injection Hask' as <- _.
    rewrite Hentry in Hk. injection Hk as <-.
    destruct (outcome_entry_shape (provider_key p) (config_models reqBody p)
                (fst (fst out))
                (settledAt (provider_key p) - startedAt (provider_key p)))
      as (H1 & H2 & H3 & H4).
    split; [exact H1|]. split; [exact H2|]. split; [rewrite H3; reflexivity|].
    exact H4.
Qed.

Lemma aggregate_entry_shape_witness :
  exists p,
    "gemini" = provider_key p
    /\ requested all_three p = true
    /\ get (missing_entry "gemini" (JString "gemini-1.5-flash")
              "Missing GEMINI_API_KEY or GOOGLE_API_KEY") "provider"
       = JString "gemini"
    /\ get (missing_entry "gemini" (JString "gemini-1.5-flash")
              "Missing GEMINI_API_KEY or GOOGLE_API_KEY") "model"
       = config_models all_three p
    /\ isNumber (get (missing_entry "gemini" (JString "gemini-1.5-flash")
                        "Missing GEMINI_API_KEY or GOOGLE_API_KEY")
                     "latencyMs") = true
    /\ ((get (missing_entry "gemini" (JString "gemini-1.5-flash")
                "Missing GEMINI_API_KEY or GOOGLE_API_KEY") "ok" = JBool true
         /\ get (missing_entry "gemini" (JString "gemini-1.5-flash")
                   "Missing GEMINI_API_KEY or GOOGLE_API_KEY") "error"
            = JUndefined)
        \/ (get (missing_entry "gemini" (JString "gemini-1.5-flash")
                   "Missing GEMINI_API_KEY or GOOGLE_API_KEY") "ok"
            = JBool false
            /\ get (missing_entry "gemini" (JString "gemini-1.5-flash")
                      "Missing GEMINI_API_KEY or GOOGLE_API_KEY") "text"
               = JUndefined
            /\ isString (get (missing_entry "gemini" (JString "gemini-1.5-flash")
                                "Missing GEMINI_API_KEY or GOOGLE_API_KEY")
                             "error") = true)).
Proof.
  destruct (ask openai_only no_files digits_only vendors clock_start
              clock_settled all_three) as [[[body|results] jobs]|] eqn:Hask;
    [discriminate Hask| |discriminate Hask].
  refine (aggregate_entry_shape openai_only no_files digits_only vendors
            clock_start clock_settled all_three results jobs "gemini" _ Hask _).
  injection Hask as <- _. reflexivity.
Defined.

End EntryFacts.

Module RoutesFacts.
Import Js Providers Config Adapters Server Samples Routes MoreSamples.
Import TextFacts.

(** *** [/api/prompts/summarize] *)

(** X17. [/api/prompts/summarize] always answers [ok: true] with a
    complete configuration: [preface] is an array and neither [system]
    nor [sourcesTitle] is [null] or [undefined], whatever
    [config/summarize.json] holds. A file that is missing, unreadable or
    does not hold an object or array is ignored; in an object, a field
    that is [null] or absent (for [preface]: not an array) falls back to
    the built-in value, and any other value is passed on as it is. *)
Theorem summarize_config_complete (file : config_file) :
  let reply := summarize file in
  let config := get reply "config" in
  get reply "ok" = JBool true
  /\ isArray (get config "preface") = true
  /\ is_nullish (get config "system") = false
  /\ is_nullish (get config "sourcesTitle") = false
  /\ ((forall content, file = Parsed content ->
         truthy content && typeof_object content = false) ->
      config = loadSummarizeConfig)
  /\ (forall fields, file = Parsed (JObject fields) ->
        get config "system"
        = nullish (lookup_field "system" fields) (JString summarize_system)
        /\ get config "sourcesTitle"
           = nullish (lookup_field "sourcesTitle" fields) (JString "Sources:")
        /\ (isArray (lookup_field "preface" fields) = true ->
            get config "preface" = lookup_field "preface" fields)).
Proof.
  intros reply config. unfold config, reply, summarize.
  destruct file as [| |content].
  1, 2: do 4 (split; [reflexivity|]);
        (split; [intros _; reflexivity|intros fields [=]]).
  - destruct (truthy content && typeof_object content) eqn:Hobj.
    + split; [reflexivity|]. split; [|split; [|split; [|split]]].
      * cbn. destruct (isArray (get content "preface")) eqn:Hp;
          [exact Hp|reflexivity].
      * cbn. destruct (get content "system"); reflexivity.
      * cbn. destruct (get content "sourcesTitle"); reflexivity.
      * intros Hno. specialize (Hno content eq_refl). congruence.
      * intros fields [= ->]. cbn. repeat split.
        intros Hp. rewrite Hp. reflexivity.
    + do 4 (split; [reflexivity|]).
      split; [intros _; reflexivity|intros fields [= ->]; discriminate Hobj].
Qed.

(** *** [/api/draw] *)

Section Draw.
Variable env : environment.
Variable generate : json -> option (settlement (list (string * json))).
Variables startedAt finishedAt : Z.

Local Abbreviation drawOpenAI := (drawOpenAI env generate).
Local Abbreviation draw := (draw env generate startedAt finishedAt).

Lemma draw_valid reqBody :
  draw_missing_prompt reqBody = false ->
  draw reqBody
  = match drawOpenAI (get (or_else reqBody (JObject [])) "prompt")
                     (get (or_else reqBody (JObject [])) "size") with
    | None => None
    | Some (Fulfils dataUrl) =>
        Some (DrawJson (JObject [("ok", JBool true);
                                 ("image", dataUrl);
                                 ("latencyMs",
                                  JNumber (Int (finishedAt - startedAt)))]))
    | Some (Rejects e) => Some (DrawJson (failure_body e))
    end.
Proof.
  unfold draw_missing_prompt, Routes.draw. intros ->. reflexivity.
Qed.

End Draw.

(** X18. What [/api/draw] answers. A 400 is sent exactly when [prompt]
    is not a non-empty string. Otherwise the answer has [ok: true] only
    if the key is set and the SDK call, made with the model
    [gpt-image-1], the prompt and the size (1024x1024 when the request
    gives none), was fulfilled with a truthy [data[0].b64_json]; [image]
    is then that value behind the prefix [data:image/png;base64,]. Any
    other answer has [ok: false], a string [error] and no [image]. *)
Theorem draw_outcomes env generate startedAt finishedAt reqBody reply :
  draw env generate startedAt finishedAt reqBody = Some reply ->
  let prompt := get (or_else reqBody (JObject [])) "prompt" in
  let size := get (or_else reqBody (JObject [])) "size" in
  match reply with
  | DrawBadRequest body =>
      draw_missing_prompt reqBody = true
      /\ body = JObject [("error", JString "Missing prompt")]
  | DrawJson body =>
      draw_missing_prompt reqBody = false
      /\ ((get body "ok" = JBool true
           /\ configured (OPENAI_API_KEY env) = true
           /\ exists response b64,
                generate
                  (JObject [("model", JString "gpt-image-1");
                            ("prompt", prompt);
                            ("size", if_defined size (JString "1024x1024"))])
                = Some (Fulfils response)
                /\ b64 = get (get (lookup_field "data" response) "0") "b64_json"
                /\ truthy b64 = true
                /\ get body "image"
                   = JString ("data:image/png;base64," +:+ to_string b64))
          \/ (get body "ok" = JBool false
              /\ isString (get body "error") = true
              /\ get body "image" = JUndefined))
  end.
Proof.
  intros Hdraw prompt size.
  destruct (draw_missing_prompt reqBody) eqn:Hm.
  - unfold draw in Hdraw. unfold draw_missing_prompt in Hm.
    cbv zeta in Hm. rewrite Hm in Hdraw. injection Hdraw as <-. auto.
  - rewrite draw_valid in Hdraw by exact Hm. fold prompt size in Hdraw.
    unfold drawOpenAI, image_request in Hdraw.
    destruct (configured (OPENAI_API_KEY env)) eqn:Hkey; cbn [negb] in Hdraw.
    + destruct (generate _) as [[response|e]|] eqn:Hgen; [| |discriminate].
      * cbn [get] in Hdraw.
        destruct (truthy (get (get (lookup_field "data" response) "0")
                              "b64_json")) eqn:Hb;
          cbn [negb] in Hdraw; injection Hdraw as <-.
        -- split; [reflexivity|]. left. split; [reflexivity|].
           split; [reflexivity|]. eexists _, _. split; [reflexivity|].
           split; [reflexivity|]. split; [exact Hb|reflexivity].
        -- split; [reflexivity|]. right. repeat split.
      * injection Hdraw as <-. split; [reflexivity|]. right. repeat split.
    + injection Hdraw as <-. split; [reflexivity|]. right. repeat split.
Qed.

Lemma draw_outcomes_witness :
  draw_missing_prompt (JObject [("prompt", JString " ")]) = false
  /\ ((get (JObject [("ok", JBool true);
                     ("image", JString "data:image/png;base64,QUJD");
                     ("latencyMs", JNumber (Int 7))]) "ok" = JBool true
       /\ configured (OPENAI_API_KEY openai_only) = true
       /\ exists response b64,
            Some (Fulfils
                    [("data", JArray [JObject [("b64_json", JString "QUJD")]])])
            = Some (Fulfils response)
            /\ b64 = get (get (lookup_field "data" response) "0") "b64_json"
            /\ truthy b64 = true
            /\ get (JObject [("ok", JBool true);
                             ("image", JString "data:image/png;base64,QUJD");
                             ("latencyMs", JNumber (Int 7))]) "image"
               = JString ("data:image/png;base64," +:+ to_string b64))
      \/ (get (JObject [("ok", JBool true);
                        ("image", JString "data:image/png;base64,QUJD");
                        ("latencyMs", JNumber (Int 7))]) "ok" = JBool false
          /\ isString
               (get (JObject [("ok", JBool true);
                              ("image", JString "data:image/png;base64,QUJD");
                              ("latencyMs", JNumber (Int 7))]) "error") = true
          /\ get (JObject [("ok", JBool true);
                           ("image", JString "data:image/png;base64,QUJD");
                           ("latencyMs", JNumber (Int 7))]) "image"
             = JUndefined)).
Proof.
  refine (draw_outcomes openai_only
            (fun _ => Some (Fulfils
               [("data", JArray [JObject [("b64_json", JString "QUJD")]])]))
            1000 1007 (JObject [("prompt", JString " ")])
            (DrawJson (JObject [("ok", JBool true);
                                ("image", JString "data:image/png;base64,QUJD");
                                ("latencyMs", JNumber (Int 7))])) _).
  reflexivity.
Defined.

(** X19. [/api/draw] turns every failure into an answer with
    [ok: false] (never a 400 for a valid prompt): without the key the
    error is "Missing OPENAI_API_KEY" and the SDK is not called, so the
    answer is the same whatever the SDK would do; a rejected SDK call
    gives the text of its error; a response without [data[0].b64_json]
    gives "No image generated". *)
Theorem draw_reports_failures env generate startedAt finishedAt reqBody :
  draw_missing_prompt reqBody = false ->
  let request :=
    image_request (get (or_else reqBody (JObject [])) "prompt")
                  (get (or_else reqBody (JObject [])) "size") in
  let failed msg :=
    Some (DrawJson (JObject [("ok", JBool false); ("error", JString msg)])) in
  (configured (OPENAI_API_KEY env) = false ->
   draw env generate startedAt finishedAt reqBody
   = failed "Missing OPENAI_API_KEY")
  /\ (configured (OPENAI_API_KEY env) = true ->
      (forall e, generate request = Some (Rejects e) ->
         draw env generate startedAt finishedAt reqBody
         = failed (error_text e))
      /\ (forall response,
            generate request = Some (Fulfils response) ->
            truthy (get (get (lookup_field "data" response) "0") "b64_json")
            = false ->
            draw env generate startedAt finishedAt reqBody
            = failed "No image generated")).
Proof.
  intros Hm request failed. rewrite draw_valid by exact Hm.
  unfold drawOpenAI. fold request. split.
  - intros ->. reflexivity.
  - intros ->. cbn [negb]. split.
    + intros e ->. reflexivity.
    + intros response -> Hb. cbn [get]. rewrite Hb. reflexivity.
Qed.

Lemma draw_reports_failures_witness :
  draw no_keys (fun _ => None) 0 0 (JObject [("prompt", JString "a cat")])
  = Some (DrawJson (JObject [("ok", JBool false);
                             ("error", JString "Missing OPENAI_API_KEY")])).
Proof.
  refine (proj1 (draw_reports_failures no_keys (fun _ => None) 0 0
                   (JObject [("prompt", JString "a cat")]) _) _);
    reflexivity.
Defined.

(** X20. [/api/draw] has no timeout of its own: for a valid prompt and
    with the key set, it answers exactly when the SDK call settles, and
    never answers when that call never settles. In every other case it
    answers at once. *)
Theorem draw_waits_for_the_sdk env generate startedAt finishedAt reqBody :
  draw env generate startedAt finishedAt reqBody = None
  <-> (draw_missing_prompt reqBody = false
       /\ configured (OPENAI_API_KEY env) = true
       /\ generate
            (image_request (get (or_else reqBody (JObject [])) "prompt")
                           (get (or_else reqBody (JObject [])) "size"))
          = None).
Proof.
  destruct (draw_missing_prompt reqBody) eqn:Hm.
  - unfold draw. unfold draw_missing_prompt in Hm. cbv zeta in Hm.
    rewrite Hm. split; [discriminate|intros [[=] _]].
  - rewrite draw_valid by exact Hm. unfold drawOpenAI.
    destruct (configured (OPENAI_API_KEY env)); cbn [negb];
      [|split; [discriminate|intros (_ & [=] & _)]].
    destruct (generate _) as [[response|e]|].
    + destruct (negb _); split; try discriminate; intros (_ & _ & [=]).
    + split; [discriminate|intros (_ & _ & [=])].
    + split; [auto|reflexivity].
Qed.

(** *** The streaming loop *)

Lemma concat_empty_cons x l :
  String.concat "" (x :: l) = x +:+ String.concat "" l.
Proof.
  destruct l; cbn [String.concat]; [rewrite append_empty_r|]; reflexivity.
Qed.

(** The loop, in closed form. *)
Lemma pump parts : forall accumulated written,
  let deltas := filter (fun d => truthy d = true) (map delta_of parts) in
  foldl on_part (accumulated, written) parts
  = (accumulated +:+ String.concat "" (map to_string deltas),
     written ++ map delta_event deltas).
Proof.
  induction parts as [|part parts IH]; intros accumulated written; cbn zeta.
  - cbn. rewrite append_empty_r, app_nil_r. reflexivity.
  - cbn [foldl map]. rewrite filter_cons. unfold on_part at 2.
    destruct (truthy (delta_of part)) eqn:Hd.
    + rewrite decide_True by reflexivity. cbn [fst snd map].
      rewrite IH. cbn zeta. rewrite concat_empty_cons, append_assoc.
      rewrite <- app_assoc. reflexivity.
    + rewrite decide_False by discriminate. apply IH.
Qed.

Section Streaming.
Variable env : environment.
Variable StringToNumber : string -> number.
Variable create : json -> sdk_stream.
Variable latencyMs : Z.

Local Abbreviation stream_route :=
  (stream_route env StringToNumber create latencyMs).

Lemma stream_route_stream reqBody payload parts failure :
  stream env StringToNumber reqBody = StreamCreate payload ->
  create payload = Stream parts failure ->
  let deltas := filter (fun d => truthy d = true) (map delta_of parts) in
  stream_route reqBody
  = StreamEvents
      (map delta_event deltas
       ++ [match failure with
           | None =>
               done_event (String.concat "" (map to_string deltas)) latencyMs
           | Some e => error_event e
           end]).
Proof.
  intros Hs Hc deltas. unfold Routes.stream_route. rewrite Hs, Hc.
  rewrite pump. fold deltas. cbn [fst snd app].
  destruct failure; reflexivity.
Qed.

End Streaming.





(** *** [startServer] *)

Lemma startServer_unfold listen port retries :
  startServer listen port retries
  = match listen port with
    | Listening => Serving port
    | ListenError err =>
        if in_use (ListenError err) then
          if Z_gt_dec retries 0
          then startServer listen (port + 1) (retries - 1)
          else Exit 1
        else Exit 1
    end.
Proof.
  rewrite startServer_equation_1.
  destruct (listen port) as [|err]; [reflexivity|].
  rewrite startServer_clause_1_equation_2.
  destruct (in_use (ListenError err)); [|reflexivity].
  rewrite startServer_clause_1_clause_2_equation_1.
  destruct (Z_gt_dec retries 0); reflexivity.
Qed.

Lemma startServer_ports listen (n : nat) : forall port retries,
  Z.max 0 retries = Z.of_nat n ->
  exists k : nat,
    (k <= n)%nat
    /\ (forall i : nat, (i < k)%nat -> in_use (listen (port + Z.of_nat i)) = true)
    /\ startServer listen port retries
       = match listen (port + Z.of_nat k) with
         | Listening => Serving (port + Z.of_nat k)
         | ListenError _ => Exit 1
         end
    /\ (in_use (listen (port + Z.of_nat k)) = true -> k = n).
Proof.
  induction n as [|n IH]; intros port retries Hn;
    rewrite startServer_unfold.
  - exists 0%nat. rewrite Z.add_0_r. split; [lia|]. split; [intros i Hi; lia|].
    split; [|reflexivity].
    destruct (listen port) as [|err]; [reflexivity|].
    destruct (in_use _); [|reflexivity].
    destruct (Z_gt_dec retries 0); [lia|reflexivity].
  - destruct (listen port) as [|err] eqn:Hl.
    + exists 0%nat. rewrite Z.add_0_r, Hl. split; [lia|].
      split; [intros i Hi; lia|]. split; [reflexivity|discriminate].
    + destruct (in_use (ListenError err)) eqn:Hu.
      * destruct (Z_gt_dec retries 0) as [_|Hr]; [|lia].
        destruct (IH (port + 1) (retries - 1) ltac:(lia))
          as (k & Hk & Hbusy & Hrun & Hlast).
        exists (S k).
        replace (port + Z.of_nat (S k)) with (port + 1 + Z.of_nat k) by lia.
        split; [lia|]. split; [|split; [exact Hrun|]].
        -- intros [|i] Hi; [rewrite Z.add_0_r, Hl; exact Hu|].
           replace (port + Z.of_nat (S i)) with (port + 1 + Z.of_nat i) by lia.
           apply Hbusy. lia.
        -- intros Hin. rewrite (Hlast Hin). reflexivity.
      * exists 0%nat. rewrite Z.add_0_r, Hl. split; [lia|].
        split; [intros i Hi; lia|]. split; [reflexivity|].
        rewrite Hu. discriminate.
Qed.

(** X23. [startServer(port, retries)] tries the ports [port],
    [port + 1], ... in turn and stops at the first one whose [listen]
    does not fail with [EADDRINUSE], or after [retries + 1] ports (one
    port when [retries] is zero or negative). It serves on the port it
    stopped at if that one could be bound, and exits with code 1 if that
    one failed, be it with another error or because all the ports tried
    were in use. *)
Theorem startServer_first_free_port (listen : Z -> listen_result)
    (port retries : Z) :
  exists k : nat,
    Z.of_nat k <= Z.max 0 retries
    /\ (forall i : nat, (i < k)%nat ->
          in_use (listen (port + Z.of_nat i)) = true)
    /\ startServer listen port retries
       = match listen (port + Z.of_nat k) with
         | Listening => Serving (port + Z.of_nat k)
         | ListenError _ => Exit 1
         end
    /\ (in_use (listen (port + Z.of_nat k)) = true
        -> Z.of_nat k = Z.max 0 retries).
Proof.
  destruct (startServer_ports listen (Z.to_nat (Z.max 0 retries)) port retries
              ltac:(lia)) as (k & Hk & Hbusy & Hrun & Hlast).
  exists k. split; [lia|]. split; [exact Hbusy|]. split; [exact Hrun|].
  intros Hin. rewrite (Hlast Hin). lia.
Qed.

Example startServer_third_port :
  startServer
    (fun port =>
       if (port <? 3002)%Z
       then ListenError (JObject [("code", JString "EADDRINUSE")])
       else Listening)
    3000 5
  = Serving 3002.
Proof. do 3 (rewrite startServer_unfold; cbn -[startServer]). reflexivity. Qed.

End RoutesFacts.

Module CliFacts.
Import Js Providers Config Adapters Server Samples Routes Cli MoreSamples.
Import TimeoutFacts RetryFacts AdapterFacts TextFacts AskFacts HandlerFacts.
Import ValidationFacts.

Section Gather.
Variables startedAt settledAt : string -> Z.

Local Abbreviation gather := (gather startedAt settledAt).

(** [results] after [Promise.all], key by key, in whatever order the
    callbacks ran. *)
Lemma gather_lookup (jobs : list job) :
  Forall (fun j => is_Some (settled j)) jobs ->
  NoDup (map key jobs) ->
  exists results,
    gather jobs = Some results
    /\ (forall j out, j ∈ jobs -> settled j = Some out ->
          results !! key j
          = Some (outcome_entry (key j) (model (args j)) (fst (fst out))
                    (settledAt (key j) - startedAt (key j))))
    /\ (forall k, k ∉ map key jobs -> results !! k = None).
Proof.
  intros Hall Hnd.
  assert (Hall' : Forall (fun j => is_Some (pair j <$> settled j)) jobs).
  { eapply Forall_impl; [exact Hall|]. intros j [out ->]. eexists; reflexivity. }
  destruct (mapM_is_Some_2 _ _ Hall') as [done Hdone].
  unfold Cli.gather. rewrite Hdone. eexists. split; [reflexivity|].
  apply mapM_Some_1 in Hdone.
  assert (Hdone' : map fst done = jobs
                   /\ Forall (fun d => settled (fst d) = Some (snd d)) done).
  { clear Hall Hall' Hnd.
    induction Hdone as [|j d js ds Hjd _ [IH1 IH2]]; [split; constructor|].
    destruct (settled j) as [out|] eqn:Hout; [|discriminate].
    cbn in Hjd. injection Hjd as <-. cbn. split.
    - f_equal. exact IH1.
    - constructor; [exact Hout|exact IH2]. }
  destruct Hdone' as [Hfst Hset].
  assert (Hperm : map (fun d => key (fst d)) (completion_order settledAt done)
                  ≡ₚ map key jobs).
  { unfold completion_order. rewrite merge_sort_Permutation.
    rewrite <- Hfst, map_map. reflexivity. }
  split.
  - intros j out Hj Hout. rewrite <- Hfst in Hj.
    apply list_elem_of_fmap in Hj as (d & -> & Hd).
    rewrite Forall_forall in Hset. pose proof (Hset d Hd) as Hsd.
    rewrite Hout in Hsd. injection Hsd as ->.
    apply on_settled_job.
    + rewrite Hperm. exact Hnd.
    + unfold completion_order. rewrite merge_sort_Permutation. exact Hd.
  - intros k Hk. rewrite on_settled_other; [apply lookup_empty|].
    rewrite Hperm. exact Hk.
Qed.

End Gather.

Section Main.
Variable env : environment.
Variable readJsonSafe : string -> json.
Variable vendor : vendor_call -> nat -> behaviour json.
Variables startedAt settledAt : string -> Z.
Variable a : argv.
Variable stdin : option string.

Local Abbreviation cli_job := (cli_job env readJsonSafe vendor a stdin).
Local Abbreviation cli_block := (cli_block env readJsonSafe vendor a stdin).
Local Abbreviation cli_jobs := (cli_jobs env readJsonSafe vendor a stdin).
Local Abbreviation cli_args := (cli_args a stdin).
Local Abbreviation main :=
  (main env readJsonSafe vendor startedAt settledAt a stdin).
Local Abbreviation runs p := (truthy (cli_flag a p) && hasKey env p).
Local Abbreviation first_call p :=
  (fst (factory vendor (adapter env readJsonSafe p) (cli_args p) [])).
Local Abbreviation cli_entry p :=
  (outcome_entry (provider_key p) (cli_model a p)
     (outcome (arg_timeout a) (provider_label p) (first_call p))
     (settledAt (provider_key p) - startedAt (provider_key p))).

Lemma cli_blocks ps : forall jobs,
  foldl cli_block jobs ps
  = jobs ++ map cli_job (filter (fun p => runs p = true) ps).
Proof.
  induction ps as [|p ps IH]; intros jobs; cbn [foldl].
  - cbn. rewrite app_nil_r. reflexivity.
  - rewrite IH, filter_cons. unfold Cli.cli_block.
    destruct (runs p) eqn:Hp.
    + rewrite decide_True by reflexivity. cbn. rewrite <- app_assoc.
      reflexivity.
    + rewrite decide_False by discriminate. reflexivity.
Qed.

Lemma cli_jobs_runs :
  cli_jobs = map cli_job (filter (fun p => runs p = true) [OpenAI; Claude; Gemini]).
Proof. unfold Cli.cli_jobs. rewrite cli_blocks. reflexivity. Qed.

Lemma cli_job_settled p :
  settled (cli_job p)
  = Some (outcome (arg_timeout a) (provider_label p) (first_call p),
          snd (factory vendor (adapter env readJsonSafe p) (cli_args p) []),
          1%nat).
Proof.
  unfold Cli.cli_job. cbn [settled]. rewrite await_withTimeout. reflexivity.
Qed.

(** [results], key by key. *)
Lemma cli_gather :
  exists results,
    Cli.gather startedAt settledAt cli_jobs = Some results
    /\ (forall p, results !! provider_key p
                  = if runs p then Some (cli_entry p) else None)
    /\ (forall k, (forall p, k <> provider_key p) -> results !! k = None).
Proof.
  destruct (gather_lookup startedAt settledAt cli_jobs)
    as (results & Hg & Hjobs & Hother).
  { rewrite cli_jobs_runs. apply Forall_forall. intros j Hj.
    apply list_elem_of_fmap in Hj as (p & -> & _).
    rewrite cli_job_settled. eexists; reflexivity. }
  { rewrite cli_jobs_runs, map_map.
    apply NoDup_fmap_2; [intros p q Hpq; apply provider_key_inj, Hpq|].
    apply NoDup_filter, providers_NoDup. }
  exists results. split; [exact Hg|]. split.
  - intros p. destruct (runs p) eqn:Hp.
    + assert (Hin : cli_job p ∈ cli_jobs).
      { rewrite cli_jobs_runs. apply list_elem_of_fmap. exists p.
        split; [reflexivity|]. apply list_elem_of_filter.
        split; [exact Hp|apply providers_all]. }
      exact (Hjobs (cli_job p) _ Hin (cli_job_settled p)).
    + apply Hother. rewrite cli_jobs_runs, map_map.
      intros Hin. apply list_elem_of_fmap in Hin as (q & Hq & Hin).
      apply provider_key_inj in Hq as <-.
      apply list_elem_of_filter in Hin as [Hin _]. congruence.
  - intros k Hk. apply Hother. rewrite cli_jobs_runs, map_map.
    intros Hin. apply list_elem_of_fmap in Hin as (q & Hq & _).
    exact (Hk q Hq).
Qed.

End Main.

Lemma truthy_readStdinIfPiped stdin :
  truthy (readStdinIfPiped stdin)
  = match stdin with Some raw => negb (blank raw) | None => false end.
Proof.
  destruct stdin as [raw|]; [|reflexivity]. unfold readStdinIfPiped.
  rewrite <- nonempty_trim. destruct (trim raw); reflexivity.
Qed.

Lemma truthy_resolve_prompt (a : argv) stdin :
  truthy (resolve_prompt a stdin)
  = truthy (arg_prompt a)
    || negb (blank (join " " (positional a)))
    || match stdin with Some raw => negb (blank raw) | None => false end.
Proof.
  unfold resolve_prompt.
  set (words := JString (if (0 <? List.length (positional a))%nat
                         then trim (join " " (positional a)) else "")).
  assert (Hw : truthy words = negb (blank (join " " (positional a)))).
  { unfold words. destruct (positional a) as [|w ws]; [reflexivity|].
    cbn [List.length Nat.ltb Nat.leb truthy]. apply nonempty_trim. }
  set (first := or_else (arg_prompt a) words).
  assert (Hf : truthy first
               = truthy (arg_prompt a)
                 || negb (blank (join " " (positional a)))).
  { unfold first, or_else. rewrite <- Hw.
    destruct (truthy (arg_prompt a)) eqn:Ha; [exact Ha|reflexivity]. }
  rewrite <- Hf, <- truthy_readStdinIfPiped.
  destruct (truthy first) eqn:H1; cbn [negb orb]; [exact H1|].
  destruct (truthy (readStdinIfPiped stdin)) eqn:H2; [exact H2|exact H1].
Qed.

(** X24. The command line stops with exit code 1, before any provider
    is called, exactly when no source gives a prompt: [--prompt] is
    empty or absent, the positional words joined by spaces are blank,
    and nothing, or only white space, is piped in. *)
Theorem cli_needs_a_prompt env readJsonSafe vendor startedAt settledAt
    (a : argv) (stdin : option string) :
  main env readJsonSafe vendor startedAt settledAt a stdin = Some (CliExit 1)
  <-> (truthy (arg_prompt a) = false
       /\ blank (join " " (positional a)) = true
       /\ forall raw, stdin = Some raw -> blank raw = true).
Proof.
  assert (Hp : truthy (prompt a stdin) = false
               <-> (truthy (arg_prompt a) = false
                    /\ blank (join " " (positional a)) = true
                    /\ forall raw, stdin = Some raw -> blank raw = true)).
  { unfold prompt. rewrite truthy_resolve_prompt.
    destruct (truthy (arg_prompt a)); cbn [orb];
      [split; [discriminate|intros [[=] _]]|].
    destruct (blank (join " " (positional a))); cbn [negb orb];
      [|split; [discriminate|intros (_ & [=] & _)]].
    destruct stdin as [raw|].
    - destruct (blank raw) eqn:Hb; cbn [negb].
      + split; [|reflexivity]. intros _. repeat split.
        intros raw' [= <-]. exact Hb.
      + split; [discriminate|]. intros (_ & _ & H).
        specialize (H raw eq_refl). congruence.
    - split; [|reflexivity]. intros _. repeat split. intros raw [=]. }
  rewrite <- Hp. unfold main.
  destruct (truthy (prompt a stdin)); cbn [negb]; [|split; reflexivity].
  split; [|discriminate].
  destruct (gather _ _ _) as [results|]; [|discriminate].
  destruct (equals _ _); [discriminate|].
  destruct (print_entries _). discriminate.
Qed.

(** X25. With [--format json] the command line prints an entry for a
    provider exactly when its flag is on and its key is set: a provider
    without a key is skipped without an entry (where the server would
    record a missing-key failure). The entry is the outcome of a single
    wrapped call of the adapter: nothing is retried, so a call that is
    not answered in time is reported as
    ["<Label> timed out after <timeout>ms"] at once. *)
Theorem cli_results env readJsonSafe vendor startedAt settledAt
    (a : argv) (stdin : option string) :
  truthy (prompt a stdin) = true ->
  equals (arg_format a) "json" = true ->
  exists results,
    main env readJsonSafe vendor startedAt settledAt a stdin
    = Some (CliJson results)
    /\ (forall k, (forall p, k <> provider_key p) -> results !! k = None)
    /\ forall p,
         let call :=
           factory vendor (adapter env readJsonSafe p) (cli_args a stdin p) [] in
         (truthy (cli_flag a p) && hasKey env p = false ->
          results !! provider_key p = None)
         /\ (truthy (cli_flag a p) && hasKey env p = true ->
             results !! provider_key p
             = Some (outcome_entry (provider_key p) (cli_model a p)
                       (outcome (arg_timeout a) (provider_label p) (fst call))
                       (settledAt (provider_key p) - startedAt (provider_key p)))
             /\ (List.length (snd call) <= 1)%nat
             /\ ((exists late, fst call = TimerFirst late) ->
                 get (outcome_entry (provider_key p) (cli_model a p)
                        (outcome (arg_timeout a) (provider_label p) (fst call))
                        (settledAt (provider_key p)
                         - startedAt (provider_key p))) "error"
                 = JString (provider_label p +:+ " timed out after "
                            +:+ to_string (arg_timeout a) +:+ "ms"))).
Proof.
  intros Hprompt Hjson.
  destruct (cli_gather env readJsonSafe vendor startedAt settledAt a stdin)
    as (results & Hg & Hp & Hother).
  exists results. split; [|split; [exact Hother|]].
  - unfold main. rewrite Hprompt, Hg, Hjson. reflexivity.
  - intros p call. specialize (Hp p). split; intros Hr; rewrite Hr in Hp;
      [exact Hp|].
    split; [exact Hp|]. split.
    + unfold call, factory. destruct (adapter _ _ _ _); cbn; lia.
    + intros [late Hlate]. rewrite Hlate. cbn.
      f_equal. destruct p; reflexivity.
Qed.

Lemma cli_results_witness :
  exists results,
    main openai_only no_files vendors clock_start clock_settled
         {| arg_prompt := JString "hi"; positional := [];
            arg_system := JUndefined;
            arg_temperature := JNumber (Frac "0.2");
            arg_max_tokens := JNumber (Int 1024);
            arg_timeout := JNumber (Int 30000);
            model_openai := JString "gpt-4o";
            model_claude := JString "claude-3-5-sonnet-latest";
            model_gemini := JString "gemini-1.5-flash";
            flag_openai := JBool true; flag_claude := JBool true;
            flag_gemini := JBool true; arg_format := JString "json" |}
         None
    = Some (CliJson results)
    /\ results !! "claude" = None
    /\ results !! "openai"
       = Some (JObject [("provider", JString "openai");
                        ("model", JString "gpt-4o");
                        ("ok", JBool false);
                        ("text", JUndefined);
                        ("error", JString "503");
                        ("latencyMs", JNumber (Int 50))]).
Proof.
  destruct (cli_results openai_only no_files vendors clock_start clock_settled
              {| arg_prompt := JString "hi"; positional := [];
                 arg_system := JUndefined;
                 arg_temperature := JNumber (Frac "0.2");
                 arg_max_tokens := JNumber (Int 1024);
                 arg_timeout := JNumber (Int 30000);
                 model_openai := JString "gpt-4o";
                 model_claude := JString "claude-3-5-sonnet-latest";
                 model_gemini := JString "gemini-1.5-flash";
                 flag_openai := JBool true; flag_claude := JBool true;
                 flag_gemini := JBool true; arg_format := JString "json" |}
              None eq_refl eq_refl)
    as (results & Hmain & _ & Hp).
  exists results. split; [exact Hmain|]. split.
  - exact (proj1 (Hp Claude) eq_refl).
  - exact (proj1 (proj2 (Hp OpenAI) eq_refl)).
Defined.

(** X26. Once the prompt is known the command line always finishes,
    with an exit code or with output, whatever the vendors do: every
    adapter call is wrapped in the timeout, so no call can keep
    [Promise.all] waiting. *)
Theorem cli_always_finishes env readJsonSafe vendor startedAt settledAt
    (a : argv) (stdin : option string) :
  is_Some (main env readJsonSafe vendor startedAt settledAt a stdin).
Proof.
  destruct (cli_gather env readJsonSafe vendor startedAt settledAt a stdin)
    as (results & Hg & _).
  unfold main. rewrite Hg.
  destruct (negb _); [eexists; reflexivity|].
  destruct (equals _ _); [eexists; reflexivity|].
  destruct (print_entries _). eexists; reflexivity.
Qed.

Lemma print_entries_skip label rest :
  print_entries ((label, JUndefined) :: rest) = print_entries rest.
Proof. reflexivity. Qed.

Lemma print_entries_block label res rest :
  truthy res = true -> printable res = true ->
  print_entries ((label, res) :: rest)
  = (printed_block label res ++ fst (print_entries rest),
     snd (print_entries rest)).
Proof.
  intros Hres Hp. cbn [print_entries]. rewrite Hres. cbn [negb].
  unfold printable in Hp. unfold printed_block.
  destruct (print_entries rest) as [lines crashed]. cbn [fst snd app].
  destruct (truthy (get res "ok")); cbn [negb orb] in Hp; [|reflexivity].
  destruct (get res "text"); try discriminate; reflexivity.
Qed.

(** X27. In text form the command line prints, for each provider that
    ran, a header with the label, the model and the latency, then the
    trimmed text or ["Error: "] and the error, then a divider. The
    blocks come in the fixed order OpenAI, Claude, Gemini, whatever the
    order in which the answers arrived, and a provider that did not run
    leaves no lines. (This holds when every answer that succeeded is a
    string, or null or undefined; printing any other answer stops with
    a type error.) *)
Theorem cli_text_blocks env readJsonSafe vendor startedAt settledAt
    (a : argv) (stdin : option string) :
  let runs p := truthy (cli_flag a p) && hasKey env p in
  let entry p :=
    outcome_entry (provider_key p) (cli_model a p)
      (outcome (arg_timeout a) (provider_label p)
         (fst (factory vendor (adapter env readJsonSafe p)
                 (cli_args a stdin p) [])))
      (settledAt (provider_key p) - startedAt (provider_key p)) in
  truthy (prompt a stdin) = true ->
  equals (arg_format a) "json" = false ->
  (forall p, runs p = true -> printable (entry p) = true) ->
  main env readJsonSafe vendor startedAt settledAt a stdin
  = Some (CliText
            (flat_map (fun p => if runs p
                                then printed_block (provider_label p) (entry p)
                                else [])
                      [OpenAI; Claude; Gemini])
            false).
Proof.
  intros runs entry Hprompt Hjson Hprintable.
  destruct (cli_gather env readJsonSafe vendor startedAt settledAt a stdin)
    as (results & Hg & Hp & _).
  unfold main. rewrite Hprompt, Hg, Hjson. cbn [negb].
  assert (Hentry : forall p,
            default JUndefined (results !! provider_key p)
            = if runs p then entry p else JUndefined).
  { intros p. rewrite Hp. fold (runs p). destruct (runs p); reflexivity. }
  change (results !! "openai") with (results !! provider_key OpenAI).
  change (results !! "claude") with (results !! provider_key Claude).
  change (results !! "gemini") with (results !! provider_key Gemini).
  rewrite !Hentry.
  assert (Hone : forall p rest,
            print_entries
              ((provider_label p, if runs p then entry p else JUndefined) :: rest)
            = ((if runs p then printed_block (provider_label p) (entry p)
                else []) ++ fst (print_entries rest),
               snd (print_entries rest))).
  { intros p rest. pose proof (Hprintable p) as Hpr.
    destruct (runs p).
    - apply print_entries_block; [reflexivity|apply Hpr; reflexivity].
    - rewrite print_entries_skip. destruct (print_entries rest); reflexivity. }
  change "OpenAI" with (provider_label OpenAI).
  change "Claude" with (provider_label Claude).
  change "Gemini" with (provider_label Gemini).
  rewrite (Hone OpenAI), (Hone Claude), (Hone Gemini).
  cbn [print_entries fst snd flat_map]. rewrite !app_nil_r. reflexivity.
Qed.

Lemma cli_text_blocks_witness :
  main all_keys no_files prompt_vendor clock_start clock_settled
       plain_argv None
  = Some (CliText
            ["OpenAI (gpt-5-mini-2025-08-07) [50ms]"; "hello"; divider;
             "Claude (claude-3-5-sonnet-latest) [20ms]"; "hello"; divider;
             "Gemini (gemini-1.5-flash) [90000ms]"; "hello"; divider]
            false).
Proof.
  refine (cli_text_blocks all_keys no_files prompt_vendor clock_start
            clock_settled plain_argv None eq_refl eq_refl _).
  intros [] _; reflexivity.
Defined.

End CliFacts.
Module StreamFacts.
Import Js Providers Config Adapters Server Samples Routes MoreSamples.
Import AdapterFacts TextFacts.

Section Stream.
Variable env : environment.
Variable StringToNumber : string -> number.
Variable reqBody : json.

Local Abbreviation stream := (stream env StringToNumber reqBody).
Local Abbreviation body := (or_else reqBody (JObject [])).

(** The handler up to the SDK call, case by case. *)
Lemma stream_cases :
  stream
  = if negb (truthy (get body "prompt")) then StreamBadRequest "Missing prompt"
    else if negb (configured (OPENAI_API_KEY env)) then
      StreamError (JObject [("error", JString "Missing OPENAI_API_KEY")])
    else if attachments_throw (get body "prompt") (get body "attachments")
            || unprintable (or_else (get body "model") (JString ""))
    then StreamError (JObject [("error", JString (error_text type_error))])
    else
      match buildPromptWithAttachments StringToNumber (get body "prompt")
                                       (get body "attachments") with
      | None => StreamError (JObject [("error", JString (error_text type_error))])
      | Some text =>
          StreamCreate
            (set (with_sampling
                    (isGpt5 (or_else (get body "model") (JString "")))
                    (get body "temperature") (get body "maxTokens")
                    (get body "maxCompletionTokens")
                    (JObject
                       [("model",
                         or_else (get body "model") (openaiModel DEFAULTS));
                        ("messages",
                         JArray
                           ((if truthy (get body "system")
                             then [message "system" (get body "system")]
                             else [])
                            ++ map (fun m => message (chat_role m)
                                                     (JString (content_of m)))
                                   (kept_turns
                                      (if isString (get body "modelId")
                                          && isArray (get_at (get body "histories")
                                                             (get body "modelId"))
                                       then get_at (get body "histories")
                                                   (get body "modelId")
                                       else or_else (get (get body "histories")
                                                         "openai")
                                                    (JArray [])))
                            ++ [message "user" text]))]))
                 "stream" (JBool true))
      end.
Proof.
  unfold Server.stream. cbv zeta.
  destruct (negb (truthy (get body "prompt"))); [reflexivity|].
  destruct (negb (configured (OPENAI_API_KEY env))); [reflexivity|].
  pose proof (buildPromptWithAttachments_None StringToNumber
                (get body "prompt") (get body "attachments")) as Hnone.
  destruct (buildPromptWithAttachments StringToNumber _ _) as [text|].
  - destruct (attachments_throw _ _);
      [destruct Hnone as [_ Hnone]; discriminate (Hnone eq_refl)|].
    cbn [orb].
    destruct (unprintable (or_else (get body "model") (JString "")));
      [reflexivity|].
    rewrite (for_of_kept _
               (fun m => message (chat_role m) (JString (content_of m)))).
    reflexivity.
  - rewrite (proj1 Hnone eq_refl). reflexivity.
Qed.

End Stream.

Lemma sampling_untouched g t mt mct x y k :
  k <> "temperature" -> k <> "max_tokens" -> k <> "max_completion_tokens" ->
  k <> "stream" ->
  get (set (with_sampling g t mt mct (JObject [("model", x); ("messages", y)]))
           "stream" (JBool true)) k
  = get (JObject [("model", x); ("messages", y)]) k.
Proof.
  intros H1 H2 H3 H4. rewrite get_set_ne by congruence.
  unfold with_sampling.
  repeat match goal with
         | |- context [if ?b then _ else _] => destruct b
         end;
    repeat rewrite get_set_ne by congruence; reflexivity.
Qed.

Lemma sampling_stream_flag g t mt mct x y :
  get (set (with_sampling g t mt mct (JObject [("model", x); ("messages", y)]))
           "stream" (JBool true)) "stream"
  = JBool true.
Proof.
  destruct (with_sampling _ _ _ _ _) eqn:Hw; try apply JsFacts.get_set_eq.
  all: exfalso; revert Hw; unfold with_sampling;
    repeat match goal with
           | |- context [if ?b then _ else _] => destruct b
           end; discriminate.
Qed.

(** X28. [/api/stream] gets to its SDK call exactly when the prompt is
    truthy, the key is set and nothing throws while the payload is
    built (the conversions of the attachments, of the prompt when
    there are attachments, and of the model); when something throws
    there, the [catch] writes the error event instead. The transcript
    it then sends is, after the optional system message, the kept turns
    of [histories[modelId]] when [modelId] is a string and that entry is
    an array, and else of [histories.openai], and last the prompt with
    the attachments; the legacy [history] and the slots [model1] to
    [model3] are never read. The order is the reverse of the one
    [/api/ask] uses for the OpenAI provider: when both entries are
    arrays, [/api/ask] sends [histories.openai] and [/api/stream]
    sends [histories[modelId]]. *)
Theorem stream_messages env readJsonSafe StringToNumber reqBody :
  let histories := req_histories reqBody in
  let modelId := req_modelId reqBody in
  let chosen :=
    if isString modelId && isArray (get_at histories modelId)
    then get_at histories modelId
    else or_else (get histories "openai") (JArray []) in
  let throws :=
    attachments_throw (req_prompt reqBody) (req_attachments reqBody)
    || unprintable (or_else (get (or_else reqBody (JObject [])) "model")
                            (JString "")) in
  ((exists payload, stream env StringToNumber reqBody = StreamCreate payload)
   <-> truthy (req_prompt reqBody) = true
       /\ configured (OPENAI_API_KEY env) = true
       /\ throws = false)
  /\ (truthy (req_prompt reqBody) = true ->
      configured (OPENAI_API_KEY env) = true ->
      throws = true ->
      stream env StringToNumber reqBody
      = StreamError
          (JObject [("error",
                     JString "Cannot convert object to primitive value")]))
  /\ (forall payload,
        stream env StringToNumber reqBody = StreamCreate payload ->
        get payload "stream" = JBool true
        /\ exists text,
             buildPromptWithAttachments StringToNumber (req_prompt reqBody)
                                        (req_attachments reqBody)
             = Some text
             /\ elements (get payload "messages")
                = (if truthy (req_system reqBody)
                   then [message "system" (req_system reqBody)] else [])
                  ++ map (fun m => message (chat_role m)
                                           (JString (content_of m)))
                         (kept_turns chosen)
                  ++ [message "user" text])
  /\ (isString modelId = true -> isArray (get_at histories modelId) = true ->
      isArray (get histories "openai") = true ->
      chosen = get_at histories modelId
      /\ history (adapter_args readJsonSafe StringToNumber reqBody OpenAI)
         = get histories "openai").
Proof.
  intros histories modelId chosen throws.
  pose proof (stream_cases env StringToNumber reqBody) as Hcases.
  change (get (or_else reqBody (JObject [])) "prompt")
    with (req_prompt reqBody) in Hcases.
  change (get (or_else reqBody (JObject [])) "attachments")
    with (req_attachments reqBody) in Hcases.
  change (get (or_else reqBody (JObject [])) "system")
    with (req_system reqBody) in Hcases.
  change (get (or_else reqBody (JObject [])) "histories")
    with histories in Hcases.
  change (get (or_else reqBody (JObject [])) "modelId")
    with modelId in Hcases.
  fold chosen in Hcases. fold throws in Hcases.
  assert (Hbuilt : throws = false ->
            exists text,
              buildPromptWithAttachments StringToNumber (req_prompt reqBody)
                                         (req_attachments reqBody)
              = Some text).
  { intros Ht. apply orb_false_iff in Ht as [Ht _].
    destruct (buildPromptWithAttachments StringToNumber _ _) as [text|] eqn:Hb;
      [eauto|].
    apply buildPromptWithAttachments_None in Hb. congruence. }
  destruct (truthy (req_prompt reqBody)) eqn:Hprompt; cbn [negb] in Hcases.
  2: { rewrite Hcases. split; [|split; [|split]].
       - split; [intros [payload Hp]; discriminate Hp|].
         intros (H & _); discriminate H.
       - discriminate.
       - discriminate.
       - intros Hs Ha Ho. unfold chosen. rewrite Hs, Ha. split; [reflexivity|].
         cbn [history adapter_args]. unfold pickHist.
         change (get (req_histories reqBody) (provider_key OpenAI))
           with (get histories "openai").
         rewrite Ho. reflexivity. }
  destruct (configured (OPENAI_API_KEY env)) eqn:Hkey; cbn [negb] in Hcases.
  2: { rewrite Hcases. split; [|split; [|split]].
       - split; [intros [payload Hp]; discriminate Hp|].
         intros (_ & H & _); discriminate H.
       - discriminate.
       - discriminate.
       - intros Hs Ha Ho. unfold chosen. rewrite Hs, Ha. split; [reflexivity|].
         cbn [history adapter_args]. unfold pickHist.
         change (get (req_histories reqBody) (provider_key OpenAI))
           with (get histories "openai").
         rewrite Ho. reflexivity. }
  destruct throws eqn:Ht.
  { rewrite Hcases. split; [|split; [|split]].
    - split; [intros [payload Hp]; discriminate Hp|].
      intros (_ & _ & H); discriminate H.
    - reflexivity.
    - discriminate.
    - intros Hs Ha Ho. unfold chosen. rewrite Hs, Ha. split; [reflexivity|].
      cbn [history adapter_args]. unfold pickHist.
      change (get (req_histories reqBody) (provider_key OpenAI))
        with (get histories "openai").
      rewrite Ho. reflexivity. }
  destruct (Hbuilt eq_refl) as [text Hb]. rewrite Hb in Hcases.
  rewrite Hcases. split; [|split; [|split]].
  - split; [auto|]. intros _. eauto.
  - discriminate.
  - intros payload Hp. injection Hp as <-.
    split; [apply sampling_stream_flag|].
    exists text. split; [exact Hb|].
    rewrite sampling_untouched by discriminate. reflexivity.
  - intros Hs Ha Ho. unfold chosen. rewrite Hs, Ha. split; [reflexivity|].
    cbn [history adapter_args]. unfold pickHist.
    change (get (req_histories reqBody) (provider_key OpenAI))
      with (get histories "openai").
    rewrite Ho. reflexivity.
Qed.

Example stream_model_throws :
  stream openai_only digits_only
    (JObject [("prompt", JString "hi");
              ("model", JObject [("toString", JNumber (Int 0))])])
  = StreamError
      (JObject [("error", JString "Cannot convert object to primitive value")]).
Proof. reflexivity. Qed.

Example stream_two_histories :
  exists payload,
    stream openai_only digits_only two_histories = StreamCreate payload
    /\ get payload "stream" = JBool true
    /\ elements (get payload "messages")
       = [message "assistant" (JString "B"); message "user" (JString "hi")].
Proof. eexists. split; [reflexivity|]. split; reflexivity. Qed.

(** X29. The payload [/api/stream] sends carries
    [model || DEFAULTS.openaiModel], while the model family is decided
    on [model || '']: the sampling parameters follow the switch for the
    model the request names, and a request that names no model goes out
    for the default model, which is of the newer family, with the
    parameters of the older one ([temperature] and [max_tokens], when
    they are numbers, and no [max_completion_tokens]). *)
Theorem stream_sampling_switch env StringToNumber reqBody payload :
  stream env StringToNumber reqBody = StreamCreate payload ->
  let body := or_else reqBody (JObject []) in
  let tested := or_else (get body "model") (JString "") in
  let t := get body "temperature" in
  let mt := get body "maxTokens" in
  let mct := get body "maxCompletionTokens" in
  get payload "model" = or_else (get body "model") (openaiModel DEFAULTS)
  /\ switched tested t mt mct payload = true
  /\ get payload "temperature"
     = (if has_field payload "temperature" then t else JUndefined)
  /\ get payload "max_completion_tokens"
     = (if has_field payload "max_completion_tokens"
        then nullish mct mt else JUndefined)
  /\ get payload "max_tokens"
     = (if has_field payload "max_tokens" then nullish mt mct else JUndefined)
  /\ (truthy (get body "model") = false ->
      get payload "model" = JString "gpt-5-mini-2025-08-07"
      /\ isGpt5 (get payload "model") = true
      /\ has_field payload "max_completion_tokens" = false
      /\ has_field payload "temperature" = isNumber t
      /\ has_field payload "max_tokens" = isNumber (nullish mt mct)).
Proof.
  intros Hp body tested t mt mct.
  rewrite (stream_cases env StringToNumber reqBody) in Hp.
  destruct (negb (truthy _)); [discriminate|].
  destruct (negb (configured _)); [discriminate|].
  destruct (_ || _); [discriminate|].
  destruct (buildPromptWithAttachments StringToNumber _ _) as [text|];
    [|discriminate].
  injection Hp as <-. fold body. fold tested. fold t. fold mt. fold mct.
  split; [rewrite sampling_untouched by discriminate; reflexivity|].
  split; [apply switched_stream|].
  split; [apply stream_values|].
  split; [apply stream_values|].
  split; [apply stream_values|].
  intros Hm.
  assert (Htested : tested = JString "").
  { unfold tested, or_else. rewrite Hm. reflexivity. }
  rewrite sampling_untouched by discriminate.
  cbn [get lookup_field String.eqb Ascii.eqb Bool.eqb].
  unfold or_else at 1 2. rewrite Hm.
  split; [reflexivity|]. split; [reflexivity|].
  rewrite Htested. change (isGpt5 (JString "")) with false.
  unfold with_sampling. cbn [negb andb].
  destruct (isNumber t), (isNumber (nullish mt mct)); repeat split; reflexivity.
Qed.

Lemma stream_sampling_switch_witness :
  exists payload,
    stream openai_only digits_only modelless_stream = StreamCreate payload
    /\ get payload "model" = JString "gpt-5-mini-2025-08-07"
    /\ get payload "temperature" = JNumber (Frac "0.5")
    /\ get payload "max_tokens" = JNumber (Int 64)
    /\ has_field payload "max_completion_tokens" = false.
Proof.
  destruct (stream openai_only digits_only modelless_stream)
    as [text|event|payload] eqn:Hs;
    [discriminate Hs|discriminate Hs|].
  exists payload. split; [reflexivity|].
  destruct (stream_sampling_switch openai_only digits_only modelless_stream
              payload Hs) as (_ & _ & Ht & _ & Hm & Hdefault).
  destruct (Hdefault eq_refl) as (Hmodel & _ & Hmct & Hhas_t & Hhas_m).
  split; [exact Hmodel|]. 
  rewrite Hhas_t in Ht. rewrite Hhas_m in Hm.
  split; [exact Ht|]. split; [exact Hm|exact Hmct].
Defined.

End StreamFacts.
